(** * HelpNest help-desk API: authentication, tenancy guards and pager

    A shallow embedding of the Express/Prisma back end (apps/api/src):
    [lib/jwt.ts], [lib/refreshToken.ts], [lib/supportAgent.ts],
    [lib/ticketAccess.ts], [middleware/workspaceAccess.ts],
    [routes/workspaces.ts], [routes/tickets.ts], [routes/auth.ts] and
    [index.ts].

    Conventions.
    - JavaScript strings are [string]s; a JavaScript [Date] that is not
      "Invalid Date" is its time value, a [Z] number of milliseconds since
      the epoch; [Date.parse] returns [option Z], [None] being NaN.
    - The Prisma tables are lists of rows, in no meaningful order.
    - Values the program obtains from outside (the clock, random tokens,
      generated primary keys) are explicit arguments of the handlers.
    - Library functions whose code is not part of the repository
      (SHA-256, jsonwebtoken, bcrypt, zod schemas of missing files) are
      [Variable]s of the section that holds the program. *)

From Stdlib Require Import ZArith List String Ascii Bool Lia Permutation Sorted.
Import ListNotations.
Local Open Scope string_scope.
Local Open Scope Z_scope.

(* ------------------------------------------------------------------ *)
(** ** JavaScript string primitives *)

Module JS.

(** [s.includes(c)] for a one-character needle. *)
Fixpoint includes (c : ascii) (s : string) : bool :=
  match s with
  | EmptyString => false
  | String x s' => if Ascii.eqb x c then true else includes c s'
  end.

(** [s.split(c)] for a one-character separator: the pieces between the
    occurrences of [c]; a string without [c] gives one piece. *)
Fixpoint split (c : ascii) (s : string) : list string :=
  match s with
  | EmptyString => [EmptyString]
  | String x s' =>
      if Ascii.eqb x c then EmptyString :: split c s'
      else match split c s' with
           | p :: ps => String x p :: ps
           | [] => [String x EmptyString]
           end
  end.

(** [s.indexOf(c)], [None] standing for [-1]. *)
Fixpoint indexOf (c : ascii) (s : string) : option nat :=
  match s with
  | EmptyString => None
  | String x s' =>
      if Ascii.eqb x c then Some O
      else match indexOf c s' with Some i => Some (S i) | None => None end
  end.

(** [s.slice(n)]: the suffix from position [n]. *)
Fixpoint slice (n : nat) (s : string) : string :=
  match n, s with
  | O, _ => s
  | S n', String _ s' => slice n' s'
  | S _, EmptyString => EmptyString
  end.

(** ASCII part of [toLowerCase]. *)
Definition lower_char (c : ascii) : ascii :=
  let n := nat_of_ascii c in
  if andb (Nat.leb 65 n) (Nat.leb n 90) then ascii_of_nat (n + 32) else c.

Fixpoint toLowerCase (s : string) : string :=
  match s with
  | EmptyString => EmptyString
  | String x s' => String (lower_char x) (toLowerCase s')
  end.

(** White space as [trim] and [parseInt] see it (the ASCII part). *)
Definition is_space (c : ascii) : bool :=
  let n := nat_of_ascii c in
  orb (andb (Nat.leb 9 n) (Nat.leb n 13)) (Nat.eqb n 32).

Fixpoint trimStart (s : string) : string :=
  match s with
  | String x s' => if is_space x then trimStart s' else s
  | EmptyString => EmptyString
  end.

Fixpoint rev_string (acc s : string) : string :=
  match s with
  | EmptyString => acc
  | String x s' => rev_string (String x acc) s'
  end.

Definition trim (s : string) : string :=
  rev_string EmptyString (trimStart (rev_string EmptyString (trimStart s))).

(** The value of a decimal digit, by its character code. *)
Definition digit_val (c : ascii) : option Z :=
  let n := nat_of_ascii c in
  if andb (Nat.leb 48 n) (Nat.leb n 57) then Some (Z.of_nat (n - 48))
  else None.

(** The character of a digit [0 <= d <= 9]. *)
Definition digit_char (d : Z) : ascii := ascii_of_nat (48 + Z.to_nat d).

(** The longest prefix of decimal digits, as a number; [None] when the
    string does not start with a digit. *)
Fixpoint digits_prefix (acc : option Z) (s : string) : option Z :=
  match s with
  | EmptyString => acc
  | String x s' =>
      match digit_val x with
      | Some d =>
          digits_prefix
            (Some (10 * match acc with Some a => a | None => 0 end + d)) s'
      | None => acc
      end
  end.

(** [parseInt(s, 10)]: leading white space, an optional sign, then the
    longest run of digits; [None] is NaN.  The value is exact, where
    JavaScript rounds to a double above 2^53. *)
Definition parseInt (s : string) : option Z :=
  match trimStart s with
  | String "-"%char s' => option_map Z.opp (digits_prefix None s')
  | String "+"%char s' => digits_prefix None s'
  | s' => digits_prefix None s'
  end.

(** [String(n).padStart(k, "0")] followed by [rest], for [0 <= n < 10^k]. *)
Fixpoint padStart (k : nat) (n : Z) (rest : string) : string :=
  match k with
  | O => rest
  | S k' => padStart k' (n / 10) (String (digit_char (n mod 10)) rest)
  end.

End JS.

(* ------------------------------------------------------------------ *)
(** ** ECMAScript dates (ECMA-262, Date objects) *)

Module JsDate.

Definition msPerDay : Z := 86400000.
Definition maxTime : Z := 8640000000000000.

(** The time values a Date object can hold. *)
Definition valid_time (t : Z) : Prop := - maxTime <= t <= maxTime.

Definition Day (t : Z) : Z := t / msPerDay.
Definition TimeWithinDay (t : Z) : Z := t mod msPerDay.

Definition DaysInYear (y : Z) : Z :=
  if negb (y mod 4 =? 0) then 365
  else if negb (y mod 100 =? 0) then 366
  else if negb (y mod 400 =? 0) then 365
  else 366.

Definition DayFromYear (y : Z) : Z :=
  365 * (y - 1970) + (y - 1969) / 4 - (y - 1901) / 100 + (y - 1601) / 400.

(** The largest [y] with [DayFromYear y <= Day t], computed from the mean
    length of a Gregorian year and corrected by at most one. *)
Definition YearFromTime (t : Z) : Z :=
  let d := Day t in
  let y := 1970 + (400 * d) / 146097 in
  if d <? DayFromYear y then y - 1
  else if DayFromYear (y + 1) <=? d then y + 1
  else y.

Definition InLeapYear (t : Z) : Z :=
  if DaysInYear (YearFromTime t) =? 366 then 1 else 0.

Definition DayWithinYear (t : Z) : Z := Day t - DayFromYear (YearFromTime t).

(** First day of month [m] (0-based) within a year, [l] being 1 in a leap
    year. *)
Definition monthStart (m l : Z) : Z :=
  match m with
  | 0 => 0 | 1 => 31 | 2 => 59 + l | 3 => 90 + l | 4 => 120 + l
  | 5 => 151 + l | 6 => 181 + l | 7 => 212 + l | 8 => 243 + l
  | 9 => 273 + l | 10 => 304 + l | 11 => 334 + l
  | _ => 365 + l
  end.

Definition MonthFromTime (t : Z) : Z :=
  let d := DayWithinYear t in
  let l := InLeapYear t in
  if d <? 31 then 0
  else if d <? 59 + l then 1
  else if d <? 90 + l then 2
  else if d <? 120 + l then 3
  else if d <? 151 + l then 4
  else if d <? 181 + l then 5
  else if d <? 212 + l then 6
  else if d <? 243 + l then 7
  else if d <? 273 + l then 8
  else if d <? 304 + l then 9
  else if d <? 334 + l then 10
  else 11.

Definition DateFromTime (t : Z) : Z :=
  DayWithinYear t - monthStart (MonthFromTime t) (InLeapYear t) + 1.

Definition HourFromTime (t : Z) : Z := (t / 3600000) mod 24.
Definition MinFromTime (t : Z) : Z := (t / 60000) mod 60.
Definition SecFromTime (t : Z) : Z := (t / 1000) mod 60.
Definition msFromTime (t : Z) : Z := t mod 1000.

(** Year part of the date-time string format: four digits for the years
    0 to 9999, otherwise a sign and six digits. *)
Definition isoYear (y : Z) (rest : string) : string :=
  if andb (0 <=? y) (y <=? 9999) then JS.padStart 4 y rest
  else String (if y <? 0 then "-"%char else "+"%char)
              (JS.padStart 6 (Z.abs y) rest).

(** [Date.prototype.toISOString] of a valid date:
    YYYY-MM-DDTHH:mm:ss.sssZ. *)
Definition toISOString (t : Z) : string :=
  isoYear (YearFromTime t)
    (String "-" (JS.padStart 2 (MonthFromTime t + 1)
    (String "-" (JS.padStart 2 (DateFromTime t)
    (String "T" (JS.padStart 2 (HourFromTime t)
    (String ":" (JS.padStart 2 (MinFromTime t)
    (String ":" (JS.padStart 2 (SecFromTime t)
    (String "." (JS.padStart 3 (msFromTime t) "Z")))))))))))).

(** Reading exactly [k] decimal digits. *)
Fixpoint readDigits (k : nat) (acc : Z) (s : string) : option (Z * string) :=
  match k with
  | O => Some (acc, s)
  | S k' =>
      match s with
      | String c s' =>
          match JS.digit_val c with
          | Some d => readDigits k' (10 * acc + d) s'
          | None => None
          end
      | EmptyString => None
      end
  end.

Definition expect (c : ascii) (s : string) : option string :=
  match s with
  | String x s' => if Ascii.eqb x c then Some s' else None
  | EmptyString => None
  end.

Definition readYear (s : string) : option (Z * string) :=
  match s with
  | String "+"%char s' => readDigits 6 0 s'
  | String "-"%char s' =>
      match readDigits 6 0 s' with
      | Some (y, r) => if y =? 0 then None else Some (- y, r)
      | None => None
      end
  | _ => readDigits 4 0 s
  end.

Record Fields : Type := mkFields {
  f_year : Z; f_month : Z; f_day : Z;
  f_hour : Z; f_min : Z; f_sec : Z; f_ms : Z
}.

Definition obind {A B : Type} (o : option A) (k : A -> option B) : option B :=
  match o with Some a => k a | None => None end.

(** The complete UTC form of the date-time string format. *)
Definition parseISO (s : string) : option Fields :=
  obind (readYear s) (fun '(y, s) =>
  obind (expect "-" s) (fun s =>
  obind (readDigits 2 0 s) (fun '(mo, s) =>
  obind (expect "-" s) (fun s =>
  obind (readDigits 2 0 s) (fun '(d, s) =>
  obind (expect "T" s) (fun s =>
  obind (readDigits 2 0 s) (fun '(h, s) =>
  obind (expect ":" s) (fun s =>
  obind (readDigits 2 0 s) (fun '(mi, s) =>
  obind (expect ":" s) (fun s =>
  obind (readDigits 2 0 s) (fun '(sec, s) =>
  obind (expect "." s) (fun s =>
  obind (readDigits 3 0 s) (fun '(ms, s) =>
  match s with
  | "Z" => Some (mkFields y mo d h mi sec ms)
  | _ => None
  end))))))))))))).

Definition leapOf (y : Z) : Z := if DaysInYear y =? 366 then 1 else 0.

Definition DaysInMonth (y mo : Z) : Z :=
  monthStart mo (leapOf y) - monthStart (mo - 1) (leapOf y).

Definition legal (f : Fields) : bool :=
  (1 <=? f_month f) && (f_month f <=? 12)
  && (1 <=? f_day f) && (f_day f <=? DaysInMonth (f_year f) (f_month f))
  && (f_hour f <=? 23) && (f_min f <=? 59) && (f_sec f <=? 59).

(** [MakeDay] for a month within the year ([mo] counted from 1). *)
Definition MakeDay (y mo d : Z) : Z :=
  DayFromYear y + monthStart (mo - 1) (leapOf y) + d - 1.

Definition MakeTime (h mi s ms : Z) : Z :=
  h * 3600000 + mi * 60000 + s * 1000 + ms.

Definition MakeDate (day time : Z) : Z := day * msPerDay + time.

Definition TimeClip (t : Z) : option Z :=
  if Z.abs t <=? maxTime then Some t else None.

Section Parse.

(** What the engine makes of a string that is not a complete UTC
    date-time string with legal fields: the shorter forms of the format
    and the implementation-defined fall-backs. *)
Variable otherFormats : string -> option Z.

(** [new Date(s).getTime()], [None] for NaN. *)
Definition parse (s : string) : option Z :=
  match parseISO s with
  | Some f =>
      if legal f then
        TimeClip (MakeDate (MakeDay (f_year f) (f_month f) (f_day f))
                           (MakeTime (f_hour f) (f_min f) (f_sec f) (f_ms f)))
      else otherFormats s
  | None => otherFormats s
  end.

End Parse.

End JsDate.

(* ------------------------------------------------------------------ *)
(** ** Cursor helpers of routes/workspaces.ts *)

Module Cursor.

Record t : Type := mk { date : Z; id : string }.

Section WithEngine.

Variable otherFormats : string -> option Z.

(** [parseCursor(cursor: string | undefined)]. *)
Definition parseCursor (cursor : option string) : option t :=
  match cursor with
  | None => None
  | Some c =>
      if orb (String.eqb c "") (negb (JS.includes "|" c)) then None
      else
        match JS.split "|" c with
        | [dateStr; id] =>
            match JsDate.parse otherFormats dateStr with
            | None => None
            | Some d => if String.eqb id "" then None else Some (mk d id)
            end
        | _ => None
        end
  end.

End WithEngine.

(** [encodeCursor(date, id)]. *)
Definition encodeCursor (date : Z) (id : string) : string :=
  JsDate.toISOString date ++ "|" ++ id.

End Cursor.

(* ------------------------------------------------------------------ *)
(** ** Data model (prisma migrations) *)

Inductive WorkspaceRole : Type := ADMIN | MEMBER.
Inductive WorkspaceKind : Type := CUSTOMER | SUPPORT_OPS.
Inductive TicketStatus : Type := OPEN | PENDING | RESOLVED | CLOSED.
Inductive TicketPriority : Type := LOW | MEDIUM | HIGH.

Definition role_eqb (a b : WorkspaceRole) : bool :=
  match a, b with ADMIN, ADMIN | MEMBER, MEMBER => true | _, _ => false end.

Definition kind_eqb (a b : WorkspaceKind) : bool :=
  match a, b with
  | CUSTOMER, CUSTOMER | SUPPORT_OPS, SUPPORT_OPS => true
  | _, _ => false
  end.

Definition status_eqb (a b : TicketStatus) : bool :=
  match a, b with
  | OPEN, OPEN | PENDING, PENDING | RESOLVED, RESOLVED | CLOSED, CLOSED => true
  | _, _ => false
  end.

Module User.
Record t : Type := mk {
  id : string; email : string; passwordHash : string; isSupportAgent : bool
}.
End User.

Module Workspace.
Record t : Type := mk {
  id : string; name : string; domain : option string; kind : WorkspaceKind
}.
End Workspace.

Module WorkspaceMember.
Record t : Type := mk {
  id : string; workspaceId : string; userId : string; role : WorkspaceRole
}.
End WorkspaceMember.

Module Ticket.
Record t : Type := mk {
  id : string; workspaceId : string; createdByUserId : string;
  title : string; status : TicketStatus; priority : option TicketPriority;
  category : option string; createdAt : Z; updatedAt : Z
}.
End Ticket.

Module TicketMessage.
Record t : Type := mk {
  id : string; ticketId : string; authorId : string; content : string;
  createdAt : Z
}.
End TicketMessage.

Module RefreshSession.
Record t : Type := mk {
  id : string; userId : string; refreshTokenHash : string;
  expiresAt : Z; createdAt : Z; revokedAt : option Z
}.
(** [data: { revokedAt: at }]. *)
Definition with_revokedAt (at_ : Z) (s : t) : t :=
  mk (id s) (userId s) (refreshTokenHash s) (expiresAt s) (createdAt s)
     (Some at_).
End RefreshSession.

(** The datastore: one list of rows per table. *)
Module Db.
Record t : Type := mk {
  users : list User.t;
  workspaces : list Workspace.t;
  workspaceMembers : list WorkspaceMember.t;
  tickets : list Ticket.t;
  ticketMessages : list TicketMessage.t;
  refreshSessions : list RefreshSession.t
}.

Definition with_users (d : t) (x : list User.t) : t :=
  mk x (workspaces d) (workspaceMembers d) (tickets d) (ticketMessages d)
     (refreshSessions d).
Definition with_workspaces (d : t) (x : list Workspace.t) : t :=
  mk (users d) x (workspaceMembers d) (tickets d) (ticketMessages d)
     (refreshSessions d).
Definition with_workspaceMembers (d : t) (x : list WorkspaceMember.t) : t :=
  mk (users d) (workspaces d) x (tickets d) (ticketMessages d)
     (refreshSessions d).
Definition with_tickets (d : t) (x : list Ticket.t) : t :=
  mk (users d) (workspaces d) (workspaceMembers d) x (ticketMessages d)
     (refreshSessions d).
Definition with_ticketMessages (d : t) (x : list TicketMessage.t) : t :=
  mk (users d) (workspaces d) (workspaceMembers d) (tickets d) x
     (refreshSessions d).
Definition with_refreshSessions (d : t) (x : list RefreshSession.t) : t :=
  mk (users d) (workspaces d) (workspaceMembers d) (tickets d)
     (ticketMessages d) x.
End Db.

(** The constraints the migrations declare: primary keys, the unique
    index on (workspace_id, user_id), the unique indexes on User.email
    and Workspace.domain, and the foreign key of tickets to workspaces. *)
Module Constraints.

Definition tickets_pkey (d : Db.t) : Prop :=
  NoDup (map Ticket.id (Db.tickets d)).

Definition workspaces_pkey (d : Db.t) : Prop :=
  NoDup (map Workspace.id (Db.workspaces d)).

Definition sessions_pkey (d : Db.t) : Prop :=
  NoDup (map RefreshSession.id (Db.refreshSessions d)).

Definition members_unique (d : Db.t) : Prop :=
  NoDup (map (fun m => (WorkspaceMember.workspaceId m, WorkspaceMember.userId m))
             (Db.workspaceMembers d)).

Definition tickets_workspace_fkey (d : Db.t) : Prop :=
  forall t, In t (Db.tickets d) ->
  exists w, In w (Db.workspaces d) /\ Workspace.id w = Ticket.workspaceId t.

(** Section 3 of the specification: a session's hash is unique.  The
    schema only indexes the column; the tokens being 32 random bytes, two
    sessions never share a hash in practice. *)
Definition session_hashes_unique (d : Db.t) : Prop :=
  NoDup (map RefreshSession.refreshTokenHash (Db.refreshSessions d)).

End Constraints.

(* ------------------------------------------------------------------ *)
(** ** Results, the handler monad and HTTP responses *)

(** A JavaScript completion: a value, or a thrown error. *)
Inductive Result (A : Type) : Type :=
  | Ok (a : A)
  | Throw (msg : string).
Arguments Ok {A} a.
Arguments Throw {A} msg.

(** A handler acts on the datastore and completes with a value or throws;
    what it wrote before throwing stays written (no transaction unless
    the source opens one). *)
Definition M (A : Type) : Type := Db.t -> Db.t * Result A.

Definition ret {A : Type} (a : A) : M A := fun d => (d, Ok a).
Definition throw {A : Type} (msg : string) : M A := fun d => (d, Throw msg).
Definition bind {A B : Type} (m : M A) (k : A -> M B) : M B :=
  fun d =>
    match m d with
    | (d', Ok a) => k a d'
    | (d', Throw e) => (d', Throw e)
    end.
Definition get : M Db.t := fun d => (d, Ok d).
Definition lift {A : Type} (r : Result A) : M A := fun d => (d, r).

Declare Scope handler_scope.
Delimit Scope handler_scope with handler.
Notation "x <- m ;; k" := (bind m (fun x => k))
  (at level 61, m at next level, right associativity) : handler_scope.

(** The cookies a response sets or clears (lib/cookies.ts). *)
Inductive Cookie : Type :=
  | SetAccessToken (value : string)
  | SetRefreshToken (value : string)
  | ClearAccessToken
  | ClearRefreshToken.

Module TicketWithMessages.
Record t : Type := mk {
  ticket : Ticket.t;
  workspaceKind : WorkspaceKind;
  messages : list TicketMessage.t
}.
End TicketWithMessages.

(** The JSON bodies the modelled routes send. *)
Inductive Body : Type :=
  | ErrorBody (code message : string)
  | UserBody (userId : string)
  | TicketBody (ticket : TicketWithMessages.t)
  | ItemsBody (items : list Ticket.t) (nextCursor : option string)
  | MessageBody (message : TicketMessage.t)
  | OkBody.

Module Response.
Record t : Type := mk { status : Z; body : Body; cookies : list Cookie }.
Definition json (status : Z) (b : Body) : t := mk status b [].
Definition error (status : Z) (code message : string) : t :=
  mk status (ErrorBody code message) [].
End Response.

(** [process.env], as far as the modelled files read it. *)
Module Env.
Record t : Type := mk {
  JWT_ACCESS_SECRET : option string;
  SUPPORT_AGENT_EMAIL_DOMAINS : option string;
  PORT : option string;
  WEB_ORIGIN : option string;
  NODE_ENV : option string
}.
End Env.

(* ------------------------------------------------------------------ *)
(** ** Prisma queries *)

Module Prisma.

(** [create]: the row is added unless it collides with a row on a
    primary key or a unique index, in which case the client throws.
    Foreign keys are not checked again: the handlers only refer to rows
    they have just read or created. *)
Definition create {A : Type} (collides : A -> A -> bool) (row : A)
    (table : list A) : Result (list A) :=
  if existsb (collides row) table
  then Throw "Unique constraint failed"
  else Ok (table ++ [row])%list.

(** [updateMany]: every row matching [where] is replaced by [data row]. *)
Definition updateMany {A : Type} (where_ : A -> bool) (data : A -> A)
    (table : list A) : list A :=
  map (fun r => if where_ r then data r else r) table.

Fixpoint insert_by {A : Type} (leb : A -> A -> bool) (x : A) (l : list A)
    : list A :=
  match l with
  | [] => [x]
  | y :: l' => if leb x y then x :: l else y :: insert_by leb x l'
  end.

(** [orderBy]: the rows in the order of [leb]. *)
Definition orderBy {A : Type} (leb : A -> A -> bool) (l : list A) : list A :=
  fold_right (insert_by leb) [] l.

(** [findMany({ where, orderBy, take })]. *)
Definition findMany {A : Type} (where_ : A -> bool) (leb : A -> A -> bool)
    (take : nat) (table : list A) : list A :=
  firstn take (orderBy leb (filter where_ table)).

End Prisma.

(* ------------------------------------------------------------------ *)
(** ** lib/jwt.ts *)

Module jwt.

Definition ACCESS_TOKEN_TTL_SEC : Z := 10 * 60.

Definition secret_error : string :=
  "JWT_ACCESS_SECRET must be set and at least 16 chars".

(** [getSecret()]: [!secret] holds for an unset and for an empty
    variable. *)
Definition getSecret (env : Env.t) : Result string :=
  match Env.JWT_ACCESS_SECRET env with
  | None => Throw secret_error
  | Some secret =>
      if orb (String.eqb secret "") (Nat.ltb (String.length secret) 16)
      then Throw secret_error
      else Ok secret
  end.

Section WithJsonwebtoken.

(** [jwt.sign({ sub }, secret, { algorithm: "HS256", expiresIn })] at a
    given issue time and expiry, both in seconds. *)
Variable jwt_sign : string -> string -> Z -> Z -> string.

(** [jwt.verify(token, secret, { algorithms: ["HS256"] })] at a given
    time: the [sub] of the payload, if it has one, or a thrown error. *)
Variable jwt_verify : string -> string -> Z -> Result (option string).

(** [createAccessToken(userId)], the clock reading [now] in
    milliseconds. *)
Definition createAccessToken (env : Env.t) (now : Z) (userId : string)
    : Result string :=
  match getSecret env with
  | Throw e => Throw e
  | Ok secret =>
      let iat := now / 1000 in
      Ok (jwt_sign userId secret iat (iat + ACCESS_TOKEN_TTL_SEC))
  end.

(** [verifyAccessToken(token)]: the subject of the payload. *)
Definition verifyAccessToken (env : Env.t) (now : Z) (token : string)
    : Result string :=
  match getSecret env with
  | Throw e => Throw e
  | Ok secret =>
      match jwt_verify token secret (now / 1000) with
      | Throw e => Throw e
      | Ok (Some sub) =>
          if String.eqb sub "" then Throw "Invalid JWT payload" else Ok sub
      | Ok None => Throw "Invalid JWT payload"
      end
  end.

End WithJsonwebtoken.

End jwt.

(* ------------------------------------------------------------------ *)
(** ** lib/refreshToken.ts *)

Module refreshToken.

Definition REFRESH_TOKEN_BYTES : Z := 32.

Section WithCrypto.

(** [crypto.createHash("sha256").update(token).digest("hex")]. *)
Variable sha256_hex : string -> string.

Definition hashRefreshToken (token : string) : string := sha256_hex token.

End WithCrypto.

(** [generateRefreshToken()] returns 32 random bytes in hexadecimal; the
    handlers below receive its result as an outside value. *)

End refreshToken.

(* ------------------------------------------------------------------ *)
(** ** lib/supportAgent.ts *)

Module supportAgent.

Definition workspace_has_kind (db : Db.t) (workspaceId : string)
    (k : WorkspaceKind) : bool :=
  existsb (fun w => String.eqb (Workspace.id w) workspaceId
                    && kind_eqb (Workspace.kind w) k)
          (Db.workspaces db).

(** [isSupportAgent(prisma, userId)]: some membership of the user has
    role ADMIN in a workspace of kind SUPPORT_OPS. *)
Definition isSupportAgent (db : Db.t) (userId : string) : bool :=
  match
    find (fun m => String.eqb (WorkspaceMember.userId m) userId
                   && role_eqb (WorkspaceMember.role m) ADMIN
                   && workspace_has_kind db (WorkspaceMember.workspaceId m)
                        SUPPORT_OPS)
         (Db.workspaceMembers db)
  with
  | Some _ => true
  | None => false
  end.

End supportAgent.

(* ------------------------------------------------------------------ *)
(** ** lib/ticketAccess.ts *)

Module ticketAccess.

(** [prisma.workspaceMember.findUnique({ where: { workspaceId_userId } })]. *)
Definition member_findUnique (db : Db.t) (workspaceId userId : string)
    : option WorkspaceMember.t :=
  find (fun m => String.eqb (WorkspaceMember.workspaceId m) workspaceId
                 && String.eqb (WorkspaceMember.userId m) userId)
       (Db.workspaceMembers db).

Definition messages_of (db : Db.t) (ticketId : string)
    : list TicketMessage.t :=
  Prisma.orderBy
    (fun a b => TicketMessage.createdAt a <=? TicketMessage.createdAt b)
    (filter (fun m => String.eqb (TicketMessage.ticketId m) ticketId)
            (Db.ticketMessages db)).

(** [prisma.ticket.findUnique({ where: { id }, include: { workspace,
    messages } })].  The workspace is a required relation; a ticket whose
    workspace row is missing cannot be stored (foreign key). *)
Definition ticket_findUnique (db : Db.t) (ticketId : string)
    : option TicketWithMessages.t :=
  match find (fun t => String.eqb (Ticket.id t) ticketId) (Db.tickets db) with
  | None => None
  | Some t =>
      match find (fun w => String.eqb (Workspace.id w) (Ticket.workspaceId t))
                 (Db.workspaces db) with
      | None => None
      | Some w =>
          Some (TicketWithMessages.mk t (Workspace.kind w)
                  (messages_of db ticketId))
      end
  end.

(** [getTicketWithAccessCheck(ticketId, userId, isSupportAgent)]. *)
Definition getTicketWithAccessCheck (db : Db.t) (ticketId userId : string)
    (isSupportAgent : bool) : option TicketWithMessages.t :=
  match ticket_findUnique db ticketId with
  | None => None
  | Some ticket =>
      if isSupportAgent
         && kind_eqb (TicketWithMessages.workspaceKind ticket) CUSTOMER
      then Some ticket
      else
        match member_findUnique db
                (Ticket.workspaceId (TicketWithMessages.ticket ticket)) userId
        with
        | None => None
        | Some membership =>
            if role_eqb (WorkspaceMember.role membership) ADMIN
            then Some ticket
            else if role_eqb (WorkspaceMember.role membership) MEMBER
                    && String.eqb
                         (Ticket.createdByUserId
                            (TicketWithMessages.ticket ticket)) userId
            then Some ticket
            else None
        end
  end.

(** [getTicketForAdminUpdate(ticketId, userId, isSupportAgent)]. *)
Definition getTicketForAdminUpdate (db : Db.t) (ticketId userId : string)
    (isSupportAgent : bool) : option Ticket.t :=
  match ticket_findUnique db ticketId with
  | None => None
  | Some ticket =>
      if isSupportAgent
         && kind_eqb (TicketWithMessages.workspaceKind ticket) CUSTOMER
      then Some (TicketWithMessages.ticket ticket)
      else
        match member_findUnique db
                (Ticket.workspaceId (TicketWithMessages.ticket ticket)) userId
        with
        | None => None
        | Some membership =>
            if negb (role_eqb (WorkspaceMember.role membership) ADMIN)
            then None
            else Some (TicketWithMessages.ticket ticket)
        end
  end.

End ticketAccess.

(* ------------------------------------------------------------------ *)
(** ** middleware/requireAuth.ts and middleware/workspaceAccess.ts *)

Module AuthUser.
Record t : Type := mk { id : string; email : string; isSupportAgent : bool }.
End AuthUser.

Module WorkspaceMembershipInfo.
Record t : Type := mk { workspaceId : string; role : WorkspaceRole }.
End WorkspaceMembershipInfo.

(** A middleware either sends a response or calls [next()] with what it
    attached to the request. *)
Inductive Middleware (A : Type) : Type :=
  | Respond (r : Response.t)
  | Next (attached : A).
Arguments Respond {A} r.
Arguments Next {A} attached.

Module requireAuth.

Section WithJsonwebtoken.

Variable jwt_verify : string -> string -> Z -> Result (option string).

(** [requireAuth]: [token] is the access_token cookie, if any. *)
Definition requireAuth (env : Env.t) (now : Z) (db : Db.t)
    (token : option string) : Middleware AuthUser.t :=
  match token with
  | None => Respond (Response.error 401 "UNAUTHORIZED" "Access token required")
  | Some tok =>
      if String.eqb tok "" then
        Respond (Response.error 401 "UNAUTHORIZED" "Access token required")
      else
        match jwt.verifyAccessToken jwt_verify env now tok with
        | Throw _ =>
            Respond (Response.error 401 "UNAUTHORIZED"
                       "Invalid or expired access token")
        | Ok sub =>
            match find (fun u => String.eqb (User.id u) sub) (Db.users db) with
            | None =>
                Respond (Response.error 401 "UNAUTHORIZED" "User not found")
            | Some u =>
                Next (AuthUser.mk (User.id u) (User.email u)
                        (User.isSupportAgent u))
            end
        end
  end.

End WithJsonwebtoken.

End requireAuth.

Module workspaceAccess.

Definition ROLE_ORDER (r : WorkspaceRole) : Z :=
  match r with ADMIN => 2 | MEMBER => 1 end.

(** [requireWorkspaceMember(workspaceId)] applied to a request whose
    [req.user] is [user]. *)
Definition requireWorkspaceMember (db : Db.t) (workspaceId : string)
    (user : option AuthUser.t) : Middleware WorkspaceMembershipInfo.t :=
  match user with
  | None => Respond (Response.error 401 "UNAUTHORIZED" "Access token required")
  | Some user =>
      match find (fun w => String.eqb (Workspace.id w) workspaceId)
                 (Db.workspaces db) with
      | None => Respond (Response.error 404 "NOT_FOUND" "Workspace not found")
      | Some workspace =>
          let agent := supportAgent.isSupportAgent db (AuthUser.id user) in
          if agent && kind_eqb (Workspace.kind workspace) CUSTOMER then
            Next (WorkspaceMembershipInfo.mk workspaceId ADMIN)
          else
            match ticketAccess.member_findUnique db workspaceId
                    (AuthUser.id user) with
            | None =>
                Respond (Response.error 403 "FORBIDDEN"
                           "Not a member of this workspace")
            | Some membership =>
                Next (WorkspaceMembershipInfo.mk
                        (WorkspaceMember.workspaceId membership)
                        (WorkspaceMember.role membership))
            end
      end
  end.

(** [requireWorkspaceRole(workspaceId, requiredRole)]. *)
Definition requireWorkspaceRole (db : Db.t) (workspaceId : string)
    (requiredRole : WorkspaceRole) (user : option AuthUser.t)
    : Middleware WorkspaceMembershipInfo.t :=
  match requireWorkspaceMember db workspaceId user with
  | Respond r => Respond r
  | Next membership =>
      if ROLE_ORDER (WorkspaceMembershipInfo.role membership)
         <? ROLE_ORDER requiredRole
      then Respond (Response.error 403 "FORBIDDEN"
                      "Insufficient role for this workspace")
      else Next membership
  end.

(** [requireWorkspaceMemberFromParams(paramName)]: [param] is
    [req.params[paramName]]. *)
Definition requireWorkspaceMemberFromParams (db : Db.t)
    (param : option string) (user : option AuthUser.t)
    : Middleware WorkspaceMembershipInfo.t :=
  match param with
  | None =>
      Respond (Response.error 400 "VALIDATION_ERROR" "workspaceId is required")
  | Some workspaceId =>
      if String.eqb (JS.trim workspaceId) "" then
        Respond (Response.error 400 "VALIDATION_ERROR"
                   "workspaceId is required")
      else requireWorkspaceMember db workspaceId user
  end.

End workspaceAccess.

(* ------------------------------------------------------------------ *)
(** ** validation/tickets.ts *)

Module validation.

(** What [safeParse] returns: the parsed data, or the first error
    message. *)
Definition replyMessageSchema (message : option string) : string + string :=
  match message with
  | None => inr "Required"
  | Some m =>
      if Nat.ltb (String.length m) 1 then inr "Message is required"
      else if Nat.ltb 5000 (String.length m)
      then inr "Message must be at most 5000 characters"
      else inl m
  end.

End validation.

(* ------------------------------------------------------------------ *)
(** ** routes/workspaces.ts: the ticket listing *)

Module workspacesRoutes.

Inductive SortField : Type :=
  | createdAt | updatedAt | title | status | priority.

(** Membership of [VALID_SORTS]. *)
Definition valid_sort (s : string) : option SortField :=
  if String.eqb s "createdAt" then Some createdAt
  else if String.eqb s "updatedAt" then Some updatedAt
  else if String.eqb s "title" then Some title
  else if String.eqb s "status" then Some status
  else if String.eqb s "priority" then Some priority
  else None.

Inductive Column : Type :=
  | ColCreatedAt | ColUpdatedAt | ColTitle | ColStatus | ColPriority | ColId.

Inductive Direction : Type := asc | desc.

(** [getOrderBy(sort)]. *)
Definition getOrderBy (sort : SortField) : list (Column * Direction) :=
  match sort with
  | updatedAt => [(ColUpdatedAt, desc); (ColId, desc)]
  | title => [(ColTitle, asc); (ColId, asc)]
  | status => [(ColStatus, asc); (ColId, asc)]
  | priority => [(ColPriority, asc); (ColId, asc)]
  | createdAt => [(ColCreatedAt, desc); (ColId, desc)]
  end.

Definition status_rank (s : TicketStatus) : Z :=
  match s with OPEN => 0 | PENDING => 1 | RESOLVED => 2 | CLOSED => 3 end.

(** Position in the enum, NULL after every value. *)
Definition priority_rank (p : option TicketPriority) : Z :=
  match p with
  | Some LOW => 0 | Some MEDIUM => 1 | Some HIGH => 2 | None => 3
  end.

(** How the database compares two rows on one column, ascending; text
    is compared character by character, enum values by their position in
    the type. *)
Definition compare_column (c : Column) (a b : Ticket.t) : comparison :=
  match c with
  | ColCreatedAt => Z.compare (Ticket.createdAt a) (Ticket.createdAt b)
  | ColUpdatedAt => Z.compare (Ticket.updatedAt a) (Ticket.updatedAt b)
  | ColTitle => String.compare (Ticket.title a) (Ticket.title b)
  | ColStatus =>
      Z.compare (status_rank (Ticket.status a)) (status_rank (Ticket.status b))
  | ColPriority =>
      Z.compare (priority_rank (Ticket.priority a))
                (priority_rank (Ticket.priority b))
  | ColId => String.compare (Ticket.id a) (Ticket.id b)
  end.

Fixpoint compare_rows (keys : list (Column * Direction)) (a b : Ticket.t)
    : comparison :=
  match keys with
  | [] => Eq
  | (c, d) :: keys' =>
      match (match d with
             | asc => compare_column c a b
             | desc => CompOpp (compare_column c a b)
             end) with
      | Eq => compare_rows keys' a b
      | r => r
      end
  end.

(** [a] comes no later than [b] in the order [keys]. *)
Definition row_leb (keys : list (Column * Direction)) (a b : Ticket.t) : bool :=
  match compare_rows keys a b with Gt => false | _ => true end.

(** The query string of the listing: each field is [String(value)] of
    the parameter, when the request has it. *)
Module Query.
Record t : Type := mk {
  mine : option string; limit : option string;
  sort : option string; cursor : option string
}.
End Query.

Definition or_default (o : option string) (d : string) : string :=
  match o with Some s => s | None => d end.

(** [Math.min(50, Math.max(1, parseInt(String(limit ?? 20), 10) || 20))]. *)
Definition effective_limit (q : Query.t) : Z :=
  let parsed :=
    match JS.parseInt (or_default (Query.limit q) "20") with
    | None => 20
    | Some n => if n =? 0 then 20 else n
    end in
  Z.min 50 (Z.max 1 parsed).

Definition effective_mine (role : WorkspaceRole) (q : Query.t) : bool :=
  match role with
  | MEMBER => true
  | ADMIN =>
      match Query.mine q with
      | Some s => String.eqb s "true"
      | None => false
      end
  end.

Definition effective_sort (role : WorkspaceRole) (q : Query.t) : SortField :=
  match role, valid_sort (or_default (Query.sort q) "createdAt") with
  | ADMIN, Some s => s
  | _, _ => createdAt
  end.

Definition supportsCursor (sort : SortField) : bool :=
  match sort with createdAt | updatedAt => true | _ => false end.

(** The date column a cursor refers to. *)
Definition cursorField (sort : SortField) (t : Ticket.t) : Z :=
  match sort with
  | updatedAt => Ticket.updatedAt t
  | _ => Ticket.createdAt t
  end.

(** The [OR] clause built from a cursor. *)
Definition after_cursor (sort : SortField) (c : Cursor.t) (t : Ticket.t)
    : bool :=
  (cursorField sort t <? Cursor.date c)
  || ((cursorField sort t =? Cursor.date c)
      && String.ltb (Ticket.id t) (Cursor.id c)).

(** [baseWhere]. *)
Definition baseWhere (workspaceId userId : string) (mine : bool)
    (sort : SortField) (cursor : option Cursor.t) (t : Ticket.t) : bool :=
  String.eqb (Ticket.workspaceId t) workspaceId
  && (if mine then String.eqb (Ticket.createdByUserId t) userId else true)
  && match cursor with
     | Some c => after_cursor sort c t
     | None => true
     end.

Section WithEngine.

Variable otherFormats : string -> option Z.

Definition effective_cursor (sort : SortField) (q : Query.t)
    : option Cursor.t :=
  if supportsCursor sort
  then Cursor.parseCursor otherFormats (Some (or_default (Query.cursor q) ""))
  else None.

(** The rows [prisma.ticket.findMany] returns for the listing. *)
Definition fetched (db : Db.t) (membership : WorkspaceMembershipInfo.t)
    (userId : string) (q : Query.t) : list Ticket.t :=
  let role := WorkspaceMembershipInfo.role membership in
  let sort := effective_sort role q in
  Prisma.findMany
    (baseWhere (WorkspaceMembershipInfo.workspaceId membership) userId
       (effective_mine role q) sort (effective_cursor sort q))
    (row_leb (getOrderBy sort))
    (Z.to_nat (effective_limit q + 1))
    (Db.tickets db).

(** The handler of GET /workspaces/:workspaceId/tickets, after the
    middleware attached [membership]. *)
Definition listTickets (db : Db.t) (membership : WorkspaceMembershipInfo.t)
    (userId : string) (q : Query.t) : Response.t :=
  let role := WorkspaceMembershipInfo.role membership in
  let limit := effective_limit q in
  let sort := effective_sort role q in
  let items := fetched db membership userId q in
  let hasMore := limit <? Z.of_nat (List.length items) in
  let page := if hasMore then firstn (Z.to_nat limit) items else items in
  let nextCursor :=
    match last (map Some page) None with
    | Some l =>
        if hasMore && supportsCursor sort
        then Some (Cursor.encodeCursor (cursorField sort l) (Ticket.id l))
        else None
    | None => None
    end in
  Response.json 200 (ItemsBody page nextCursor).

(** The route with its middleware. *)
Definition GET_workspace_tickets (db : Db.t) (param : option string)
    (user : AuthUser.t) (q : Query.t) : Response.t :=
  match workspaceAccess.requireWorkspaceMemberFromParams db param (Some user)
  with
  | Respond r => r
  | Next membership => listTickets db membership (AuthUser.id user) q
  end.

End WithEngine.

End workspacesRoutes.

(* ------------------------------------------------------------------ *)
(** ** routes/tickets.ts *)

Module ticketsRoutes.

(** GET /tickets/:ticketId. *)
Definition GET_ticket (db : Db.t) (ticketId userId : string) : Response.t :=
  let agent := supportAgent.isSupportAgent db userId in
  match ticketAccess.getTicketWithAccessCheck db ticketId userId agent with
  | None => Response.error 404 "NOT_FOUND" "Ticket not found"
  | Some ticket => Response.json 200 (TicketBody ticket)
  end.

(** What POST /tickets/:ticketId/messages obtains from outside: the
    primary key and creation time of the new message and the
    [new Date()] written to the ticket. *)
Module Outside.
Record t : Type := mk { messageId : string; createdAt : Z; updatedAt : Z }.
End Outside.

Definition message_collides (a b : TicketMessage.t) : bool :=
  String.eqb (TicketMessage.id a) (TicketMessage.id b).

(** The transaction of the reply: the message row and the ticket's
    [updatedAt], both or neither. *)
Definition reply_transaction (o : Outside.t) (ticketId userId content : string)
    : M TicketMessage.t :=
  fun db =>
    let message :=
      TicketMessage.mk (Outside.messageId o) ticketId userId content
        (Outside.createdAt o) in
    match Prisma.create message_collides message (Db.ticketMessages db) with
    | Throw e => (db, Throw e)
    | Ok messages =>
        let tickets :=
          Prisma.updateMany
            (fun t => String.eqb (Ticket.id t) ticketId)
            (fun t =>
               Ticket.mk (Ticket.id t) (Ticket.workspaceId t)
                 (Ticket.createdByUserId t) (Ticket.title t) (Ticket.status t)
                 (Ticket.priority t) (Ticket.category t) (Ticket.createdAt t)
                 (Outside.updatedAt o))
            (Db.tickets db) in
        (Db.with_tickets (Db.with_ticketMessages db messages) tickets,
         Ok message)
    end.

(** POST /tickets/:ticketId/messages; [message] is the [message] field of
    the body when it is a string. *)
Definition POST_message (o : Outside.t) (ticketId userId : string)
    (message : option string) : M Response.t :=
  fun db =>
    let agent := supportAgent.isSupportAgent db userId in
    match validation.replyMessageSchema message with
    | inr msg => (db, Ok (Response.error 400 "VALIDATION_ERROR" msg))
    | inl content =>
        match ticketAccess.getTicketWithAccessCheck db ticketId userId agent
        with
        | None => (db, Ok (Response.error 404 "NOT_FOUND" "Ticket not found"))
        | Some ticket =>
            let t := TicketWithMessages.ticket ticket in
            let blocked :=
              if status_eqb (Ticket.status t) CLOSED && negb agent then
                match ticketAccess.member_findUnique db (Ticket.workspaceId t)
                        userId with
                | None => true
                | Some membership =>
                    negb (role_eqb (WorkspaceMember.role membership) ADMIN)
                end
              else false in
            if blocked then
              (db, Ok (Response.error 403 "TICKET_CLOSED"
                         "This ticket is closed. New replies are not allowed."))
            else
              match reply_transaction o ticketId userId content db with
              | (db', Throw e) => (db', Throw e)
              | (db', Ok m) => (db', Ok (Response.json 201 (MessageBody m)))
              end
        end
    end.

End ticketsRoutes.

(* ------------------------------------------------------------------ *)
(** ** routes/auth.ts *)

Module authRoutes.

Definition REFRESH_EXPIRES_MS : Z := 7 * 24 * 60 * 60 * 1000.

(** What the auth routes obtain from outside while serving one request:
    the readings of the clock, the random refresh token and bcrypt salt,
    and the primary keys generated for the rows they create. *)
Module Outside.
Record t : Type := mk {
  now : Z;               (* [new Date()] of the expiry check *)
  revokedNow : Z;        (* [new Date()] written as [revokedAt] *)
  issuedNow : Z;         (* [Date.now()] in setAuthCookiesAndRespond *)
  signedNow : Z;         (* the clock when the access token is signed *)
  refreshToken : string; (* [generateRefreshToken()] *)
  salt : string;
  userId : string;
  workspaceId : string;
  memberId : string;
  opsMemberId : string;
  sessionId : string
}.
End Outside.

(** The parts of a JSON body the auth schemas look at. *)
Module AuthBody.
Record t : Type := mk { email : option string; password : option string }.
End AuthBody.

(** [parseEmailDomain(email)]. *)
Definition parseEmailDomain (email : string) : option string :=
  match JS.indexOf "@" email with
  | None => None
  | Some at_ =>
      if Nat.eqb at_ (String.length email - 1) then None
      else Some (JS.toLowerCase (JS.slice (at_ + 1) email))
  end.

(** [isSupportAgentDomain(email)]. *)
Definition isSupportAgentDomain (env : Env.t) (email : string) : bool :=
  let domains :=
    filter (fun d => negb (String.eqb d ""))
      (map (fun d => JS.toLowerCase (JS.trim d))
         (JS.split ","
            (match Env.SUPPORT_AGENT_EMAIL_DOMAINS env with
             | Some s => s
             | None => ""
             end))) in
  match parseEmailDomain email with
  | None => false
  | Some domain => existsb (String.eqb domain) domains
  end.

Definition user_collides (a b : User.t) : bool :=
  String.eqb (User.id a) (User.id b) || String.eqb (User.email a) (User.email b).

Definition workspace_collides (a b : Workspace.t) : bool :=
  String.eqb (Workspace.id a) (Workspace.id b)
  || match Workspace.domain a, Workspace.domain b with
     | Some x, Some y => String.eqb x y
     | _, _ => false
     end.

Definition member_collides (a b : WorkspaceMember.t) : bool :=
  String.eqb (WorkspaceMember.id a) (WorkspaceMember.id b)
  || (String.eqb (WorkspaceMember.workspaceId a) (WorkspaceMember.workspaceId b)
      && String.eqb (WorkspaceMember.userId a) (WorkspaceMember.userId b)).

Definition session_collides (a b : RefreshSession.t) : bool :=
  String.eqb (RefreshSession.id a) (RefreshSession.id b).

Definition user_create (u : User.t) : M User.t :=
  fun db =>
    match Prisma.create user_collides u (Db.users db) with
    | Throw e => (db, Throw e)
    | Ok rows => (Db.with_users db rows, Ok u)
    end.

Definition workspace_create (w : Workspace.t) : M Workspace.t :=
  fun db =>
    match Prisma.create workspace_collides w (Db.workspaces db) with
    | Throw e => (db, Throw e)
    | Ok rows => (Db.with_workspaces db rows, Ok w)
    end.

Definition member_create (m : WorkspaceMember.t) : M unit :=
  fun db =>
    match Prisma.create member_collides m (Db.workspaceMembers db) with
    | Throw e => (db, Throw e)
    | Ok rows => (Db.with_workspaceMembers db rows, Ok tt)
    end.

Definition session_create (s : RefreshSession.t) : M unit :=
  fun db =>
    match Prisma.create session_collides s (Db.refreshSessions db) with
    | Throw e => (db, Throw e)
    | Ok rows => (Db.with_refreshSessions db rows, Ok tt)
    end.

(** Setting [revokedAt] on the sessions selected by [where_]. *)
Definition session_revoke (where_ : RefreshSession.t -> bool) (at_ : Z)
    : M unit :=
  fun db =>
    (Db.with_refreshSessions db
       (Prisma.updateMany where_ (RefreshSession.with_revokedAt at_)
          (Db.refreshSessions db)),
     Ok tt).

Definition clearAuthCookies : list Cookie :=
  [ClearAccessToken; ClearRefreshToken].

(** A cookie or request field that is [undefined] or the empty string is
    falsy. *)
Definition truthy (o : option string) : option string :=
  match o with
  | Some s => if String.eqb s "" then None else Some s
  | None => None
  end.

Section WithLibraries.

Variable sha256_hex : string -> string.
Variable jwt_sign : string -> string -> Z -> Z -> string.
(** [bcrypt.hashSync(password, 10)] with the salt it drew, and
    [bcrypt.compareSync(password, hash)]. *)
Variable bcrypt_hashSync : string -> string -> string.
Variable bcrypt_compareSync : string -> string -> bool.
(** [signupSchema.safeParse] and [loginSchema.safeParse] of
    validation/auth.ts: the parsed email and password, or the first
    error message. *)
Variable signupSchema : AuthBody.t -> (string * string) + string.
Variable loginSchema : AuthBody.t -> (string * string) + string.

Local Open Scope handler_scope.

(** [setAuthCookiesAndRespond(res, userId, refreshToken,
    refreshTokenHash, statusCode)]. *)
Definition setAuthCookiesAndRespond (env : Env.t) (o : Outside.t)
    (userId refreshToken refreshTokenHash : string) (statusCode : Z)
    : M Response.t :=
  let expiresAt := Outside.issuedNow o + REFRESH_EXPIRES_MS in
  _ <- session_create
         (RefreshSession.mk (Outside.sessionId o) userId refreshTokenHash
            expiresAt (Outside.issuedNow o) None) ;;
  accessToken <- lift (jwt.createAccessToken jwt_sign env (Outside.signedNow o)
                         userId) ;;
  ret (Response.mk statusCode (UserBody userId)
         [SetAccessToken accessToken; SetRefreshToken refreshToken]).

(** POST /auth/signup. *)
Definition signup (env : Env.t) (o : Outside.t) (body : AuthBody.t)
    : M Response.t :=
  match signupSchema body with
  | inr msg => ret (Response.error 400 "VALIDATION_ERROR" msg)
  | inl (email, password) =>
      db <- get ;;
      match find (fun u => String.eqb (User.email u) email) (Db.users db) with
      | Some _ =>
          ret (Response.error 400 "EMAIL_TAKEN" "Email already registered")
      | None =>
          match parseEmailDomain email with
          | None =>
              ret (Response.error 400 "VALIDATION_ERROR" "Invalid email format")
          | Some domain =>
              let supportAgent := isSupportAgentDomain env email in
              let passwordHash := bcrypt_hashSync password (Outside.salt o) in
              user <- user_create
                        (User.mk (Outside.userId o) email passwordHash
                           supportAgent) ;;
              db <- get ;;
              customerWorkspace <-
                match find (fun w =>
                              match Workspace.domain w with
                              | Some d => String.eqb d domain
                              | None => false
                              end) (Db.workspaces db) with
                | Some w => ret w
                | None =>
                    workspace_create
                      (Workspace.mk (Outside.workspaceId o) domain
                         (Some domain) CUSTOMER)
                end ;;
              _ <- member_create
                     (WorkspaceMember.mk (Outside.memberId o)
                        (Workspace.id customerWorkspace) (User.id user)
                        MEMBER) ;;
              _ <- (if supportAgent then
                      db <- get ;;
                      match find (fun w =>
                                    kind_eqb (Workspace.kind w) SUPPORT_OPS)
                                 (Db.workspaces db) with
                      | Some supportOps =>
                          member_create
                            (WorkspaceMember.mk (Outside.opsMemberId o)
                               (Workspace.id supportOps) (User.id user) ADMIN)
                      | None => ret tt
                      end
                    else ret tt) ;;
              let refreshToken := Outside.refreshToken o in
              let refreshTokenHash :=
                refreshToken.hashRefreshToken sha256_hex refreshToken in
              setAuthCookiesAndRespond env o (User.id user) refreshToken
                refreshTokenHash 201
          end
      end
  end.

(** POST /auth/login. *)
Definition login (env : Env.t) (o : Outside.t) (body : AuthBody.t)
    : M Response.t :=
  match loginSchema body with
  | inr msg => ret (Response.error 400 "VALIDATION_ERROR" msg)
  | inl (email, password) =>
      db <- get ;;
      match find (fun u => String.eqb (User.email u) email) (Db.users db) with
      | Some user =>
          if bcrypt_compareSync password (User.passwordHash user) then
            let refreshToken := Outside.refreshToken o in
            let refreshTokenHash :=
              refreshToken.hashRefreshToken sha256_hex refreshToken in
            setAuthCookiesAndRespond env o (User.id user) refreshToken
              refreshTokenHash 200
          else
            ret (Response.error 401 "INVALID_CREDENTIALS"
                   "Invalid email or password")
      | None =>
          ret (Response.error 401 "INVALID_CREDENTIALS"
                 "Invalid email or password")
      end
  end.

(** POST /auth/refresh; [cookie] is
    [req.cookies?.refresh_token ?? getCookie(req, "refresh_token")]. *)
Definition refresh (env : Env.t) (o : Outside.t) (cookie : option string)
    : M Response.t :=
  match truthy cookie with
  | None => ret (Response.error 401 "UNAUTHORIZED" "Refresh token required")
  | Some token =>
      let hash := refreshToken.hashRefreshToken sha256_hex token in
      db <- get ;;
      match find (fun s => String.eqb (RefreshSession.refreshTokenHash s) hash)
                 (Db.refreshSessions db) with
      | None =>
          ret (Response.error 401 "UNAUTHORIZED"
                 "Invalid or expired refresh token")
      | Some session =>
          if match RefreshSession.revokedAt session with
             | Some _ => true
             | None => false
             end
             || (RefreshSession.expiresAt session <? Outside.now o)
          then
            ret (Response.error 401 "UNAUTHORIZED"
                   "Invalid or expired refresh token")
          else
            _ <- session_revoke
                   (fun s => String.eqb (RefreshSession.id s)
                               (RefreshSession.id session))
                   (Outside.revokedNow o) ;;
            let newRefreshToken := Outside.refreshToken o in
            let newRefreshTokenHash :=
              refreshToken.hashRefreshToken sha256_hex newRefreshToken in
            setAuthCookiesAndRespond env o (RefreshSession.userId session)
              newRefreshToken newRefreshTokenHash 200
      end
  end.

(** POST /auth/logout. *)
Definition logout (o : Outside.t) (cookie : option string) : M Response.t :=
  _ <- match truthy cookie with
       | Some token =>
           let hash := refreshToken.hashRefreshToken sha256_hex token in
           session_revoke
             (fun s => String.eqb (RefreshSession.refreshTokenHash s) hash)
             (Outside.revokedNow o)
       | None => ret tt
       end ;;
  ret (Response.mk 200 OkBody clearAuthCookies).

(** The requests of the /auth router. *)
Inductive Request : Type :=
  | Signup (body : AuthBody.t)
  | Login (body : AuthBody.t)
  | Refresh (cookie : option string)
  | Logout (cookie : option string).

Definition handle (env : Env.t) (o : Outside.t) (r : Request) : M Response.t :=
  match r with
  | Signup body => signup env o body
  | Login body => login env o body
  | Refresh cookie => refresh env o cookie
  | Logout cookie => logout o cookie
  end.

(** The datastore after serving a sequence of requests, one after the
    other. *)
Fixpoint serve (env : Env.t) (rs : list (Outside.t * Request)) (db : Db.t)
    : Db.t :=
  match rs with
  | [] => db
  | (o, r) :: rs' => serve env rs' (fst (handle env o r db))
  end.

End WithLibraries.

End authRoutes.

(* ------------------------------------------------------------------ *)
(** ** index.ts *)

Module index.



End index.

(* ------------------------------------------------------------------ *)
(** ** Further middleware and routes *)

(** What a route sends: an error response, or a status with the JSON
    payload. *)
Inductive Reply (A : Type) : Type :=
  | ReplyError (r : Response.t)
  | ReplyJson (status : Z) (payload : A).
Arguments ReplyError {A} r.
Arguments ReplyJson {A} status payload.

(** middleware/originCheck.ts *)
Module originCheck.

Definition WEB_ORIGIN (env : Env.t) : string :=
  match Env.WEB_ORIGIN env with
  | Some w => w
  | None => "http://localhost:3000"
  end.


End originCheck.

(** validation/tickets.ts: the schemas of ticket creation and of PATCH. *)
Module ticketSchemas.

(** The fields of a creation body, those that are present being
    strings. *)
Module CreateBody.
Record t : Type := mk {
  title : option string; message : option string; category : option string
}.
End CreateBody.

Module CreateData.
Record t : Type := mk {
  title : string; message : string; category : option string
}.
End CreateData.

(** One string field with [min(1, required)] and [max(n, too_long)]. *)
Definition bounded (field : option string) (max : nat)
    (required too_long : string) : string + string :=
  match field with
  | None => inr "Required"
  | Some v =>
      if Nat.ltb (String.length v) 1 then inr required
      else if Nat.ltb max (String.length v) then inr too_long
      else inl v
  end.

(** [createTicketSchema.safeParse]: the parsed data or the message of the
    first issue, the fields being checked in the order title, message,
    category. *)
Definition createTicketSchema (b : CreateBody.t) : CreateData.t + string :=
  match bounded (CreateBody.title b) 200 "Title is required"
          "Title must be at most 200 characters",
        bounded (CreateBody.message b) 5000 "Message is required"
          "Message must be at most 5000 characters" with
  | inr e, _ => inr e
  | inl _, inr e => inr e
  | inl title, inl message =>
      match CreateBody.category b with
      | Some c =>
          if Nat.ltb 50 (String.length c)
          then inr "String must contain at most 50 character(s)"
          else inl (CreateData.mk title message (Some c))
      | None => inl (CreateData.mk title message None)
      end
  end.

(** The [status] field of a PATCH body as [z.enum(...).optional()] sees
    it: absent, a value of the enum, or anything else, with the message
    zod gives for it. *)
Inductive StatusField : Type :=
  | NoStatus
  | StatusValue (s : TicketStatus)
  | BadStatus (message : string).

(** The [priority] field, for which [null] is accepted too. *)
Inductive PriorityField : Type :=
  | NoPriority
  | PriorityNull
  | PriorityValue (p : TicketPriority)
  | BadPriority (message : string).

Module PatchBody.
Record t : Type := mk { status : StatusField; priority : PriorityField }.
End PatchBody.

(** What [patchTicketSchema] yields: for each field, [None] when it was
    not provided; a provided priority is a value or [null]. *)
Module PatchData.
Record t : Type := mk {
  status : option TicketStatus;
  priority : option (option TicketPriority)
}.
End PatchData.

(** [patchTicketSchema.safeParse]. *)
Definition patchTicketSchema (b : PatchBody.t) : PatchData.t + string :=
  match
    (match PatchBody.status b with
     | NoStatus => inl None
     | StatusValue s => inl (Some s)
     | BadStatus m => inr m
     end),
    (match PatchBody.priority b with
     | NoPriority => inl None
     | PriorityNull => inl (Some None)
     | PriorityValue p => inl (Some (Some p))
     | BadPriority m => inr m
     end)
  with
  | inr e, _ => inr e
  | inl _, inr e => inr e
  | inl status, inl priority =>
      match status, priority with
      | None, None =>
          inr "At least one of status or priority must be provided"
      | _, _ => inl (PatchData.mk status priority)
      end
  end.

End ticketSchemas.

(** routes/workspaces.ts: GET /workspaces and POST
    /workspaces/:workspaceId/tickets. *)
Module workspaceTickets.

(** GET /workspaces: the workspaces a support agent can access, each
    with role ADMIN. *)
Definition GET_workspaces (db : Db.t) (userId : string)
    : Reply (list (Workspace.t * WorkspaceRole)) :=
  if supportAgent.isSupportAgent db userId then
    let customerWorkspaces :=
      filter (fun w => kind_eqb (Workspace.kind w) CUSTOMER)
             (Db.workspaces db) in
    let supportOps :=
      find (fun w => kind_eqb (Workspace.kind w) SUPPORT_OPS)
           (Db.workspaces db) in
    ReplyJson 200
      (map (fun w => (w, ADMIN)) customerWorkspaces
       ++ match supportOps with
          | Some w => [(w, ADMIN)]
          | None => []
          end)%list
  else ReplyError (Response.error 403 "FORBIDDEN" "Support agents only").

(** What the creation of a ticket obtains from outside: the generated
    keys, the database's CURRENT_TIMESTAMP for the [created_at] columns
    and the time the client writes to [updated_at] (the column has no
    default in the migration: the client fills it on every write). *)
Module Outside.
Record t : Type := mk {
  ticketId : string; messageId : string; createdAt : Z; updatedAt : Z
}.
End Outside.

Definition ticket_collides (a b : Ticket.t) : bool :=
  String.eqb (Ticket.id a) (Ticket.id b).

(** [tx.ticket.create] with the nested [messages.create]: the ticket
    (status OPEN by the column default, no priority) and its first
    message, both or neither. *)
Definition create_transaction (o : Outside.t) (workspaceId userId : string)
    (data : ticketSchemas.CreateData.t) : M Ticket.t :=
  fun db =>
    let t :=
      Ticket.mk (Outside.ticketId o) workspaceId userId
        (ticketSchemas.CreateData.title data) OPEN None
        (ticketSchemas.CreateData.category data)
        (Outside.createdAt o) (Outside.updatedAt o) in
    let m :=
      TicketMessage.mk (Outside.messageId o) (Outside.ticketId o) userId
        (ticketSchemas.CreateData.message data) (Outside.createdAt o) in
    match Prisma.create ticket_collides t (Db.tickets db) with
    | Throw e => (db, Throw e)
    | Ok tickets =>
        match Prisma.create ticketsRoutes.message_collides m
                (Db.ticketMessages db) with
        | Throw e => (db, Throw e)
        | Ok messages =>
            (Db.with_ticketMessages (Db.with_tickets db tickets) messages,
             Ok t)
        end
    end.

(** The handler of POST /workspaces/:workspaceId/tickets, after the
    middleware attached [membership]. *)
Definition createTicket (o : Outside.t)
    (membership : WorkspaceMembershipInfo.t) (userId : string)
    (body : ticketSchemas.CreateBody.t) : M (Reply Ticket.t) :=
  fun db =>
    match ticketSchemas.createTicketSchema body with
    | inr msg => (db, Ok (ReplyError (Response.error 400 "VALIDATION_ERROR" msg)))
    | inl data =>
        match create_transaction o
                (WorkspaceMembershipInfo.workspaceId membership) userId data db
        with
        | (db', Throw e) => (db', Throw e)
        | (db', Ok t) => (db', Ok (ReplyJson 201 t))
        end
    end.

(** The route with its middleware. *)
Definition POST_workspace_tickets (o : Outside.t) (param : option string)
    (user : AuthUser.t) (body : ticketSchemas.CreateBody.t)
    : M (Reply Ticket.t) :=
  fun db =>
    match workspaceAccess.requireWorkspaceMemberFromParams db param (Some user)
    with
    | Respond r => (db, Ok (ReplyError r))
    | Next membership => createTicket o membership (AuthUser.id user) body db
    end.

End workspaceTickets.

(** routes/tickets.ts: PATCH /tickets/:ticketId. *)
Module ticketPatch.

(** [updateData] applied to a row; [updatedAt] is the time the client
    writes on the update. *)
Definition apply_update (data : ticketSchemas.PatchData.t) (updatedAt : Z)
    (t : Ticket.t) : Ticket.t :=
  Ticket.mk (Ticket.id t) (Ticket.workspaceId t) (Ticket.createdByUserId t)
    (Ticket.title t)
    (match ticketSchemas.PatchData.status data with
     | Some s => s
     | None => Ticket.status t
     end)
    (match ticketSchemas.PatchData.priority data with
     | Some p => p
     | None => Ticket.priority t
     end)
    (Ticket.category t) (Ticket.createdAt t) updatedAt.

(** PATCH /tickets/:ticketId. *)
Definition PATCH_ticket (updatedAt : Z) (ticketId userId : string)
    (body : ticketSchemas.PatchBody.t) : M (Reply Ticket.t) :=
  fun db =>
    let agent := supportAgent.isSupportAgent db userId in
    match ticketSchemas.patchTicketSchema body with
    | inr msg => (db, Ok (ReplyError (Response.error 400 "VALIDATION_ERROR" msg)))
    | inl data =>
        match ticketAccess.getTicketForAdminUpdate db ticketId userId agent
        with
        | None =>
            (db, Ok (ReplyError
                       (Response.error 404 "NOT_FOUND" "Ticket not found")))
        | Some ticket =>
            (Db.with_tickets db
               (Prisma.updateMany
                  (fun t => String.eqb (Ticket.id t) ticketId)
                  (apply_update data updatedAt) (Db.tickets db)),
             Ok (ReplyJson 200 (apply_update data updatedAt ticket)))
        end
    end.

End ticketPatch.

(** index.ts: how the /auth router is mounted, behind [originCheck] and
    the rate limiter. *)
Module authMount.

Section WithLibraries.

Variable sha256_hex : string -> string.
Variable jwt_sign : string -> string -> Z -> Z -> string.
Variable bcrypt_hashSync : string -> string -> string.
Variable bcrypt_compareSync : string -> string -> bool.
Variable signupSchema : authRoutes.AuthBody.t -> (string * string) + string.
Variable loginSchema : authRoutes.AuthBody.t -> (string * string) + string.


End WithLibraries.

End authMount.

(* ------------------------------------------------------------------ *)
(** ** A sample store

    The rows of prisma/seed.ts (the Support Ops workspace, two customer
    workspaces, a support agent and two members), with an administrator
    of a customer workspace, a few tickets and one refresh session, and
    stand-ins for the library functions, on which the model can be run. *)

Module Sample.

Definition sha256_hex (s : string) : string := "sha256:" ++ s.
Definition jwt_sign (sub secret : string) (iat exp : Z) : string :=
  "jwt:" ++ sub.
Definition jwt_verify (token secret : string) (now : Z)
    : Result (option string) :=
  match token with
  | String "j" (String "w" (String "t" (String ":" sub))) => Ok (Some sub)
  | _ => Throw "jwt malformed"
  end.
Definition bcrypt_hashSync (password salt : string) : string :=
  "bcrypt:" ++ salt ++ ":" ++ password.
Definition bcrypt_compareSync (password hash : string) : bool :=
  match JS.split ":" hash with
  | [_; _; p] => String.eqb p password
  | _ => false
  end.
Definition authSchema (b : authRoutes.AuthBody.t) : (string * string) + string :=
  match authRoutes.AuthBody.email b, authRoutes.AuthBody.password b with
  | Some e, Some p =>
      if JS.includes "@" e then
        if Nat.ltb (String.length p) 8 then inr "Password too short"
        else inl (e, p)
      else inr "Invalid email"
  | _, _ => inr "Required"
  end.

Definition env : Env.t :=
  Env.mk (Some "0123456789abcdef0123") (Some "demo.local, helpnest.io")
         None None None.


Definition users : list User.t :=
  [ User.mk "u-admin" "admin@demo.local" "bcrypt:s:Admin123!" true;
    User.mk "u-member" "member@demo.local" "bcrypt:s:Member123!" false;
    User.mk "u-member2" "member2@example.com" "bcrypt:s:Member123!" false;
    User.mk "u-owner" "owner@example.com" "bcrypt:s:Owner123!" false ].

Definition workspaces : list Workspace.t :=
  [ Workspace.mk "w-ops" "Support Ops" None SUPPORT_OPS;
    Workspace.mk "w-demo" "demo.local" (Some "demo.local") CUSTOMER;
    Workspace.mk "w-example" "example.com" (Some "example.com") CUSTOMER ].

Definition members : list WorkspaceMember.t :=
  [ WorkspaceMember.mk "m1" "w-ops" "u-admin" ADMIN;
    WorkspaceMember.mk "m2" "w-demo" "u-member" MEMBER;
    WorkspaceMember.mk "m3" "w-example" "u-member2" MEMBER;
    WorkspaceMember.mk "m4" "w-example" "u-owner" ADMIN ].

Definition tickets : list Ticket.t :=
  [ Ticket.mk "t1" "w-demo" "u-member" "Cannot log in" OPEN (Some HIGH)
      None 1000 1000;
    Ticket.mk "t2" "w-demo" "u-member" "Invoice missing" CLOSED None
      None 2000 2500;
    Ticket.mk "t3" "w-example" "u-member2" "Feature request" OPEN (Some LOW)
      None 3000 3000;
    Ticket.mk "t4" "w-example" "u-owner" "Renewal" CLOSED None
      None 4000 4000;
    Ticket.mk "t5" "w-example" "u-member2" "Export fails" CLOSED (Some MEDIUM)
      None 5000 5000 ].

Definition messages : list TicketMessage.t :=
  [ TicketMessage.mk "msg1" "t1" "u-member" "I cannot log in" 1000;
    TicketMessage.mk "msg2" "t2" "u-member" "Where is my invoice?" 2000 ].

Definition sessions : list RefreshSession.t :=
  [ RefreshSession.mk "s1" "u-member" (sha256_hex "T1") 604800000 0 None ].

Definition db : Db.t :=
  Db.mk users workspaces members tickets messages sessions.

(** A store that was not seeded: no Support Ops workspace yet. *)
Definition db_unseeded : Db.t := Db.mk [] [] [] [] [] [].

Definition outside (now : Z) (token tag : string) : authRoutes.Outside.t :=
  authRoutes.Outside.mk now now now now token "salt"
    ("u-" ++ tag) ("w-" ++ tag) ("m-" ++ tag) ("mo-" ++ tag) ("s-" ++ tag).

End Sample.

(* ------------------------------------------------------------------ *)
(** ** Specification predicates *)

Module Spec.

(** The user holds a membership with role [role] in the workspace. *)
Definition holds_role (db : Db.t) (workspaceId userId : string)
    (role : WorkspaceRole) : Prop :=
  exists m, In m (Db.workspaceMembers db)
    /\ WorkspaceMember.workspaceId m = workspaceId
    /\ WorkspaceMember.userId m = userId
    /\ WorkspaceMember.role m = role.

(** The workspace exists and has kind [k]. *)
Definition workspace_kind (db : Db.t) (workspaceId : string)
    (k : WorkspaceKind) : Prop :=
  exists w, In w (Db.workspaces db)
    /\ Workspace.id w = workspaceId /\ Workspace.kind w = k.

(** Elevated agent: an ADMIN membership in a SUPPORT_OPS workspace. *)
Definition elevated_agent (db : Db.t) (userId : string) : Prop :=
  exists workspaceId,
    holds_role db workspaceId userId ADMIN
    /\ workspace_kind db workspaceId SUPPORT_OPS.

(** The three ways a caller may read a ticket. *)
Definition may_read (db : Db.t) (userId : string) (agent : bool)
    (t : Ticket.t) : Prop :=
  (agent = true /\ workspace_kind db (Ticket.workspaceId t) CUSTOMER)
  \/ holds_role db (Ticket.workspaceId t) userId ADMIN
  \/ (holds_role db (Ticket.workspaceId t) userId MEMBER
      /\ Ticket.createdByUserId t = userId).

(** The rows the listing query selects, in the order it asks for,
    before [take] cuts them. *)
Definition matching_rows (otherFormats : string -> option Z) (db : Db.t)
    (membership : WorkspaceMembershipInfo.t) (userId : string)
    (q : workspacesRoutes.Query.t) : list Ticket.t :=
  let role := WorkspaceMembershipInfo.role membership in
  let sort := workspacesRoutes.effective_sort role q in
  Prisma.orderBy
    (workspacesRoutes.row_leb (workspacesRoutes.getOrderBy sort))
    (filter
       (workspacesRoutes.baseWhere
          (WorkspaceMembershipInfo.workspaceId membership) userId
          (workspacesRoutes.effective_mine role q) sort
          (workspacesRoutes.effective_cursor otherFormats sort q))
       (Db.tickets db)).

(** The signing secret is configured as lib/jwt.ts wants it. *)
Definition secret_configured (env : Env.t) : Prop :=
  exists secret, jwt.getSecret env = Ok secret.


(** Some session of the ledger carries the hash and is revoked. *)
Definition revoked_session (db : Db.t) (hash : string) : Prop :=
  exists s, In s (Db.refreshSessions db)
    /\ RefreshSession.refreshTokenHash s = hash
    /\ RefreshSession.revokedAt s <> None.

(** Some session of the ledger carries the hash and is live at [now]:
    not revoked and not expired. *)
Definition live_session (db : Db.t) (hash : string) (now : Z) : Prop :=
  exists s, In s (Db.refreshSessions db)
    /\ RefreshSession.refreshTokenHash s = hash
    /\ RefreshSession.revokedAt s = None
    /\ ~ RefreshSession.expiresAt s < now.

(** The generated primary key is not yet used in the ledger. *)
Definition fresh_session_id (db : Db.t) (id : string) : Prop :=
  ~ In id (map RefreshSession.id (Db.refreshSessions db)).

(** The request presents, to refresh or to logout, a token with the given
    hash. *)
Definition presents (sha256_hex : string -> string) (hash : string)
    (r : authRoutes.Request) : Prop :=
  match r with
  | authRoutes.Refresh cookie | authRoutes.Logout cookie =>
      exists token, authRoutes.truthy cookie = Some token
                    /\ sha256_hex token = hash
  | _ => False
  end.

(** What one request of the /auth router may do to the ledger: revoke
    the sessions selected by a condition that only holds of rows sharing
    their key with a session whose hash the request presented, and add
    at most one row, a live session under a new primary key that stores
    [newHash]. *)
Definition ledger_effect (sha256_hex : string -> string) (newHash : string)
    (r : authRoutes.Request) (l l' : list RefreshSession.t) : Prop :=
  exists where_ at_ news,
    l' = (Prisma.updateMany where_ (RefreshSession.with_revokedAt at_) l
          ++ news)%list
    /\ (forall s, In s l -> where_ s = true ->
          exists s0, In s0 l /\ RefreshSession.id s0 = RefreshSession.id s
                     /\ presents sha256_hex
                          (RefreshSession.refreshTokenHash s0) r)
    /\ (news = []
        \/ exists s', news = [s']
             /\ RefreshSession.revokedAt s' = None
             /\ RefreshSession.refreshTokenHash s' = newHash
             /\ ~ In (RefreshSession.id s') (map RefreshSession.id l)).

(** A handler step that leaves the ledger as it is. *)
Definition keeps_ledger {A : Type} (m : M A) : Prop :=
  forall db, Db.refreshSessions (fst (m db)) = Db.refreshSessions db.

(** A handler step whose effect on the ledger is one the request [r]
    may have. *)
Definition ledger_step (sha256_hex : string -> string) (newHash : string)
    (r : authRoutes.Request) {A : Type} (m : M A) : Prop :=
  forall db,
    ledger_effect sha256_hex newHash r (Db.refreshSessions db)
      (Db.refreshSessions (fst (m db))).

(** The tokens generated while serving the requests are new: none
    hashes to a hash the ledger holds when it is generated. *)
Fixpoint fresh_tokens (sha256_hex : string -> string)
    (handle : authRoutes.Outside.t -> authRoutes.Request -> M Response.t)
    (rs : list (authRoutes.Outside.t * authRoutes.Request)) (db : Db.t)
    : Prop :=
  match rs with
  | [] => True
  | (o, r) :: rs' =>
      ~ In (sha256_hex (authRoutes.Outside.refreshToken o))
           (map RefreshSession.refreshTokenHash (Db.refreshSessions db))
      /\ fresh_tokens sha256_hex handle rs' (fst (handle o r db))
  end.

(** The answer of POST /auth/refresh to a token that is not accepted. *)
Definition refresh_denied : Response.t :=
  Response.error 401 "UNAUTHORIZED" "Invalid or expired refresh token".

(** The keys generated for a signup are new: no user, workspace,
    membership or session has them, the two membership keys differ, and
    no membership row refers to the new user yet. *)
Definition fresh_keys (db : Db.t) (o : authRoutes.Outside.t) : Prop :=
  ~ In (authRoutes.Outside.userId o) (map User.id (Db.users db))
  /\ (forall m, In m (Db.workspaceMembers db) ->
        WorkspaceMember.userId m <> authRoutes.Outside.userId o)
  /\ ~ In (authRoutes.Outside.workspaceId o)
         (map Workspace.id (Db.workspaces db))
  /\ ~ In (authRoutes.Outside.memberId o)
         (map WorkspaceMember.id (Db.workspaceMembers db))
  /\ ~ In (authRoutes.Outside.opsMemberId o)
         (map WorkspaceMember.id (Db.workspaceMembers db))
  /\ authRoutes.Outside.memberId o <> authRoutes.Outside.opsMemberId o
  /\ fresh_session_id db (authRoutes.Outside.sessionId o).

(** Section 3 of the specification: only CUSTOMER workspaces have a
    domain (the operations workspace has none). *)
Definition domains_are_customers (db : Db.t) : Prop :=
  forall w, In w (Db.workspaces db) ->
  Workspace.domain w <> None -> Workspace.kind w = CUSTOMER.

End Spec.

(* ------------------------------------------------------------------ *)
(** ** Walking the listing, and footprints of handlers *)

Module Paging.

(** One key of an ordering, read in its direction. *)
Definition directed (c : workspacesRoutes.Column)
    (d : workspacesRoutes.Direction) (a b : Ticket.t) : comparison :=
  match d with
  | workspacesRoutes.asc => workspacesRoutes.compare_column c a b
  | workspacesRoutes.desc => CompOpp (workspacesRoutes.compare_column c a b)
  end.

(** The tickets of the store can be named by a cursor: their dates are
    time values of a Date, their ids are not empty and hold no '|'
    (the ids are cuids). *)
Definition cursor_safe (db : Db.t) : Prop :=
  forall t, In t (Db.tickets db) ->
    JsDate.valid_time (Ticket.createdAt t)
    /\ JsDate.valid_time (Ticket.updatedAt t)
    /\ Ticket.id t <> ""
    /\ JS.includes "|" (Ticket.id t) = false.

(** The same query with another cursor. *)
Definition with_cursor (q : workspacesRoutes.Query.t) (c : option string)
    : workspacesRoutes.Query.t :=
  workspacesRoutes.Query.mk (workspacesRoutes.Query.mine q)
    (workspacesRoutes.Query.limit q) (workspacesRoutes.Query.sort q) c.

Section WithEngine.

Variable otherFormats : string -> option Z.

(** A client that asks for a page and then, at most [n] times, for the
    next one with the cursor the last response carried, appending the
    items (what "load more" does in the web application). *)
Fixpoint follow (n : nat) (db : Db.t) (membership : WorkspaceMembershipInfo.t)
    (userId : string) (q : workspacesRoutes.Query.t) : list Ticket.t :=
  match
    Response.body
      (workspacesRoutes.listTickets otherFormats db membership userId q)
  with
  | ItemsBody page next =>
      match next, n with
      | Some c, S n' =>
          (page ++ follow n' db membership userId (with_cursor q (Some c)))%list
      | _, _ => page
      end
  | _ => []
  end.

End WithEngine.

End Paging.

Module Footprint.

(** A handler step that leaves one table, or any other reading [f] of
    the store, as it is. *)
Definition keeps {X A : Type} (f : Db.t -> X) (m : M A) : Prop :=
  forall db, f (fst (m db)) = f db.

End Footprint.

(* ================================================================== *)
(** * Properties *)

(** ** The model on concrete inputs *)

Example toISOString_epoch :
  JsDate.toISOString 0 = "1970-01-01T00:00:00.000Z".
Proof. reflexivity. Qed.

Example toISOString_leap_day :
  JsDate.toISOString 1709210096789 = "2024-02-29T12:34:56.789Z".
Proof. vm_compute. reflexivity. Qed.

Example toISOString_before_year_zero :
  JsDate.toISOString (-62167219200001) = "-000001-12-31T23:59:59.999Z".
Proof. vm_compute. reflexivity. Qed.

Example toISOString_last_day :
  JsDate.toISOString 8640000000000000 = "+275760-09-13T00:00:00.000Z".
Proof. vm_compute. reflexivity. Qed.

Example parse_rejects_month_13 :
  JsDate.parse (fun _ => None) "2024-13-01T00:00:00.000Z" = None.
Proof. vm_compute. reflexivity. Qed.

Example parseCursor_without_bar :
  Cursor.parseCursor (fun _ => None) (Some "2024-02-29T12:34:56.789Z") = None.
Proof. reflexivity. Qed.

Example parseCursor_two_bars :
  Cursor.parseCursor (fun _ => None) (Some "2024-02-29T12:34:56.789Z|a|b")
  = None.
Proof. reflexivity. Qed.

Example parseInt_examples :
  JS.parseInt " 42px" = Some 42 /\ JS.parseInt "-7" = Some (-7)
  /\ JS.parseInt "abc" = None /\ JS.parseInt "" = None.
Proof. repeat split. Qed.

Example effective_limit_examples :
  map (fun l => workspacesRoutes.effective_limit
                  (workspacesRoutes.Query.mk None l None None))
      [None; Some "10"; Some "0"; Some "-3"; Some "500"; Some "abc"]
  = [20; 10; 20; 1; 50; 20].
Proof. reflexivity. Qed.

Example parseEmailDomain_examples :
  authRoutes.parseEmailDomain "Agent@HelpNest.io" = Some "helpnest.io"
  /\ authRoutes.parseEmailDomain "nobody" = None
  /\ authRoutes.parseEmailDomain "nobody@" = None.
Proof. repeat split. Qed.

Example listing_first_page :
  workspacesRoutes.listTickets (fun _ => None) Sample.db
    (WorkspaceMembershipInfo.mk "w-example" ADMIN) "u-owner"
    (workspacesRoutes.Query.mk (Some "false") (Some "2") None None)
  = Response.json 200
      (ItemsBody
         [Ticket.mk "t5" "w-example" "u-member2" "Export fails" CLOSED
            (Some MEDIUM) None 5000 5000;
          Ticket.mk "t4" "w-example" "u-owner" "Renewal" CLOSED None None
            4000 4000]
         (Some "1970-01-01T00:00:04.000Z|t4")).
Proof. vm_compute. reflexivity. Qed.

Example listing_second_page :
  workspacesRoutes.listTickets (fun _ => None) Sample.db
    (WorkspaceMembershipInfo.mk "w-example" ADMIN) "u-owner"
    (workspacesRoutes.Query.mk (Some "false") (Some "2") None
       (Some "1970-01-01T00:00:04.000Z|t4"))
  = Response.json 200
      (ItemsBody
         [Ticket.mk "t3" "w-example" "u-member2" "Feature request" OPEN
            (Some LOW) None 3000 3000]
         None).
Proof. vm_compute. reflexivity. Qed.

Example listing_by_title_has_no_cursor :
  workspacesRoutes.listTickets (fun _ => None) Sample.db
    (WorkspaceMembershipInfo.mk "w-example" ADMIN) "u-owner"
    (workspacesRoutes.Query.mk (Some "false") (Some "1") (Some "title") None)
  = Response.json 200
      (ItemsBody
         [Ticket.mk "t5" "w-example" "u-member2" "Export fails" CLOSED
            (Some MEDIUM) None 5000 5000]
         None).
Proof. vm_compute. reflexivity. Qed.

(** ** Dates and cursors *)

Section DateFacts.

Import JsDate.


Lemma digit_cases n :
  exists d, n mod 10 = d /\ JS.digit_val (JS.digit_char d) = Some d /\
            Ascii.eqb (JS.digit_char d) "|" = false /\ 0 <= d < 10.
Proof.
  assert (H : n mod 10 = 0 \/ n mod 10 = 1 \/ n mod 10 = 2 \/ n mod 10 = 3 \/
              n mod 10 = 4 \/ n mod 10 = 5 \/ n mod 10 = 6 \/ n mod 10 = 7 \/
              n mod 10 = 8 \/ n mod 10 = 9)
    by (Z.div_mod_to_equations; lia).
  exists (n mod 10).
  repeat (destruct H as [H | H]); rewrite H; repeat split; try reflexivity; lia.
Qed.

Lemma readDigits_app k j acc s :
  readDigits (k + j) acc s =
  obind (readDigits k acc s) (fun '(a, r) => readDigits j a r).
Proof.
  revert acc s. induction k as [|k IH]; intros acc s; simpl; [reflexivity|].
  destruct s as [|c s]; [reflexivity|].
  destruct (JS.digit_val c); [apply IH | reflexivity].
Qed.

Lemma readDigits_padStart k : forall n acc rest,
  0 <= n < 10 ^ Z.of_nat k ->
  readDigits k acc (JS.padStart k n rest) = Some (acc * 10 ^ Z.of_nat k + n, rest).
Proof.
  induction k as [|k IH]; intros n acc rest Hn.
  - simpl in *. f_equal. f_equal. lia.
  - cbn [JS.padStart].
    assert (Hp : 10 ^ Z.of_nat (S k) = 10 * 10 ^ Z.of_nat k).
    { rewrite Nat2Z.inj_succ, Z.pow_succ_r by lia. reflexivity. }
    rewrite Hp in Hn. rewrite Hp.
    replace (S k) with (k + 1)%nat by lia.
    rewrite readDigits_app.
    rewrite IH by (Z.div_mod_to_equations; lia).
    cbn [obind readDigits].
    destruct (digit_cases n) as (d & Hd & Hv & _ & _).
    rewrite Hd, Hv. f_equal. f_equal.
    subst d. Z.div_mod_to_equations. lia.
Qed.

Lemma includes_padStart k : forall n rest,
  JS.includes "|" (JS.padStart k n rest) = JS.includes "|" rest.
Proof.
  induction k as [|k IH]; intros n rest; [reflexivity|].
  cbn [JS.padStart]. rewrite IH. cbn [JS.includes].
  destruct (digit_cases n) as (d & Hd & _ & Hb & _).
  rewrite Hd, Hb. reflexivity.
Qed.

Lemma DayFromYear_step y : DayFromYear (y + 1) = DayFromYear y + DaysInYear y.
Proof.
  unfold DayFromYear, DaysInYear.
  destruct (Z.eqb_spec (y mod 4) 0); cbn [negb];
  [destruct (Z.eqb_spec (y mod 100) 0); cbn [negb];
   [destruct (Z.eqb_spec (y mod 400) 0); cbn [negb] |] |].
  all: Z.div_mod_to_equations; lia.
Qed.

Lemma YearFromTime_spec t :
  DayFromYear (YearFromTime t) <= Day t < DayFromYear (YearFromTime t + 1).
Proof.
  unfold YearFromTime.
  set (d := Day t). 
  destruct (Z.ltb_spec d (DayFromYear (1970 + 400 * d / 146097))).
  - unfold DayFromYear in *. Z.div_mod_to_equations. lia.
  - destruct (Z.leb_spec (DayFromYear (1970 + 400 * d / 146097 + 1)) d).
    + unfold DayFromYear in *. Z.div_mod_to_equations. lia.
    + lia.
Qed.

Lemma YearFromTime_range t :
  valid_time t -> -271821 <= YearFromTime t <= 275760.
Proof.
  intros Hv. pose proof (YearFromTime_spec t) as Hs.
  unfold valid_time, maxTime in Hv.
  assert (Hd : -100000000 <= Day t <= 100000000).
  { unfold Day, msPerDay. Z.div_mod_to_equations. lia. }
  revert Hs. generalize (YearFromTime t) (Day t) Hd. clear.
  intros y d Hd Hs. unfold DayFromYear in Hs.
  Z.div_mod_to_equations. lia.
Qed.

Lemma leap_cases y : (leapOf y = 0 /\ DaysInYear y = 365) \/ (leapOf y = 1 /\ DaysInYear y = 366).
Proof.
  unfold leapOf, DaysInYear.
  destruct (negb (y mod 4 =? 0)); simpl; auto.
  destruct (negb (y mod 100 =? 0)); simpl; auto.
  destruct (negb (y mod 400 =? 0)); simpl; auto.
Qed.

Lemma DayWithinYear_range t :
  0 <= DayWithinYear t < 365 + InLeapYear t.
Proof.
  pose proof (YearFromTime_spec t) as Hs.
  rewrite DayFromYear_step in Hs.
  unfold DayWithinYear. change (InLeapYear t) with (leapOf (YearFromTime t)).
  destruct (leap_cases (YearFromTime t)) as [[-> E]|[-> E]]; lia.
Qed.

Lemma date_fields t :
  let y := YearFromTime t in
  let mo := MonthFromTime t + 1 in
  let d := DateFromTime t in
  1 <= mo <= 12 /\ 1 <= d <= DaysInMonth y mo /\ MakeDay y mo d = Day t.
Proof.
  cbv zeta. pose proof (DayWithinYear_range t) as Hr.
  unfold MakeDay, DaysInMonth, DateFromTime, MonthFromTime.
  change (InLeapYear t) with (leapOf (YearFromTime t)) in *.
  fold (DayWithinYear t).
  assert (Hd : Day t = DayFromYear (YearFromTime t) + DayWithinYear t)
    by (unfold DayWithinYear; lia).
  rewrite Hd. generalize dependent (DayWithinYear t). intros w Hr Hw.
  destruct (leap_cases (YearFromTime t)) as [[E _]|[E _]]; rewrite E in *;
  repeat match goal with
         | |- context [if ?a <? ?b then _ else _] => destruct (Z.ltb_spec a b)
         end; cbn; lia.
Qed.

Lemma time_fields t :
  MakeTime (HourFromTime t) (MinFromTime t) (SecFromTime t) (msFromTime t)
  = TimeWithinDay t /\
  0 <= HourFromTime t <= 23 /\ 0 <= MinFromTime t <= 59 /\
  0 <= SecFromTime t <= 59 /\ 0 <= msFromTime t <= 999.
Proof.
  unfold MakeTime, HourFromTime, MinFromTime, SecFromTime, msFromTime,
    TimeWithinDay, msPerDay.
  Z.div_mod_to_equations. lia.
Qed.


Lemma readYear_digits c s :
  JS.digit_val c <> None -> readYear (String c s) = readDigits 4 0 (String c s).
Proof.
  destruct c as [[] [] [] [] [] [] [] []]; cbn; intros H; try reflexivity;
    exfalso; apply H; reflexivity.
Qed.

Lemma readYear_isoYear y rest :
  -999999 <= y <= 999999 -> readYear (isoYear y rest) = Some (y, rest).
Proof.
  intros Hy. unfold isoYear.
  destruct (Z.leb_spec 0 y); cbn [andb].
  - destruct (Z.leb_spec y 9999).
    + pose proof (readDigits_padStart 4 y 0 rest) as Hp.
      cbn [JS.padStart] in *.
      rewrite readYear_digits.
      * rewrite Hp by (change (10 ^ Z.of_nat 4) with 10000; lia).
        f_equal.
      * destruct (digit_cases (y / 10 / 10 / 10)) as (d & -> & -> & _). discriminate.
    + destruct (Z.ltb_spec y 0); [lia|]. cbn [readYear].
      rewrite readDigits_padStart by (change (10 ^ Z.of_nat 6) with 1000000; lia).
      f_equal. f_equal. lia.
  - destruct (Z.ltb_spec y 0); [|lia]. cbn [readYear].
    rewrite readDigits_padStart by (change (10 ^ Z.of_nat 6) with 1000000; lia).
    cbn [Z.mul Z.add]. destruct (Z.eqb_spec (Z.abs y) 0); [lia|].
    f_equal. f_equal. lia.
Qed.

Lemma includes_cons_ne c x s :
  Ascii.eqb x c = false -> JS.includes c (String x s) = JS.includes c s.
Proof. intros H. cbn [JS.includes]. rewrite H. reflexivity. Qed.

Lemma includes_isoYear y rest :
  JS.includes "|" (isoYear y rest) = JS.includes "|" rest.
Proof.
  unfold isoYear. destruct (_ && _).
  - apply includes_padStart.
  - destruct (y <? 0); rewrite includes_cons_ne by reflexivity;
      apply includes_padStart.
Qed.

Lemma includes_toISOString t : JS.includes "|" (toISOString t) = false.
Proof.
  unfold toISOString. rewrite includes_isoYear.
  repeat (rewrite includes_cons_ne by reflexivity; rewrite includes_padStart).
  reflexivity.
Qed.

Lemma rd2 n rest : 0 <= n <= 99 -> readDigits 2 0 (JS.padStart 2 n rest) = Some (n, rest).
Proof.
  intros. rewrite readDigits_padStart by (change (10 ^ Z.of_nat 2) with 100; lia).
  reflexivity.
Qed.

Lemma parseISO_toISOString t :
  valid_time t ->
  parseISO (toISOString t) =
  Some (mkFields (YearFromTime t) (MonthFromTime t + 1) (DateFromTime t)
          (HourFromTime t) (MinFromTime t) (SecFromTime t) (msFromTime t)).
Proof.
  intros Hv.
  pose proof (YearFromTime_range t Hv) as Hy.
  destruct (date_fields t) as (Hm & Hd & _).
  destruct (time_fields t) as (_ & Hh & Hmi & Hs & Hms).
  assert (Hd' : 1 <= DateFromTime t <= 31).
  { revert Hd. unfold DaysInMonth.
    assert (Hc : MonthFromTime t + 1 = 1 \/ MonthFromTime t + 1 = 2 \/ MonthFromTime t + 1 = 3 \/
      MonthFromTime t + 1 = 4 \/ MonthFromTime t + 1 = 5 \/ MonthFromTime t + 1 = 6 \/
      MonthFromTime t + 1 = 7 \/ MonthFromTime t + 1 = 8 \/ MonthFromTime t + 1 = 9 \/
      MonthFromTime t + 1 = 10 \/ MonthFromTime t + 1 = 11 \/ MonthFromTime t + 1 = 12) by lia.
    destruct (leap_cases (YearFromTime t)) as [[E _]|[E _]]; rewrite E;
    repeat (destruct Hc as [Hc|Hc]); rewrite Hc; cbn; lia. }
  unfold toISOString, parseISO.
  rewrite readYear_isoYear by lia. cbn [obind expect Ascii.eqb Bool.eqb].
  repeat (rewrite rd2 by lia; cbn [obind expect Ascii.eqb Bool.eqb]).
  rewrite readDigits_padStart by (change (10 ^ Z.of_nat 3) with 1000; lia).
  cbn [obind]. reflexivity.
Qed.

Section ParseFacts.
Variable otherFormats : string -> option Z.

Lemma parse_toISOString t :
  valid_time t -> parse otherFormats (toISOString t) = Some t.
Proof.
  intros Hv. unfold parse. rewrite parseISO_toISOString by assumption.
  destruct (date_fields t) as (Hm & Hd & HD).
  destruct (time_fields t) as (HT & Hh & Hmi & Hs & Hms).
  unfold legal. cbn [f_year f_month f_day f_hour f_min f_sec f_ms].
  rewrite HD, HT.
  repeat match goal with
         | |- context [?a <=? ?b] => destruct (Z.leb_spec a b); [|lia]
         end.
  cbn [andb].
  assert (E : MakeDate (Day t) (TimeWithinDay t) = t).
  { unfold MakeDate, Day, TimeWithinDay, msPerDay. Z.div_mod_to_equations. lia. }
  rewrite E. unfold TimeClip. unfold valid_time in Hv.
  destruct (Z.leb_spec (Z.abs t) maxTime); [reflexivity | lia].
Qed.
End ParseFacts.

Lemma split_no_sep c s : JS.includes c s = false -> JS.split c s = [s].
Proof.
  induction s as [|x s IH]; cbn; [reflexivity|].
  destruct (Ascii.eqb x c); [discriminate|]. intros H. rewrite IH by assumption.
  reflexivity.
Qed.

Lemma split_app c a b :
  JS.includes c a = false ->
  JS.split c (a ++ String c b) = a :: JS.split c b.
Proof.
  induction a as [|x a IH]; cbn.
  - rewrite Ascii.eqb_refl. reflexivity.
  - destruct (Ascii.eqb x c); [discriminate|]. intros H. rewrite IH by assumption.
    reflexivity.
Qed.

Lemma includes_app c a b : JS.includes c (a ++ String c b) = true.
Proof.
  induction a as [|x a IH]; cbn.
  - rewrite Ascii.eqb_refl. reflexivity.
  - destruct (Ascii.eqb x c); [reflexivity | assumption].
Qed.

End DateFacts.

(** C10. Cursor round trip: for every valid date [d] (a time value of a
    Date object) and every non-empty [id] without a '|' character,
    [parseCursor(encodeCursor(d, id))] is the cursor [{ date: d, id }],
    the date being equal to [d] to the millisecond.  The result does not
    depend on how the engine parses other date formats. *)
Theorem C10_cursor_roundtrip
    (otherFormats : string -> option Z) (d : Z) (id : string) :
  JsDate.valid_time d -> id <> "" -> JS.includes "|" id = false ->
  Cursor.parseCursor otherFormats (Some (Cursor.encodeCursor d id)) =
  Some (Cursor.mk d id).
Proof.
  intros Hv Hid Hbar. unfold Cursor.parseCursor, Cursor.encodeCursor.
  change ("|" ++ id)%string with (String "|" id).
  rewrite includes_app.
  assert (Hne : String.eqb (JsDate.toISOString d ++ String "|" id) "" = false).
  { apply String.eqb_neq. intros E.
    pose proof (includes_app "|" (JsDate.toISOString d) id) as Hi.
    rewrite E in Hi. discriminate. }
  rewrite Hne. cbn [orb negb].
  rewrite split_app by apply includes_toISOString.
  rewrite split_no_sep by assumption.
  rewrite parse_toISOString by assumption.
  destruct (String.eqb_spec id ""); [contradiction | reflexivity].
Qed.

Lemma C10_cursor_roundtrip_witness :
  Cursor.parseCursor (fun _ => None)
    (Some (Cursor.encodeCursor 1709210096789 "ckx1")) =
  Some (Cursor.mk 1709210096789 "ckx1").
Proof.
  apply (C10_cursor_roundtrip (fun _ => None) 1709210096789 "ckx1").
  - unfold JsDate.valid_time, JsDate.maxTime. lia.
  - discriminate.
  - reflexivity.
Defined.

(** ** Lookups on tables with unique keys *)

Section Lookups.

Lemma find_unique {A K : Type} (key : A -> K) (p : A -> bool) (l : list A)
    (x : A) :
  NoDup (map key l) -> In x l -> p x = true ->
  (forall y, In y l -> p y = true -> key y = key x) ->
  find p l = Some x.
Proof.
  induction l as [|a l IH]; intros Hnd Hin Hp Hk; [contradiction|].
  cbn [find]. destruct (p a) eqn:Ea.
  - destruct Hin as [->|Hin]; [reflexivity|].
    exfalso. inversion Hnd as [|? ? Hna _]; subst. apply Hna.
    rewrite (Hk a (or_introl eq_refl) Ea). apply in_map. assumption.
  - destruct Hin as [->|Hin]; [congruence|].
    inversion Hnd; subst. apply IH; auto. intros y Hy. apply Hk. right. exact Hy.
Qed.

Lemma find_ticket (db : Db.t) (t : Ticket.t) :
  Constraints.tickets_pkey db -> In t (Db.tickets db) ->
  find (fun x => String.eqb (Ticket.id x) (Ticket.id t)) (Db.tickets db)
  = Some t.
Proof.
  intros Hpk Hin. apply (find_unique Ticket.id); auto.
  - apply String.eqb_refl.
  - intros y _ Hy. apply String.eqb_eq. exact Hy.
Qed.

Lemma find_workspace (db : Db.t) (w : Workspace.t) :
  Constraints.workspaces_pkey db -> In w (Db.workspaces db) ->
  find (fun x => String.eqb (Workspace.id x) (Workspace.id w))
       (Db.workspaces db) = Some w.
Proof.
  intros Hpk Hin. apply (find_unique Workspace.id); auto.
  - apply String.eqb_refl.
  - intros y _ Hy. apply String.eqb_eq. exact Hy.
Qed.

Lemma member_findUnique_in (db : Db.t) (m : WorkspaceMember.t) :
  Constraints.members_unique db -> In m (Db.workspaceMembers db) ->
  ticketAccess.member_findUnique db (WorkspaceMember.workspaceId m)
    (WorkspaceMember.userId m) = Some m.
Proof.
  intros Hu Hin. unfold ticketAccess.member_findUnique.
  apply (find_unique
           (fun m => (WorkspaceMember.workspaceId m, WorkspaceMember.userId m)));
    auto.
  - rewrite !String.eqb_refl. reflexivity.
  - intros y _ Hy. apply andb_prop in Hy. destruct Hy as [H1 H2].
    apply String.eqb_eq in H1, H2. congruence.
Qed.

Lemma member_findUnique_some (db : Db.t) (workspaceId userId : string)
    (m : WorkspaceMember.t) :
  ticketAccess.member_findUnique db workspaceId userId = Some m ->
  In m (Db.workspaceMembers db)
  /\ WorkspaceMember.workspaceId m = workspaceId
  /\ WorkspaceMember.userId m = userId.
Proof.
  unfold ticketAccess.member_findUnique. intros H.
  apply find_some in H. destruct H as [Hin H].
  apply andb_prop in H. destruct H as [H1 H2].
  apply String.eqb_eq in H1, H2. auto.
Qed.

Lemma member_findUnique_none (db : Db.t) (workspaceId userId : string) :
  ticketAccess.member_findUnique db workspaceId userId = None ->
  forall role, ~ Spec.holds_role db workspaceId userId role.
Proof.
  unfold ticketAccess.member_findUnique. intros H role (m & Hin & Hw & Hu & _).
  pose proof (find_none _ _ H m Hin) as Hf. cbn beta in Hf.
  rewrite Hw, Hu, !String.eqb_refl in Hf. discriminate.
Qed.

(** With the unique index, the membership row decides the role. *)
Lemma holds_role_findUnique (db : Db.t) (workspaceId userId : string)
    (role : WorkspaceRole) :
  Constraints.members_unique db ->
  (Spec.holds_role db workspaceId userId role <->
   exists m, ticketAccess.member_findUnique db workspaceId userId = Some m
             /\ WorkspaceMember.role m = role).
Proof.
  intros Hu. split.
  - intros (m & Hin & Hw & Hus & Hr). exists m. split; [|exact Hr].
    subst workspaceId userId. apply member_findUnique_in; assumption.
  - intros (m & Hf & Hr). apply member_findUnique_some in Hf.
    destruct Hf as (Hin & Hw & Hus). exists m. auto.
Qed.

Lemma workspace_has_kind_iff (db : Db.t) (workspaceId : string)
    (k : WorkspaceKind) :
  supportAgent.workspace_has_kind db workspaceId k = true <->
  Spec.workspace_kind db workspaceId k.
Proof.
  unfold supportAgent.workspace_has_kind, Spec.workspace_kind.
  rewrite existsb_exists. split.
  - intros (w & Hin & H). apply andb_prop in H. destruct H as [H1 H2].
    apply String.eqb_eq in H1. exists w. repeat split; auto.
    destruct (Workspace.kind w), k; simpl in H2; congruence.
  - intros (w & Hin & Hid & Hk). exists w. split; [exact Hin|].
    rewrite Hid, String.eqb_refl, Hk. destruct k; reflexivity.
Qed.

(** [isSupportAgent] decides the elevated-agent capability. *)
Lemma isSupportAgent_iff (db : Db.t) (userId : string) :
  supportAgent.isSupportAgent db userId = true <->
  Spec.elevated_agent db userId.
Proof.
  unfold supportAgent.isSupportAgent, Spec.elevated_agent. split.
  - destruct (find _ _) as [m|] eqn:Hf; [intros _ | discriminate].
    apply find_some in Hf. destruct Hf as [Hin H].
    apply andb_prop in H. destruct H as [H H3].
    apply andb_prop in H. destruct H as [H1 H2].
    apply String.eqb_eq in H1. apply workspace_has_kind_iff in H3.
    exists (WorkspaceMember.workspaceId m). split; [|exact H3].
    exists m. repeat split; auto.
    destruct (WorkspaceMember.role m); [reflexivity | discriminate].
  - intros (wid & (m & Hin & Hw & Hu & Hr) & Hk).
    destruct (find _ _) eqn:Hf; [reflexivity|].
    pose proof (find_none _ _ Hf m Hin) as Hn. cbn beta in Hn.
    apply workspace_has_kind_iff in Hk.
    rewrite Hu, String.eqb_refl, Hr, Hw, Hk in Hn. discriminate.
Qed.

End Lookups.

(** ** Ticket access (lib/ticketAccess.ts, GET /tickets/:ticketId) *)

Section TicketAccess.

Lemma ticket_findUnique_some (db : Db.t) (ticketId : string)
    (tw : TicketWithMessages.t) :
  ticketAccess.ticket_findUnique db ticketId = Some tw ->
  In (TicketWithMessages.ticket tw) (Db.tickets db)
  /\ Ticket.id (TicketWithMessages.ticket tw) = ticketId
  /\ Spec.workspace_kind db
       (Ticket.workspaceId (TicketWithMessages.ticket tw))
       (TicketWithMessages.workspaceKind tw).
Proof.
  unfold ticketAccess.ticket_findUnique.
  destruct (find _ (Db.tickets db)) as [t|] eqn:Ht; [|discriminate].
  destruct (find _ (Db.workspaces db)) as [w|] eqn:Hw; [|discriminate].
  intros E. inversion E; subst tw; clear E. cbn.
  apply find_some in Ht, Hw. destruct Ht as [Hin Hid], Hw as [Hinw Hidw].
  apply String.eqb_eq in Hid, Hidw. repeat split; auto.
  exists w. auto.
Qed.

Lemma ticket_findUnique_in (db : Db.t) (t : Ticket.t) :
  Constraints.tickets_pkey db -> Constraints.workspaces_pkey db ->
  Constraints.tickets_workspace_fkey db ->
  In t (Db.tickets db) ->
  exists tw, ticketAccess.ticket_findUnique db (Ticket.id t) = Some tw
             /\ TicketWithMessages.ticket tw = t.
Proof.
  intros Hpk Hwpk Hfk Hin. unfold ticketAccess.ticket_findUnique.
  rewrite (find_ticket db t Hpk Hin).
  destruct (Hfk t Hin) as (w & Hw & Hid). rewrite <- Hid.
  rewrite (find_workspace db w Hwpk Hw). eexists. split; reflexivity.
Qed.

Lemma workspace_kind_unique (db : Db.t) (workspaceId : string)
    (k k' : WorkspaceKind) :
  Constraints.workspaces_pkey db ->
  Spec.workspace_kind db workspaceId k ->
  Spec.workspace_kind db workspaceId k' -> k = k'.
Proof.
  intros Hpk (w & Hw & Hid & Hk) (w' & Hw' & Hid' & Hk').
  pose proof (find_workspace db w Hpk Hw) as F.
  pose proof (find_workspace db w' Hpk Hw') as F'.
  rewrite Hid in F. rewrite Hid' in F'. congruence.
Qed.

(** What [getTicketWithAccessCheck] decides once the ticket is loaded. *)
Lemma access_decision (db : Db.t) (ticketId userId : string) (agent : bool)
    (tw : TicketWithMessages.t) :
  Constraints.workspaces_pkey db -> Constraints.members_unique db ->
  ticketAccess.ticket_findUnique db ticketId = Some tw ->
  (ticketAccess.getTicketWithAccessCheck db ticketId userId agent = Some tw
   /\ Spec.may_read db userId agent (TicketWithMessages.ticket tw))
  \/ (ticketAccess.getTicketWithAccessCheck db ticketId userId agent = None
      /\ ~ Spec.may_read db userId agent (TicketWithMessages.ticket tw)).
Proof.
  intros Hwpk Hmu Hf. unfold ticketAccess.getTicketWithAccessCheck.
  rewrite Hf. destruct (ticket_findUnique_some _ _ _ Hf) as (_ & _ & Hk).
  set (t := TicketWithMessages.ticket tw) in *.
  destruct agent, (TicketWithMessages.workspaceKind tw) eqn:Ek; cbn [andb kind_eqb].
  1: { left. split; [reflexivity|]. left. auto. }
  all: destruct (ticketAccess.member_findUnique db (Ticket.workspaceId t) userId)
         as [m|] eqn:Hm.
  all: try (right; split; [reflexivity|];
            intros [[Ha Hc]|[Hr|[Hr _]]];
            [ try discriminate;
              pose proof (workspace_kind_unique _ _ _ _ Hwpk Hk Hc); discriminate
            | exact (member_findUnique_none _ _ _ Hm _ Hr)
            | exact (member_findUnique_none _ _ _ Hm _ Hr) ]).
  all: destruct (member_findUnique_some _ _ _ _ Hm) as (Hin & Hw & Hu).
  all: destruct (WorkspaceMember.role m) eqn:Er; cbn [role_eqb andb].
  all: try (left; split; [reflexivity|]; right; left; exists m; auto).
  all: destruct (String.eqb_spec (Ticket.createdByUserId t) userId) as [Ec|Ec].
  all: try (left; split; [reflexivity|]; right; right; split; [exists m|]; auto).
  all: right; split; [reflexivity|];
       intros [[Ha Hc]|[Hr|[_ Hr]]];
       [ try discriminate;
         pose proof (workspace_kind_unique _ _ _ _ Hwpk Hk Hc); discriminate
       | apply (holds_role_findUnique _ _ _ _ Hmu) in Hr;
         destruct Hr as (m' & Hm' & Hr'); congruence
       | contradiction ].
Qed.

End TicketAccess.

(** C1. [getTicketWithAccessCheck] returns the ticket exactly when the
    caller is an elevated agent and the ticket's workspace is of kind
    CUSTOMER, or holds an ADMIN membership in the ticket's workspace, or
    holds a MEMBER membership there and created the ticket; in every
    other case, a nonexistent ticket included, it returns null, and
    GET /tickets/:ticketId then answers 404 NOT_FOUND and never 403. *)
Theorem C1_ticket_access (db : Db.t) (ticketId userId : string) (agent : bool) :
  Constraints.tickets_pkey db -> Constraints.workspaces_pkey db ->
  Constraints.members_unique db -> Constraints.tickets_workspace_fkey db ->
  (forall t, In t (Db.tickets db) -> Ticket.id t = ticketId ->
     (Spec.may_read db userId agent t <->
      exists tw,
        ticketAccess.getTicketWithAccessCheck db ticketId userId agent = Some tw
        /\ TicketWithMessages.ticket tw = t))
  /\ ((forall t, In t (Db.tickets db) -> Ticket.id t = ticketId ->
         ~ Spec.may_read db userId agent t) ->
      ticketAccess.getTicketWithAccessCheck db ticketId userId agent = None)
  /\ (forall tw,
        ticketAccess.getTicketWithAccessCheck db ticketId userId agent = Some tw ->
        In (TicketWithMessages.ticket tw) (Db.tickets db)
        /\ Ticket.id (TicketWithMessages.ticket tw) = ticketId)
  /\ (let r := ticketsRoutes.GET_ticket db ticketId userId in
      match ticketAccess.getTicketWithAccessCheck db ticketId userId
              (supportAgent.isSupportAgent db userId) with
      | Some tw => r = Response.json 200 (TicketBody tw)
      | None => r = Response.error 404 "NOT_FOUND" "Ticket not found"
      end
      /\ Response.status r <> 403).
Proof.
  intros Hpk Hwpk Hmu Hfk.
  assert (Hsome : forall tw,
    ticketAccess.getTicketWithAccessCheck db ticketId userId agent = Some tw ->
    ticketAccess.ticket_findUnique db ticketId = Some tw).
  { unfold ticketAccess.getTicketWithAccessCheck. intros tw.
    destruct (ticketAccess.ticket_findUnique db ticketId) as [tw'|]; [|discriminate].
    destruct (_ && _); [congruence|].
    destruct (ticketAccess.member_findUnique _ _ _); [|discriminate].
    destruct (role_eqb _ _); [congruence|].
    destruct (_ && _); congruence. }
  split; [|split; [|split]].
  - intros t Hin Hid. split.
    + intros Hr.
      destruct (ticket_findUnique_in db t Hpk Hwpk Hfk Hin) as (tw & Hf & Et).
      rewrite Hid in Hf.
      destruct (access_decision db ticketId userId agent tw Hwpk Hmu Hf)
        as [[Hg _]|[_ Hn]].
      * exists tw. auto.
      * rewrite Et in Hn. contradiction.
    + intros (tw & Hg & Et). pose proof (Hsome tw Hg) as Hf.
      destruct (access_decision db ticketId userId agent tw Hwpk Hmu Hf)
        as [[_ Hr]|[Hn _]]; [rewrite <- Et; exact Hr | congruence].
  - intros Hno.
    destruct (ticketAccess.getTicketWithAccessCheck db ticketId userId agent)
      as [tw|] eqn:Hg; [exfalso | reflexivity].
    pose proof (Hsome tw eq_refl) as Hf.
    destruct (ticket_findUnique_some _ _ _ Hf) as (Hin & Hid & _).
    destruct (access_decision db ticketId userId agent tw Hwpk Hmu Hf)
      as [[_ Hr]|[Hn _]]; [exact (Hno _ Hin Hid Hr) | congruence].
  - intros tw Hg.
    destruct (ticket_findUnique_some db ticketId tw (Hsome tw Hg)) as (? & ? & _).
    auto.
  - cbv zeta. unfold ticketsRoutes.GET_ticket.
    destruct (ticketAccess.getTicketWithAccessCheck db ticketId userId
                (supportAgent.isSupportAgent db userId));
      (split; [reflexivity | cbn; lia]).
Qed.

(** The sample store satisfies the constraints of the schema. *)
Section SampleFacts.

Ltac nodup_strings :=
  repeat (constructor; [cbn; intuition congruence|]); constructor.

Lemma sample_tickets_pkey : Constraints.tickets_pkey Sample.db.
Proof. unfold Constraints.tickets_pkey. cbn. nodup_strings. Qed.

Lemma sample_workspaces_pkey : Constraints.workspaces_pkey Sample.db.
Proof. unfold Constraints.workspaces_pkey. cbn. nodup_strings. Qed.

Lemma sample_members_unique : Constraints.members_unique Sample.db.
Proof. unfold Constraints.members_unique. cbn. nodup_strings. Qed.

Lemma sample_sessions_pkey : Constraints.sessions_pkey Sample.db.
Proof. unfold Constraints.sessions_pkey. cbn. nodup_strings. Qed.

Lemma sample_session_hashes_unique :
  Constraints.session_hashes_unique Sample.db.
Proof. unfold Constraints.session_hashes_unique. cbn. nodup_strings. Qed.

Lemma sample_tickets_workspace_fkey :
  Constraints.tickets_workspace_fkey Sample.db.
Proof.
  intros t Hin. cbn in Hin.
  repeat (destruct Hin as [<-|Hin]);
    [ exists (Workspace.mk "w-demo" "demo.local" (Some "demo.local") CUSTOMER)
    | exists (Workspace.mk "w-demo" "demo.local" (Some "demo.local") CUSTOMER)
    | exists (Workspace.mk "w-example" "example.com" (Some "example.com") CUSTOMER)
    | exists (Workspace.mk "w-example" "example.com" (Some "example.com") CUSTOMER)
    | exists (Workspace.mk "w-example" "example.com" (Some "example.com") CUSTOMER)
    | contradiction ];
    cbn; intuition.
Qed.

End SampleFacts.

Lemma C1_ticket_access_witness :
  Spec.may_read Sample.db "u-member" false
    (Ticket.mk "t1" "w-demo" "u-member" "Cannot log in" OPEN (Some HIGH)
       None 1000 1000) <->
  exists tw,
    ticketAccess.getTicketWithAccessCheck Sample.db "t1" "u-member" false
    = Some tw
    /\ TicketWithMessages.ticket tw =
       Ticket.mk "t1" "w-demo" "u-member" "Cannot log in" OPEN (Some HIGH)
         None 1000 1000.
Proof.
  apply (proj1 (C1_ticket_access Sample.db "t1" "u-member" false
                  sample_tickets_pkey sample_workspaces_pkey
                  sample_members_unique sample_tickets_workspace_fkey)).
  - cbn. left. reflexivity.
  - reflexivity.
Defined.

(** ** Membership resolution (middleware/workspaceAccess.ts) *)

(** C4. [requireWorkspaceMember]: a workspace that does not exist gives
    404 NOT_FOUND; otherwise an elevated agent (an ADMIN membership in a
    SUPPORT_OPS workspace, which is what [isSupportAgent] decides) on a
    CUSTOMER workspace is resolved to role ADMIN whether or not a
    membership row exists; otherwise the membership row for
    (workspaceId, userId) gives the role, and its absence 403 FORBIDDEN. *)
Theorem C4_membership_resolution (db : Db.t) (workspaceId : string)
    (user : AuthUser.t) :
  Constraints.workspaces_pkey db -> Constraints.members_unique db ->
  let result :=
    workspaceAccess.requireWorkspaceMember db workspaceId (Some user) in
  let agent := supportAgent.isSupportAgent db (AuthUser.id user) in
  (agent = true <-> Spec.elevated_agent db (AuthUser.id user))
  /\ ((forall w, In w (Db.workspaces db) -> Workspace.id w <> workspaceId) ->
      result = Respond (Response.error 404 "NOT_FOUND" "Workspace not found"))
  /\ (forall w, In w (Db.workspaces db) -> Workspace.id w = workspaceId ->
      (agent = true -> Workspace.kind w = CUSTOMER ->
       result = Next (WorkspaceMembershipInfo.mk workspaceId ADMIN))
      /\ (~ (agent = true /\ Workspace.kind w = CUSTOMER) ->
          (forall m, In m (Db.workspaceMembers db) ->
             WorkspaceMember.workspaceId m = workspaceId ->
             WorkspaceMember.userId m = AuthUser.id user ->
             result = Next (WorkspaceMembershipInfo.mk workspaceId
                              (WorkspaceMember.role m)))
          /\ ((forall role,
                 ~ Spec.holds_role db workspaceId (AuthUser.id user) role) ->
              result = Respond (Response.error 403 "FORBIDDEN"
                                  "Not a member of this workspace")))).
Proof.
  intros Hwpk Hmu result agent. subst result agent.
  unfold workspaceAccess.requireWorkspaceMember.
  split; [apply isSupportAgent_iff|]. split.
  - intros Hno. destruct (find _ (Db.workspaces db)) as [w|] eqn:Hf; [|reflexivity].
    apply find_some in Hf. destruct Hf as [Hin Hid].
    apply String.eqb_eq in Hid. destruct (Hno w Hin Hid).
  - intros w Hin Hid. subst workspaceId. rewrite (find_workspace db w Hwpk Hin).
    split.
    + intros -> ->. reflexivity.
    + intros Hnot.
      assert (E : supportAgent.isSupportAgent db (AuthUser.id user)
                  && kind_eqb (Workspace.kind w) CUSTOMER = false).
      { destruct (supportAgent.isSupportAgent db (AuthUser.id user)),
          (Workspace.kind w); cbn; try reflexivity.
        exfalso. apply Hnot. split; reflexivity. }
      rewrite E. split.
      * intros m Hm Hw Hu. rewrite <- Hw, <- Hu.
        rewrite (member_findUnique_in db m Hmu Hm). reflexivity.
      * intros Hnone.
        destruct (ticketAccess.member_findUnique db (Workspace.id w)
                    (AuthUser.id user)) as [m|] eqn:Hf; [exfalso | reflexivity].
        apply member_findUnique_some in Hf. destruct Hf as (Hm & Hw & Hu).
        apply (Hnone (WorkspaceMember.role m)). exists m. auto.
Qed.

Lemma C4_membership_resolution_witness :
  workspaceAccess.requireWorkspaceMember Sample.db "w-demo"
    (Some (AuthUser.mk "u-admin" "admin@demo.local" true))
  = Next (WorkspaceMembershipInfo.mk "w-demo" ADMIN).
Proof.
  refine (proj1 (proj2 (proj2
    (C4_membership_resolution Sample.db "w-demo"
       (AuthUser.mk "u-admin" "admin@demo.local" true)
       sample_workspaces_pkey sample_members_unique))
    (Workspace.mk "w-demo" "demo.local" (Some "demo.local") CUSTOMER) _ _) _ _).
  - cbn. right. left. reflexivity.
  - reflexivity.
  - reflexivity.
  - reflexivity.
Defined.

(** ** Replies on closed tickets (POST /tickets/:ticketId/messages) *)

(** C6. On a CLOSED ticket the caller can read, with a body that passes
    [replyMessageSchema]: a caller who is neither an elevated agent nor
    an ADMIN of the ticket's workspace (so a MEMBER, the creator) gets
    403 TICKET_CLOSED and the store is left as it was, no message is
    created; an elevated agent or an ADMIN of the workspace gets 201 with
    the new message, which is added to the messages of the store. *)
Theorem C6_closed_ticket_gate (db : Db.t) (o : ticketsRoutes.Outside.t)
    (ticketId userId : string) (message : option string) (content : string)
    (tw : TicketWithMessages.t) :
  Constraints.members_unique db ->
  validation.replyMessageSchema message = inl content ->
  ticketAccess.getTicketWithAccessCheck db ticketId userId
    (supportAgent.isSupportAgent db userId) = Some tw ->
  Ticket.status (TicketWithMessages.ticket tw) = CLOSED ->
  let workspaceId := Ticket.workspaceId (TicketWithMessages.ticket tw) in
  (~ Spec.elevated_agent db userId ->
   ~ Spec.holds_role db workspaceId userId ADMIN ->
   Spec.holds_role db workspaceId userId MEMBER
   /\ ticketsRoutes.POST_message o ticketId userId message db =
      (db, Ok (Response.error 403 "TICKET_CLOSED"
                 "This ticket is closed. New replies are not allowed.")))
  /\ (Spec.elevated_agent db userId
      \/ Spec.holds_role db workspaceId userId ADMIN ->
      ~ In (ticketsRoutes.Outside.messageId o)
           (map TicketMessage.id (Db.ticketMessages db)) ->
      exists db',
        let m := TicketMessage.mk (ticketsRoutes.Outside.messageId o)
                   ticketId userId content (ticketsRoutes.Outside.createdAt o) in
        ticketsRoutes.POST_message o ticketId userId message db =
          (db', Ok (Response.json 201 (MessageBody m)))
        /\ Db.ticketMessages db' = (Db.ticketMessages db ++ [m])%list).
Proof.
  intros Hmu Hbody Hacc Hclosed workspaceId. split.
  - intros Hna Hnadmin.
    assert (Ea : supportAgent.isSupportAgent db userId = false).
    { destruct (supportAgent.isSupportAgent db userId) eqn:E; [|reflexivity].
      exfalso. apply Hna. apply isSupportAgent_iff. exact E. }
    assert (Hmember : Spec.holds_role db workspaceId userId MEMBER).
    { revert Hacc. unfold ticketAccess.getTicketWithAccessCheck. rewrite Ea.
      destruct (ticketAccess.ticket_findUnique db ticketId) as [tw'|];
        [|discriminate].
      cbn [andb].
      destruct (ticketAccess.member_findUnique db _ userId) as [m|] eqn:Hm;
        [|discriminate].
      intros Hacc.
      assert (tw' = tw) by
        (destruct (role_eqb _ _); [congruence|]; destruct (_ && _); congruence).
      subst tw'. apply member_findUnique_some in Hm.
      destruct Hm as (Hin & Hw & Hu).
      destruct (WorkspaceMember.role m) eqn:Er.
      - exfalso. apply Hnadmin. exists m. auto.
      - exists m. auto. }
    split; [exact Hmember|].
    unfold ticketsRoutes.POST_message. rewrite Hbody, Hacc, Ea, Hclosed.
    cbn [status_eqb andb negb].
    apply (holds_role_findUnique _ _ _ _ Hmu) in Hmember.
    destruct Hmember as (m & Hm & Hr). fold workspaceId. rewrite Hm, Hr.
    reflexivity.
  - intros Hpriv Hfresh. eexists. cbv zeta.
    unfold ticketsRoutes.POST_message. rewrite Hbody, Hacc, Hclosed.
    cbn [status_eqb andb].
    assert (Hnb :
      (if negb (supportAgent.isSupportAgent db userId)
       then match ticketAccess.member_findUnique db workspaceId userId with
            | Some membership =>
                negb (role_eqb (WorkspaceMember.role membership) ADMIN)
            | None => true
            end
       else false) = false).
    { destruct Hpriv as [Hag|Had].
      - apply isSupportAgent_iff in Hag. rewrite Hag. reflexivity.
      - apply (holds_role_findUnique _ _ _ _ Hmu) in Had.
        destruct Had as (m & Hm & Hr). rewrite Hm, Hr.
        destruct (supportAgent.isSupportAgent db userId); reflexivity. }
    fold workspaceId. rewrite Hnb.
    unfold ticketsRoutes.reply_transaction, Prisma.create.
    assert (Hex : existsb
      (ticketsRoutes.message_collides
         (TicketMessage.mk (ticketsRoutes.Outside.messageId o) ticketId userId
            content (ticketsRoutes.Outside.createdAt o)))
      (Db.ticketMessages db) = false).
    { destruct (existsb _ _) eqn:E; [|reflexivity]. exfalso.
      apply existsb_exists in E. destruct E as (x & Hx & Hc).
      unfold ticketsRoutes.message_collides in Hc. cbn in Hc.
      apply String.eqb_eq in Hc. apply Hfresh. rewrite Hc.
      apply in_map. exact Hx. }
    rewrite Hex. split; reflexivity.
Qed.

Lemma C6_closed_ticket_gate_witness :
  Spec.holds_role Sample.db "w-demo" "u-member" MEMBER
  /\ ticketsRoutes.POST_message (ticketsRoutes.Outside.mk "msg9" 9000 9000)
       "t2" "u-member" (Some "Any news?") Sample.db =
     (Sample.db, Ok (Response.error 403 "TICKET_CLOSED"
                       "This ticket is closed. New replies are not allowed.")).
Proof.
  refine (proj1 (C6_closed_ticket_gate Sample.db
            (ticketsRoutes.Outside.mk "msg9" 9000 9000) "t2" "u-member"
            (Some "Any news?") "Any news?"
            (TicketWithMessages.mk
               (Ticket.mk "t2" "w-demo" "u-member" "Invoice missing" CLOSED
                  None None 2000 2500)
               CUSTOMER
               [TicketMessage.mk "msg2" "t2" "u-member" "Where is my invoice?"
                  2000])
            sample_members_unique _ _ _) _ _).
  - reflexivity.
  - reflexivity.
  - reflexivity.
  - intros H. apply isSupportAgent_iff in H. discriminate H.
  - intros H.
    apply (holds_role_findUnique _ _ _ _ sample_members_unique) in H.
    destruct H as (m & Hm & Hr). cbn in Hm. inversion Hm; subst m.
    discriminate Hr.
Defined.

(** ** The ticket listing (GET /workspaces/:workspaceId/tickets) *)

Section Ordering.

Context {A : Type} (leb : A -> A -> bool).

Lemma insert_by_perm (x : A) (l : list A) :
  Permutation (Prisma.insert_by leb x l) (x :: l).
Proof.
  induction l as [|y l IH]; cbn; [reflexivity|].
  destruct (leb x y); [reflexivity|].
  rewrite IH. apply perm_swap.
Qed.

Lemma orderBy_perm (l : list A) : Permutation (Prisma.orderBy leb l) l.
Proof.
  induction l as [|x l IH]; cbn; [reflexivity|].
  fold (Prisma.orderBy leb l). rewrite insert_by_perm. constructor. exact IH.
Qed.

Hypothesis leb_total : forall a b, leb a b = false -> leb b a = true.

Local Abbreviation R := (fun a b : A => leb a b = true).

Lemma insert_by_hdrel (x a : A) (l : list A) :
  HdRel R a l -> R a x -> HdRel R a (Prisma.insert_by leb x l).
Proof.
  intros Hl Hx. destruct l as [|y l]; cbn; [constructor; exact Hx|].
  destruct (leb x y); constructor; [exact Hx|].
  inversion Hl; assumption.
Qed.

Lemma insert_by_sorted (x : A) (l : list A) :
  Sorted R l -> Sorted R (Prisma.insert_by leb x l).
Proof.
  induction l as [|y l IH]; intros Hs; cbn.
  - repeat constructor.
  - inversion Hs as [|? ? Hs' Hhd]; subst.
    destruct (leb x y) eqn:E.
    + constructor; [exact Hs | constructor; exact E].
    + constructor; [apply IH; exact Hs'|].
      apply insert_by_hdrel; [exact Hhd | apply leb_total; exact E].
Qed.

Lemma orderBy_sorted (l : list A) : Sorted R (Prisma.orderBy leb l).
Proof.
  induction l as [|x l IH]; cbn; [constructor|].
  apply insert_by_sorted. exact IH.
Qed.

End Ordering.

Section RowOrder.

Import workspacesRoutes.


Lemma compare_column_antisym c a b :
  compare_column c b a = CompOpp (compare_column c a b).
Proof.
  destruct c; cbn; try apply Z.compare_antisym; apply String.compare_antisym.
Qed.

Lemma compare_rows_antisym keys a b :
  compare_rows keys b a = CompOpp (compare_rows keys a b).
Proof.
  induction keys as [|[c d] keys IH]; cbn; [reflexivity|].
  rewrite (compare_column_antisym c a b).
  destruct d, (compare_column c a b); cbn; auto.
Qed.

Lemma row_leb_total keys a b :
  row_leb keys a b = false -> row_leb keys b a = true.
Proof.
  unfold row_leb. rewrite (compare_rows_antisym keys a b).
  destruct (compare_rows keys a b); cbn; congruence.
Qed.

Lemma effective_limit_range q : 1 <= effective_limit q <= 50.
Proof. unfold effective_limit. lia. Qed.

End RowOrder.

Section Listing.

Import workspacesRoutes.

Variable otherFormats : string -> option Z.

Lemma last_some {A : Type} (l : list A) :
  match last (map Some l) None with
  | Some x => exists pre, l = (pre ++ [x])%list
  | None => l = []
  end.
Proof.
  induction l as [|a l IH]; [reflexivity|].
  cbn [map]. destruct l as [|b l].
  - cbn. exists []. reflexivity.
  - change (last (Some a :: map Some (b :: l)) None)
      with (last (map Some (b :: l)) None).
    destruct (last (map Some (b :: l)) None) as [x|].
    + destruct IH as (pre & E). exists (a :: pre). rewrite E. reflexivity.
    + discriminate IH.
Qed.

Lemma in_firstn {A : Type} (n : nat) (l : list A) (x : A) :
  In x (firstn n l) -> In x l.
Proof.
  intros H. rewrite <- (firstn_skipn n l). apply in_or_app. left. exact H.
Qed.

Lemma baseWhere_iff ws userId mine sort cursor t :
  baseWhere ws userId mine sort cursor t = true <->
  Ticket.workspaceId t = ws
  /\ (mine = true -> Ticket.createdByUserId t = userId)
  /\ (forall c, cursor = Some c ->
        cursorField sort t < Cursor.date c
        \/ (cursorField sort t = Cursor.date c
            /\ String.ltb (Ticket.id t) (Cursor.id c) = true)).
Proof.
  unfold baseWhere, after_cursor.
  rewrite !andb_true_iff, String.eqb_eq.
  split.
  - intros [[Hw Hm] Hc]. repeat split; auto.
    + intros ->. apply String.eqb_eq. exact Hm.
    + intros c ->. apply orb_true_iff in Hc. destruct Hc as [Hc|Hc].
      * left. apply Z.ltb_lt. exact Hc.
      * right. apply andb_true_iff in Hc. destruct Hc as [H1 H2].
        apply Z.eqb_eq in H1. auto.
  - intros (Hw & Hm & Hc). repeat split; auto.
    + destruct mine; [apply String.eqb_eq; auto | reflexivity].
    + destruct cursor as [c|]; [|reflexivity].
      apply orb_true_iff. destruct (Hc c eq_refl) as [H|[H1 H2]].
      * left. apply Z.ltb_lt. exact H.
      * right. apply andb_true_iff. split; [apply Z.eqb_eq|]; assumption.
Qed.

Lemma matching_rows_in db membership userId q t :
  let role := WorkspaceMembershipInfo.role membership in
  let sort := effective_sort role q in
  In t (Spec.matching_rows otherFormats db membership userId q) <->
  In t (Db.tickets db)
  /\ Ticket.workspaceId t = WorkspaceMembershipInfo.workspaceId membership
  /\ (effective_mine role q = true -> Ticket.createdByUserId t = userId)
  /\ (forall c, effective_cursor otherFormats sort q = Some c ->
        cursorField sort t < Cursor.date c
        \/ (cursorField sort t = Cursor.date c
            /\ String.ltb (Ticket.id t) (Cursor.id c) = true)).
Proof.
  cbv zeta. rewrite <- baseWhere_iff, <- filter_In.
  unfold Spec.matching_rows. split; intros H.
  - eapply Permutation_in; [apply orderBy_perm | exact H].
  - eapply Permutation_in; [apply Permutation_sym, orderBy_perm | exact H].
Qed.

Lemma fetched_rows db membership userId q :
  fetched otherFormats db membership userId q =
  firstn (Z.to_nat (effective_limit q + 1))
    (Spec.matching_rows otherFormats db membership userId q).
Proof. reflexivity. Qed.

(** The page and the next cursor of the response. *)
Lemma listTickets_page db membership userId q :
  let limit := effective_limit q in
  let sort := effective_sort (WorkspaceMembershipInfo.role membership) q in
  let rows := Spec.matching_rows otherFormats db membership userId q in
  let items := fetched otherFormats db membership userId q in
  exists nextCursor,
    listTickets otherFormats db membership userId q =
      Response.json 200 (ItemsBody (firstn (Z.to_nat limit) rows) nextCursor)
    /\ (nextCursor <> None <->
          List.length items = Z.to_nat (limit + 1)
          /\ supportsCursor sort = true)
    /\ (forall c, nextCursor = Some c ->
          exists pre l,
            firstn (Z.to_nat limit) rows = (pre ++ [l])%list
            /\ c = Cursor.encodeCursor (cursorField sort l) (Ticket.id l)).
Proof.
  intros limit sort rows items.
  pose proof (effective_limit_range q) as Hl. fold limit in Hl.
  assert (Hitems : items = firstn (Z.to_nat (limit + 1)) rows) by reflexivity.
  unfold listTickets. fold limit sort items.
  set (hasMore := limit <? Z.of_nat (List.length items)).
  set (page := if hasMore then firstn (Z.to_nat limit) items else items).
  assert (Hpage : page = firstn (Z.to_nat limit) rows).
  { subst page hasMore.
    destruct (Z.ltb_spec limit (Z.of_nat (List.length items))) as [H|H].
    - rewrite Hitems, firstn_firstn. f_equal. lia.
    - rewrite Hitems in *. rewrite length_firstn in H.
      rewrite !firstn_all2 by lia. reflexivity. }
  assert (Hmore : hasMore = true <-> List.length items = Z.to_nat (limit + 1)).
  { subst hasMore. rewrite Z.ltb_lt. rewrite Hitems, length_firstn. lia. }
  rewrite <- Hpage.
  pose proof (last_some page) as Hlast.
  destruct (last (map Some page) None) as [l|].
  - destruct Hlast as (pre & Epre).
    eexists. split; [reflexivity|]. split.
    + rewrite <- Hmore.
      destruct hasMore, (supportsCursor sort); cbn; intuition congruence.
    + intros c Hc. exists pre, l. split; [exact Epre|].
      destruct (hasMore && supportsCursor sort); congruence.
  - exists None. split; [reflexivity|]. split.
    + split; [congruence|]. intros [Hlen _]. exfalso.
      apply Hmore in Hlen. subst page. rewrite Hlen in Hlast.
      assert (H0 : List.length (firstn (Z.to_nat limit) items) = 0%nat)
        by (rewrite Hlast; reflexivity).
      rewrite length_firstn in H0. apply Hmore in Hlen. lia.
    + discriminate.
Qed.

End Listing.





(** ** The signing secret (lib/jwt.ts, index.ts) *)





(** ** The /auth router (routes/auth.ts) *)

Section AuthRouter.

Import authRoutes.
Import Spec.

Variable sha256_hex : string -> string.
Variable jwt_sign : string -> string -> Z -> Z -> string.
Variable bcrypt_hashSync : string -> string -> string.
Variable bcrypt_compareSync : string -> string -> bool.
Variable signupSchema : AuthBody.t -> (string * string) + string.
Variable loginSchema : AuthBody.t -> (string * string) + string.

Local Abbreviation refresh := (authRoutes.refresh sha256_hex jwt_sign).
Local Abbreviation handle :=
  (authRoutes.handle sha256_hex jwt_sign bcrypt_hashSync bcrypt_compareSync
     signupSchema loginSchema).
Local Abbreviation serve :=
  (authRoutes.serve sha256_hex jwt_sign bcrypt_hashSync bcrypt_compareSync
     signupSchema loginSchema).

(** *** Lists of sessions *)

Lemma updateMany_ids where_ at_ (l : list RefreshSession.t) :
  map RefreshSession.id
    (Prisma.updateMany where_ (RefreshSession.with_revokedAt at_) l)
  = map RefreshSession.id l.
Proof.
  unfold Prisma.updateMany. rewrite map_map. apply map_ext.
  intros s. destruct (where_ s); reflexivity.
Qed.

Lemma updateMany_hashes where_ at_ (l : list RefreshSession.t) :
  map RefreshSession.refreshTokenHash
    (Prisma.updateMany where_ (RefreshSession.with_revokedAt at_) l)
  = map RefreshSession.refreshTokenHash l.
Proof.
  unfold Prisma.updateMany. rewrite map_map. apply map_ext.
  intros s. destruct (where_ s); reflexivity.
Qed.

Lemma updateMany_none {A : Type} (data : A -> A) (l : list A) :
  Prisma.updateMany (fun _ => false) data l = l.
Proof. unfold Prisma.updateMany. apply map_id. Qed.

Lemma nodup_map_inj {A K : Type} (key : A -> K) (l : list A) (a b : A) :
  NoDup (map key l) -> In a l -> In b l -> key a = key b -> a = b.
Proof.
  induction l as [|x l IH]; intros Hnd Ha Hb E; [contradiction|].
  inversion Hnd as [|? ? Hx Hnd']; subst.
  destruct Ha as [->|Ha], Hb as [->|Hb]; auto.
  - exfalso. apply Hx. rewrite E. apply in_map. exact Hb.
  - exfalso. apply Hx. rewrite <- E. apply in_map. exact Ha.
Qed.

Lemma find_session_by_hash (l : list RefreshSession.t) (s : RefreshSession.t) :
  NoDup (map RefreshSession.refreshTokenHash l) -> In s l ->
  find (fun x => String.eqb (RefreshSession.refreshTokenHash x)
                   (RefreshSession.refreshTokenHash s)) l = Some s.
Proof.
  intros Hnd Hin. apply (find_unique RefreshSession.refreshTokenHash); auto.
  - apply String.eqb_refl.
  - intros y _ Hy. apply String.eqb_eq. exact Hy.
Qed.

(** *** Effects of the handlers on the ledger *)


Lemma keeps_ret {A : Type} (a : A) : keeps_ledger (ret a).
Proof. intros db. reflexivity. Qed.

Lemma keeps_get : keeps_ledger get.
Proof. intros db. reflexivity. Qed.

Lemma keeps_bind {A B : Type} (m : M A) (k : A -> M B) :
  keeps_ledger m -> (forall a, keeps_ledger (k a)) -> keeps_ledger (bind m k).
Proof.
  intros Hm Hk db. unfold bind. specialize (Hm db).
  destruct (m db) as [db' [a|e]]; cbn in *; [rewrite Hk|]; exact Hm.
Qed.

Lemma keeps_user_create u : keeps_ledger (user_create u).
Proof.
  intros db. unfold user_create. destruct (Prisma.create _ _ _); reflexivity.
Qed.

Lemma keeps_workspace_create w : keeps_ledger (workspace_create w).
Proof.
  intros db. unfold workspace_create. destruct (Prisma.create _ _ _); reflexivity.
Qed.

Lemma keeps_member_create m : keeps_ledger (member_create m).
Proof.
  intros db. unfold member_create. destruct (Prisma.create _ _ _); reflexivity.
Qed.


Lemma keeps_lift {A : Type} (r : Result A) : keeps_ledger (lift r).
Proof. intros db. reflexivity. Qed.

Lemma not_collides (s : RefreshSession.t) (l : list RefreshSession.t) :
  existsb (session_collides s) l = false <->
  ~ In (RefreshSession.id s) (map RefreshSession.id l).
Proof.
  split.
  - intros H Hin. apply in_map_iff in Hin. destruct Hin as (x & Hx & Hin).
    assert (E : existsb (session_collides s) l = true).
    { apply existsb_exists. exists x. split; [exact Hin|].
      unfold session_collides. rewrite Hx. apply String.eqb_refl. }
    congruence.
  - intros H. destruct (existsb _ _) eqn:E; [|reflexivity]. exfalso.
    apply existsb_exists in E. destruct E as (x & Hin & Hc).
    apply String.eqb_eq in Hc. apply H. rewrite Hc. apply in_map. exact Hin.
Qed.

(** [setAuthCookiesAndRespond] adds the new session, or nothing when the
    generated key is taken. *)
Lemma issue_effect env o userId tok hash code db :
  let out := setAuthCookiesAndRespond jwt_sign env o userId tok hash code db in
  let s := RefreshSession.mk (Outside.sessionId o) userId hash
             (Outside.issuedNow o + REFRESH_EXPIRES_MS) (Outside.issuedNow o)
             None in
  (In (Outside.sessionId o) (map RefreshSession.id (Db.refreshSessions db))
   /\ fst out = db /\ exists e, snd out = Throw e)
  \/ (~ In (Outside.sessionId o) (map RefreshSession.id (Db.refreshSessions db))
      /\ fst out = Db.with_refreshSessions db (Db.refreshSessions db ++ [s])%list
      /\ match jwt.getSecret env with
         | Ok _ =>
             snd out =
             Ok (Response.mk code (UserBody userId)
                   [SetAccessToken
                      (match jwt.createAccessToken jwt_sign env
                               (Outside.signedNow o) userId with
                       | Ok t => t
                       | Throw _ => ""
                       end);
                    SetRefreshToken tok])
         | Throw e => snd out = Throw e
         end).
Proof.
  cbv zeta. unfold setAuthCookiesAndRespond, bind, session_create, Prisma.create.
  set (s := RefreshSession.mk _ _ _ _ _ _).
  destruct (existsb (session_collides s) (Db.refreshSessions db)) eqn:E.
  - left. split; [|split; [reflexivity | eexists; reflexivity]].
    destruct (in_dec string_dec (Outside.sessionId o)
                (map RefreshSession.id (Db.refreshSessions db))) as [H|H];
      [exact H|].
    apply (proj2 (not_collides s _)) in H. congruence.
  - right. apply not_collides in E. split; [exact E|].
    unfold lift, jwt.createAccessToken.
    destruct (jwt.getSecret env); cbn; split; reflexivity.
Qed.


(** *** The ledger under the requests of the /auth router *)

Lemma ledger_effect_refl h r l : ledger_effect sha256_hex h r l l.
Proof.
  exists (fun _ => false), 0, []. rewrite updateMany_none, app_nil_r.
  split; [reflexivity|]. split; [discriminate | left; reflexivity].
Qed.

Lemma step_ret h r {A : Type} (a : A) : ledger_step sha256_hex h r (ret a).
Proof. intros db. apply ledger_effect_refl. Qed.

Lemma step_bind h r {A B : Type} (m : M A) (k : A -> M B) :
  keeps_ledger m -> (forall a, ledger_step sha256_hex h r (k a)) ->
  ledger_step sha256_hex h r (bind m k).
Proof.
  intros Hm Hk db. unfold bind. specialize (Hm db).
  destruct (m db) as [db' [a|e]]; cbn in *.
  - rewrite <- Hm. apply Hk.
  - rewrite Hm. apply ledger_effect_refl.
Qed.

Lemma step_issue r env o userId tok hash code :
  ledger_step sha256_hex hash r
    (setAuthCookiesAndRespond jwt_sign env o userId tok hash code).
Proof.
  intros db.
  destruct (issue_effect env o userId tok hash code db)
    as [(_ & -> & _)|(Hfresh & -> & _)].
  - apply ledger_effect_refl.
  - cbn. eexists (fun _ => false), 0, [_]. rewrite updateMany_none.
    split; [reflexivity|]. split; [discriminate|]. right.
    eexists. split; [reflexivity|]. split; [reflexivity|].
    split; [reflexivity | exact Hfresh].
Qed.

Lemma step_signup env o body :
  ledger_step sha256_hex (sha256_hex (Outside.refreshToken o)) (Signup body)
    (signup sha256_hex jwt_sign bcrypt_hashSync signupSchema env o body).
Proof.
  unfold signup. destruct (signupSchema body) as [[email password]|msg];
    [|apply step_ret].
  apply step_bind; [apply keeps_get|]. intros db0.
  destruct (find _ (Db.users db0)); [apply step_ret|].
  destruct (parseEmailDomain email) as [domain|]; [|apply step_ret].
  apply step_bind; [apply keeps_user_create|]. intros user.
  apply step_bind; [apply keeps_get|]. intros db1.
  apply step_bind.
  { destruct (find _ (Db.workspaces db1));
      [apply keeps_ret | apply keeps_workspace_create]. }
  intros cw. apply step_bind; [apply keeps_member_create|]. intros _.
  apply step_bind.
  { destruct (isSupportAgentDomain env email); [|apply keeps_ret].
    apply keeps_bind; [apply keeps_get|]. intros db2.
    destruct (find _ (Db.workspaces db2));
      [apply keeps_member_create | apply keeps_ret]. }
  intros _. apply step_issue.
Qed.

Lemma step_login env o body :
  ledger_step sha256_hex (sha256_hex (Outside.refreshToken o)) (Login body)
    (login sha256_hex jwt_sign bcrypt_compareSync loginSchema env o body).
Proof.
  unfold login. destruct (loginSchema body) as [[email password]|msg];
    [|apply step_ret].
  apply step_bind; [apply keeps_get|]. intros db0.
  destruct (find _ (Db.users db0)) as [user|]; [|apply step_ret].
  destruct (bcrypt_compareSync _ _); [apply step_issue | apply step_ret].
Qed.

(** What a refresh that answers 200 found and did. *)
Lemma refresh_success env o cookie db db' resp :
  refresh env o cookie db = (db', Ok resp) -> Response.status resp = 200 ->
  exists token s,
    truthy cookie = Some token
    /\ find (fun x => String.eqb (RefreshSession.refreshTokenHash x)
                        (sha256_hex token)) (Db.refreshSessions db) = Some s
    /\ RefreshSession.revokedAt s = None
    /\ ~ RefreshSession.expiresAt s < Outside.now o
    /\ fresh_session_id db (Outside.sessionId o)
    /\ Db.refreshSessions db' =
       (Prisma.updateMany
          (fun x => String.eqb (RefreshSession.id x) (RefreshSession.id s))
          (RefreshSession.with_revokedAt (Outside.revokedNow o))
          (Db.refreshSessions db)
        ++ [RefreshSession.mk (Outside.sessionId o) (RefreshSession.userId s)
              (sha256_hex (Outside.refreshToken o))
              (Outside.issuedNow o + REFRESH_EXPIRES_MS) (Outside.issuedNow o)
              None])%list
    /\ Response.cookies resp =
       [SetAccessToken
          (match jwt.createAccessToken jwt_sign env (Outside.signedNow o)
                   (RefreshSession.userId s) with
           | Ok t => t
           | Throw _ => ""
           end);
        SetRefreshToken (Outside.refreshToken o)].
Proof.
  unfold authRoutes.refresh, refreshToken.hashRefreshToken.
  destruct (truthy cookie) as [token|];
    [|cbn; intros E; inversion E; subst; cbn; discriminate].
  unfold bind at 1. cbn [get].
  destruct (find _ (Db.refreshSessions db)) as [s|] eqn:Hf;
    [|cbn; intros E; inversion E; subst; cbn; discriminate].
  destruct (RefreshSession.revokedAt s) as [r|] eqn:Hr;
    [cbn; intros E; inversion E; subst; cbn; discriminate|].
  cbn [orb].
  destruct (Z.ltb_spec (RefreshSession.expiresAt s) (Outside.now o)) as [Hx|Hx];
    [cbn; intros E; inversion E; subst; cbn; discriminate|].
  unfold bind at 1. cbn [session_revoke].
  set (db1 := Db.with_refreshSessions db _).
  intros E Hst.
  destruct (issue_effect env o (RefreshSession.userId s) (Outside.refreshToken o)
              (sha256_hex (Outside.refreshToken o)) 200 db1)
    as [(_ & _ & e & He)|(Hfresh & Hdb & Hresp)].
  - rewrite E in He. cbn in He. discriminate.
  - rewrite E in Hdb, Hresp. cbn [fst snd] in Hdb, Hresp.
    exists token, s. split; [reflexivity|]. split; [exact Hf|].
    split; [exact Hr|]. split; [lia|].
    subst db1. cbn [Db.refreshSessions Db.with_refreshSessions] in *.
    rewrite updateMany_ids in Hfresh. split; [exact Hfresh|].
    split; [rewrite Hdb; reflexivity|].
    destruct (jwt.getSecret env); [|discriminate].
    inversion Hresp. reflexivity.
Qed.


(** The three ways a refresh answers 401 and leaves the store alone. *)
Lemma refresh_denied_cases env o cookie db :
  match truthy cookie with
  | None =>
      refresh env o cookie db =
      (db, Ok (Response.error 401 "UNAUTHORIZED" "Refresh token required"))
  | Some token =>
      match find (fun x => String.eqb (RefreshSession.refreshTokenHash x)
                             (sha256_hex token)) (Db.refreshSessions db) with
      | None => refresh env o cookie db = (db, Ok refresh_denied)
      | Some s =>
          RefreshSession.revokedAt s <> None
          \/ RefreshSession.expiresAt s < Outside.now o ->
          refresh env o cookie db = (db, Ok refresh_denied)
      end
  end.
Proof.
  destruct (truthy cookie) as [token|] eqn:Ht.
  - destruct (find _ (Db.refreshSessions db)) as [s|] eqn:Hf.
    + intros H. unfold authRoutes.refresh, refreshToken.hashRefreshToken.
      rewrite Ht. unfold bind at 1. cbn [get]. rewrite Hf.
      destruct H as [H|H].
      * destruct (RefreshSession.revokedAt s); [reflexivity | contradiction].
      * apply Z.ltb_lt in H. rewrite H, orb_true_r. reflexivity.
    + unfold authRoutes.refresh, refreshToken.hashRefreshToken.
      rewrite Ht. unfold bind at 1. cbn [get]. rewrite Hf. reflexivity.
  - unfold authRoutes.refresh. rewrite Ht. reflexivity.
Qed.

Lemma step_refresh env o cookie :
  ledger_step sha256_hex (sha256_hex (Outside.refreshToken o))
    (Refresh cookie) (refresh env o cookie).
Proof.
  intros db. unfold authRoutes.refresh, refreshToken.hashRefreshToken.
  destruct (truthy cookie) as [token|] eqn:Ht; [|apply ledger_effect_refl].
  unfold bind at 1. cbn [get].
  destruct (find _ (Db.refreshSessions db)) as [s|] eqn:Hf;
    [|apply ledger_effect_refl].
  destruct (_ || _); [apply ledger_effect_refl|].
  unfold bind at 1. cbn [session_revoke].
  set (db1 := Db.with_refreshSessions db _).
  apply find_some in Hf. destruct Hf as [Hin Hh]. apply String.eqb_eq in Hh.
  assert (Hsel : forall x, In x (Db.refreshSessions db) ->
            String.eqb (RefreshSession.id x) (RefreshSession.id s) = true ->
            exists s0, In s0 (Db.refreshSessions db)
              /\ RefreshSession.id s0 = RefreshSession.id x
              /\ presents sha256_hex (RefreshSession.refreshTokenHash s0)
                   (Refresh cookie)).
  { intros x _ Hx. apply String.eqb_eq in Hx. exists s.
    split; [exact Hin|]. split; [congruence|]. exists token. auto. }
  destruct (issue_effect env o (RefreshSession.userId s) (Outside.refreshToken o)
              (sha256_hex (Outside.refreshToken o)) 200 db1)
    as [(_ & -> & _)|(Hfresh & -> & _)]; subst db1;
    cbn [Db.refreshSessions Db.with_refreshSessions] in *.
  - eexists _, _, []. rewrite app_nil_r. split; [reflexivity|].
    split; [exact Hsel | left; reflexivity].
  - eexists _, _, [_]. split; [reflexivity|]. split; [exact Hsel|].
    right. eexists. split; [reflexivity|]. split; [reflexivity|].
    split; [reflexivity|].
    rewrite updateMany_ids in Hfresh. exact Hfresh.
Qed.

Lemma step_logout o cookie :
  ledger_step sha256_hex (sha256_hex (Outside.refreshToken o))
    (Logout cookie) (logout sha256_hex o cookie).
Proof.
  intros db. unfold logout, refreshToken.hashRefreshToken, bind.
  destruct (truthy cookie) as [token|] eqn:Ht; cbn;
    [|apply ledger_effect_refl].
  eexists _, _, []. rewrite app_nil_r. split; [reflexivity|].
  split; [|left; reflexivity].
  intros x Hx Hh. apply String.eqb_eq in Hh. exists x.
  split; [exact Hx|]. split; [reflexivity|]. exists token. auto.
Qed.

Lemma step_handle env o r :
  ledger_step sha256_hex (sha256_hex (Outside.refreshToken o)) r
    (handle env o r).
Proof.
  destruct r; cbn [authRoutes.handle].
  - apply step_signup.
  - apply step_login.
  - apply step_refresh.
  - apply step_logout.
Qed.

(** *** What the effects preserve *)

Lemma effect_revoked h r l l' hash :
  ledger_effect sha256_hex h r l l' ->
  (exists s, In s l /\ RefreshSession.refreshTokenHash s = hash
             /\ RefreshSession.revokedAt s <> None) ->
  exists s, In s l' /\ RefreshSession.refreshTokenHash s = hash
            /\ RefreshSession.revokedAt s <> None.
Proof.
  intros (where_ & at_ & news & -> & _ & _) (s & Hin & Hh & Hr).
  exists (if where_ s then RefreshSession.with_revokedAt at_ s else s).
  split.
  - apply in_or_app. left. unfold Prisma.updateMany.
    apply in_map_iff. exists s. split; [reflexivity | exact Hin].
  - destruct (where_ s); cbn; split; auto. discriminate.
Qed.

Lemma effect_ids h r l l' :
  ledger_effect sha256_hex h r l l' ->
  NoDup (map RefreshSession.id l) -> NoDup (map RefreshSession.id l').
Proof.
  intros (where_ & at_ & news & -> & _ & Hnews) Hnd.
  rewrite map_app, updateMany_ids.
  destruct Hnews as [->|(s' & -> & _ & _ & Hfresh)].
  - rewrite app_nil_r. exact Hnd.
  - apply NoDup_app; [exact Hnd | repeat constructor; intros [] |].
    intros a Ha [<-|[]]. exact (Hfresh Ha).
Qed.


Lemma effect_hashes h r l l' :
  ledger_effect sha256_hex h r l l' ->
  NoDup (map RefreshSession.refreshTokenHash l) ->
  ~ In h (map RefreshSession.refreshTokenHash l) ->
  NoDup (map RefreshSession.refreshTokenHash l').
Proof.
  intros (where_ & at_ & news & -> & _ & Hnews) Hnd Hfresh.
  rewrite map_app, updateMany_hashes.
  destruct Hnews as [->|(s' & -> & _ & Hh & _)].
  - rewrite app_nil_r. exact Hnd.
  - apply NoDup_app; [exact Hnd | repeat constructor; intros [] |].
    intros a Ha [<-|[]]. rewrite Hh in Ha. exact (Hfresh Ha).
Qed.

Lemma effect_keeps_row h r l l' s :
  ledger_effect sha256_hex h r l l' ->
  NoDup (map RefreshSession.id l) -> In s l ->
  ~ presents sha256_hex (RefreshSession.refreshTokenHash s) r ->
  In s l'.
Proof.
  intros (where_ & at_ & news & -> & Hsel & _) Hnd Hin Hnp.
  apply in_or_app. left. unfold Prisma.updateMany. apply in_map_iff.
  exists s. split; [|exact Hin].
  destruct (where_ s) eqn:Hw; [exfalso | reflexivity].
  destruct (Hsel s Hin Hw) as (s0 & Hin0 & Hid & Hp).
  assert (s0 = s) by (apply (nodup_map_inj RefreshSession.id l); auto).
  subst s0. exact (Hnp Hp).
Qed.

Lemma serve_revoked env rs db hash :
  revoked_session db hash -> revoked_session (serve env rs db) hash.
Proof.
  revert db. induction rs as [|[o r] rs IH]; intros db H; [exact H|].
  cbn [authRoutes.serve]. apply IH.
  exact (effect_revoked _ _ _ _ _ (step_handle env o r db) H).
Qed.

Lemma serve_ids env rs db :
  Constraints.sessions_pkey db -> Constraints.sessions_pkey (serve env rs db).
Proof.
  revert db. induction rs as [|[o r] rs IH]; intros db H; [exact H|].
  cbn [authRoutes.serve]. apply IH.
  exact (effect_ids _ _ _ _ (step_handle env o r db) H).
Qed.

Lemma serve_keeps_row env rs db s :
  Constraints.sessions_pkey db -> In s (Db.refreshSessions db) ->
  Forall (fun x => ~ presents sha256_hex (RefreshSession.refreshTokenHash s)
                       (snd x)) rs ->
  In s (Db.refreshSessions (serve env rs db)).
Proof.
  revert db. induction rs as [|[o r] rs IH]; intros db Hpk Hin Hall;
    [exact Hin|].
  inversion Hall as [|? ? Hr Hall']; subst. cbn [authRoutes.serve].
  apply IH; [|  |exact Hall'].
  - exact (effect_ids _ _ _ _ (step_handle env o r db) Hpk).
  - exact (effect_keeps_row _ _ _ _ _ (step_handle env o r db) Hpk Hin Hr).
Qed.

(** The router keeps the hashes of the ledger distinct as long as the
    tokens it generates are new. *)
Lemma serve_hashes_unique env rs db :
  Constraints.session_hashes_unique db ->
  fresh_tokens sha256_hex (handle env) rs db ->
  Constraints.session_hashes_unique (serve env rs db).
Proof.
  revert db. induction rs as [|[o r] rs IH]; intros db Hu Hf; [exact Hu|].
  destruct Hf as [Hnew Hf]. cbn [authRoutes.serve]. apply IH; [|exact Hf].
  exact (effect_hashes _ _ _ _ (step_handle env o r db) Hu Hnew).
Qed.

(** A token whose session is revoked is refused, the store left alone. *)
Lemma refresh_dead env o token db :
  token <> "" ->
  Constraints.session_hashes_unique db ->
  revoked_session db (sha256_hex token) ->
  refresh env o (Some token) db = (db, Ok refresh_denied).
Proof.
  intros Hne Hu (s & Hin & Hh & Hr).
  pose proof (refresh_denied_cases env o (Some token) db) as Hc.
  cbn [truthy] in Hc. destruct (String.eqb_spec token ""); [contradiction|].
  rewrite <- Hh in Hc. rewrite (find_session_by_hash _ s Hu Hin) in Hc.
  apply Hc. left. exact Hr.
Qed.

(** A token whose session is live is rotated. *)
Lemma refresh_live env o token db :
  token <> "" ->
  secret_configured env ->
  Constraints.session_hashes_unique db ->
  fresh_session_id db (Outside.sessionId o) ->
  live_session db (sha256_hex token) (Outside.now o) ->
  exists db' resp,
    refresh env o (Some token) db = (db', Ok resp)
    /\ Response.status resp = 200.
Proof.
  intros Hne (secret & Hsec) Hu Hfresh (s & Hin & Hh & Hr & Hx).
  unfold authRoutes.refresh, refreshToken.hashRefreshToken. cbn [truthy].
  destruct (String.eqb_spec token ""); [contradiction|].
  unfold bind at 1. cbn [get].
  rewrite <- Hh. rewrite (find_session_by_hash _ s Hu Hin). rewrite Hr.
  cbn [orb]. destruct (Z.ltb_spec (RefreshSession.expiresAt s) (Outside.now o));
    [contradiction|].
  unfold bind at 1. cbn [session_revoke].
  set (db1 := Db.with_refreshSessions db _).
  destruct (issue_effect env o (RefreshSession.userId s) (Outside.refreshToken o)
              (sha256_hex (Outside.refreshToken o)) 200 db1)
    as [(Hcoll & _)|(_ & Hdb & Hresp)].
  - exfalso. subst db1. cbn in Hcoll. rewrite updateMany_ids in Hcoll.
    exact (Hfresh Hcoll).
  - rewrite Hsec in Hresp.
    destruct (setAuthCookiesAndRespond _ _ _ _ _ _ _ _) as [db' res].
    cbn [fst snd] in *. subst res. eexists _, _. split; reflexivity.
Qed.

(** A refresh that answered 200 leaves the presented token dead for good. *)
Lemma rotated_token_dead env o cookie db db1 resp :
  refresh env o cookie db = (db1, Ok resp) -> Response.status resp = 200 ->
  exists token,
    truthy cookie = Some token
    /\ forall rs o',
         Constraints.session_hashes_unique (serve env rs db1) ->
         refresh env o' cookie (serve env rs db1)
         = (serve env rs db1, Ok refresh_denied).
Proof.
  intros E Hst.
  destruct (refresh_success env o cookie db db1 resp E Hst)
    as (token & s & Ht & Hf & _ & _ & _ & Hdb & _).
  exists token. split; [exact Ht|]. intros rs o' Hu.
  assert (Hrev : revoked_session db1 (sha256_hex token)).
  { apply find_some in Hf. destruct Hf as [Hin Hh].
    apply String.eqb_eq in Hh.
    exists (RefreshSession.with_revokedAt (Outside.revokedNow o) s).
    split; [|split; [exact Hh | discriminate]].
    rewrite Hdb. apply in_or_app. left. unfold Prisma.updateMany.
    apply in_map_iff. exists s. rewrite String.eqb_refl. auto. }
  pose proof (refresh_denied_cases env o' cookie (serve env rs db1)) as Hc.
  rewrite Ht in Hc.
  destruct (serve_revoked env rs db1 _ Hrev) as (s' & Hin' & Hh' & Hr').
  rewrite <- Hh' in Hc. rewrite (find_session_by_hash _ s' Hu Hin') in Hc.
  apply Hc. left. exact Hr'.
Qed.


Lemma truthy_some cookie token :
  truthy cookie = Some token -> cookie = Some token /\ token <> "".
Proof.
  destruct cookie as [c|]; cbn; [|discriminate].
  destruct (String.eqb_spec c ""); [discriminate|].
  intros E. inversion E; subst. auto.
Qed.

(** C2. POST /auth/refresh answers 200 exactly when the request carries
    a token, a session of the ledger stores the hash of that token, its
    revocation timestamp is null and it has not expired; in every other
    case (no token, no session with the hash, a revoked session, an
    expired session) it answers 401 UNAUTHORIZED and the store is what
    it was: no session row is added.  The signing secret is taken to be
    configured, the hash of a session to be unique in the ledger, and the
    key generated for the new session to be new. *)
Theorem C2_refresh (env : Env.t) (o : Outside.t) (cookie : option string)
    (db : Db.t) :
  secret_configured env ->
  Constraints.session_hashes_unique db ->
  fresh_session_id db (Outside.sessionId o) ->
  let out := refresh env o cookie db in
  let accepted :=
    exists token, truthy cookie = Some token
      /\ live_session db (sha256_hex token) (Outside.now o) in
  (accepted <-> exists resp, snd out = Ok resp /\ Response.status resp = 200)
  /\ (~ accepted ->
      fst out = db
      /\ exists message,
           snd out = Ok (Response.error 401 "UNAUTHORIZED" message))
  /\ (truthy cookie = None ->
      out = (db, Ok (Response.error 401 "UNAUTHORIZED"
                       "Refresh token required")))
  /\ (forall token, truthy cookie = Some token ->
      (forall s, In s (Db.refreshSessions db) ->
         RefreshSession.refreshTokenHash s <> sha256_hex token) ->
      out = (db, Ok refresh_denied))
  /\ (forall token s, truthy cookie = Some token ->
      In s (Db.refreshSessions db) ->
      RefreshSession.refreshTokenHash s = sha256_hex token ->
      RefreshSession.revokedAt s <> None
      \/ RefreshSession.expiresAt s < Outside.now o ->
      out = (db, Ok refresh_denied)).
Proof.
  intros Hsec Hu Hfresh out accepted.
  pose proof (refresh_denied_cases env o cookie db) as Hc. fold out in Hc.
  assert (Hdenied : ~ accepted ->
    exists message,
      out = (db, Ok (Response.error 401 "UNAUTHORIZED" message))).
  { intros Hna. destruct (truthy cookie) as [token|] eqn:Ht;
      [|eexists; exact Hc].
    destruct (find _ (Db.refreshSessions db)) as [s|] eqn:Hf;
      [|eexists; exact Hc].
    destruct (RefreshSession.revokedAt s) as [r|] eqn:Hr.
    - eexists. apply Hc. left. discriminate.
    - destruct (Z.lt_ge_cases (RefreshSession.expiresAt s) (Outside.now o))
        as [Hx|Hx]; [eexists; apply Hc; right; exact Hx|].
      exfalso. apply Hna. exists token. split; [reflexivity|].
      apply find_some in Hf. destruct Hf as [Hin Hh].
      apply String.eqb_eq in Hh. exists s. repeat split; auto. lia. }
  split; [split|split; [|split; [|split]]].
  - intros (token & Ht & Hlive).
    destruct (truthy_some _ _ Ht) as [-> Hne].
    destruct (refresh_live env o token db Hne Hsec Hu Hfresh Hlive)
      as (db' & resp & E & Hst).
    exists resp. subst out. rewrite E. auto.
  - intros (resp & E & Hst).
    destruct out as [db' res] eqn:Eo. cbn in E. subst res.
    destruct (refresh_success env o cookie db db' resp Eo Hst)
      as (token & s & Ht & Hf & Hr & Hx & _).
    exists token. split; [exact Ht|].
    apply find_some in Hf. destruct Hf as [Hin Hh].
    apply String.eqb_eq in Hh. exists s. auto.
  - intros Hna. destruct (Hdenied Hna) as (message & ->).
    split; [reflexivity | eexists; reflexivity].
  - intros Ht. rewrite Ht in Hc. exact Hc.
  - intros token Ht Hno. rewrite Ht in Hc.
    destruct (find _ (Db.refreshSessions db)) as [s|] eqn:Hf; [|exact Hc].
    apply find_some in Hf. destruct Hf as [Hin Hh].
    apply String.eqb_eq in Hh. destruct (Hno s Hin Hh).
  - intros token s Ht Hin Hh Hbad. rewrite Ht in Hc.
    rewrite <- Hh in Hc. rewrite (find_session_by_hash _ s Hu Hin) in Hc.
    apply Hc. exact Hbad.
Qed.

(** C3, as the code has it. After a refresh that answered 200 for the
    token T1, handing out T2: the session of T1 is revoked and a new
    session stores the hash of T2, expiring seven days after it was
    issued; whatever requests the /auth router serves afterwards, every
    refresh that presents T1 answers 401; the first refresh that
    presents T2 answers 200 provided it comes no later than the expiry
    of T2's session and no request has presented T2 before (a logout
    would have revoked it); and after that 200 every refresh that
    presents T2 answers 401. *)
Theorem C3_rotation (env : Env.t) (db0 : Db.t) (o1 : Outside.t) (T1 : string)
    (db1 : Db.t) (resp1 : Response.t) :
  secret_configured env ->
  Constraints.sessions_pkey db0 ->
  refresh env o1 (Some T1) db0 = (db1, Ok resp1) ->
  Response.status resp1 = 200 ->
  let T2 := Outside.refreshToken o1 in
  let expiry := Outside.issuedNow o1 + REFRESH_EXPIRES_MS in
  (revoked_session db1 (sha256_hex T1)
   /\ In (SetRefreshToken T2) (Response.cookies resp1)
   /\ exists s2, In s2 (Db.refreshSessions db1)
        /\ ~ In (RefreshSession.id s2)
               (map RefreshSession.id (Db.refreshSessions db0))
        /\ RefreshSession.refreshTokenHash s2 = sha256_hex T2
        /\ RefreshSession.revokedAt s2 = None
        /\ RefreshSession.expiresAt s2 = expiry)
  /\ (forall rs o,
        Constraints.session_hashes_unique (serve env rs db1) ->
        refresh env o (Some T1) (serve env rs db1)
        = (serve env rs db1, Ok refresh_denied))
  /\ (forall rs o,
        T2 <> "" ->
        Forall (fun x => ~ presents sha256_hex (sha256_hex T2) (snd x)) rs ->
        Constraints.session_hashes_unique (serve env rs db1) ->
        fresh_session_id (serve env rs db1) (Outside.sessionId o) ->
        Outside.now o <= expiry ->
        exists db2 resp2,
          refresh env o (Some T2) (serve env rs db1) = (db2, Ok resp2)
          /\ Response.status resp2 = 200
          /\ forall rs' o',
               Constraints.session_hashes_unique (serve env rs' db2) ->
               refresh env o' (Some T2) (serve env rs' db2)
               = (serve env rs' db2, Ok refresh_denied)).
Proof.
  intros Hsec Hpk E Hst T2 expiry.
  destruct (refresh_success env o1 (Some T1) db0 db1 resp1 E Hst)
    as (token & s & Ht & Hf & Hr & Hx & Hfresh & Hdb & Hck).
  destruct (rotated_token_dead env o1 (Some T1) db0 db1 resp1 E Hst)
    as (token' & Ht' & Hdead).
  assert (token = T1) by (apply truthy_some in Ht; destruct Ht; congruence).
  subst token. clear token' Ht'.
  set (s2 := RefreshSession.mk (Outside.sessionId o1) (RefreshSession.userId s)
               (sha256_hex T2) expiry (Outside.issuedNow o1) None).
  assert (Hin2 : In s2 (Db.refreshSessions db1)).
  { rewrite Hdb. apply in_or_app. right. left. reflexivity. }
  assert (Hpk1 : Constraints.sessions_pkey db1).
  { pose proof (step_refresh env o1 (Some T1) db0) as Hs.
    rewrite E in Hs. exact (effect_ids _ _ _ _ Hs Hpk). }
  split; [split; [|split]|split].
  - apply find_some in Hf. destruct Hf as [Hin Hh]. apply String.eqb_eq in Hh.
    exists (RefreshSession.with_revokedAt (Outside.revokedNow o1) s).
    split; [|split; [exact Hh | discriminate]].
    rewrite Hdb. apply in_or_app. left. unfold Prisma.updateMany.
    apply in_map_iff. exists s. rewrite String.eqb_refl. auto.
  - rewrite Hck. right. left. reflexivity.
  - exists s2. repeat split; auto.
  - exact Hdead.
  - intros rs o Hne Hnp Hu Hfr Hnow.
    assert (Hlive : live_session (serve env rs db1) (sha256_hex T2)
                      (Outside.now o)).
    { exists s2. split; [|cbn; repeat split; auto; lia].
      apply serve_keeps_row; auto. }
    destruct (refresh_live env o T2 _ Hne Hsec Hu Hfr Hlive)
      as (db2 & resp2 & E2 & Hst2).
    exists db2, resp2. split; [exact E2|]. split; [exact Hst2|].
    destruct (rotated_token_dead env o (Some T2) _ db2 resp2 E2 Hst2)
      as (_ & _ & Hdead2).
    exact Hdead2.
Qed.


(** *** Signup *)

Lemma existsb_false {A : Type} (p : A -> bool) (l : list A) :
  (forall x, In x l -> p x = false) -> existsb p l = false.
Proof.
  intros H. destruct (existsb p l) eqn:E; [|reflexivity].
  apply existsb_exists in E. destruct E as (x & Hin & Hp).
  rewrite (H x Hin) in Hp. discriminate.
Qed.

Lemma user_create_ok (u : User.t) (db : Db.t) :
  ~ In (User.id u) (map User.id (Db.users db)) ->
  (forall x, In x (Db.users db) -> User.email x <> User.email u) ->
  user_create u db = (Db.with_users db (Db.users db ++ [u])%list, Ok u).
Proof.
  intros Hid Hem. unfold user_create, Prisma.create.
  rewrite existsb_false; [reflexivity|].
  intros x Hx. unfold user_collides. apply orb_false_iff. split.
  - apply String.eqb_neq. intros E. apply Hid. rewrite E. apply in_map. exact Hx.
  - apply String.eqb_neq. intros E. apply (Hem x Hx). symmetry. exact E.
Qed.

Lemma workspace_create_ok (w : Workspace.t) (db : Db.t) :
  ~ In (Workspace.id w) (map Workspace.id (Db.workspaces db)) ->
  (forall x, In x (Db.workspaces db) -> Workspace.domain x <> Workspace.domain w) ->
  workspace_create w db
  = (Db.with_workspaces db (Db.workspaces db ++ [w])%list, Ok w).
Proof.
  intros Hid Hd. unfold workspace_create, Prisma.create.
  rewrite existsb_false; [reflexivity|].
  intros x Hx. unfold workspace_collides. apply orb_false_iff. split.
  - apply String.eqb_neq. intros E. apply Hid. rewrite E. apply in_map. exact Hx.
  - specialize (Hd x Hx).
    destruct (Workspace.domain w) as [a|], (Workspace.domain x) as [b|];
      try reflexivity.
    apply String.eqb_neq. congruence.
Qed.

Lemma member_create_ok (m : WorkspaceMember.t) (db : Db.t) :
  ~ In (WorkspaceMember.id m) (map WorkspaceMember.id (Db.workspaceMembers db)) ->
  (forall x, In x (Db.workspaceMembers db) ->
     WorkspaceMember.userId x = WorkspaceMember.userId m ->
     WorkspaceMember.workspaceId x <> WorkspaceMember.workspaceId m) ->
  member_create m db
  = (Db.with_workspaceMembers db (Db.workspaceMembers db ++ [m])%list, Ok tt).
Proof.
  intros Hid Hp. unfold member_create, Prisma.create.
  rewrite existsb_false; [reflexivity|].
  intros x Hx. unfold member_collides. apply orb_false_iff. split.
  - apply String.eqb_neq. intros E. apply Hid. rewrite E. apply in_map. exact Hx.
  - apply andb_false_iff.
    destruct (String.eqb_spec (WorkspaceMember.userId m) (WorkspaceMember.userId x))
      as [E|E]; [left | right; reflexivity].
    apply String.eqb_neq. intros E'. apply (Hp x Hx); congruence.
Qed.

Lemma find_domain_some (l : list Workspace.t) (domain : string) (w : Workspace.t) :
  find (fun w => match Workspace.domain w with
                 | Some d => String.eqb d domain
                 | None => false
                 end) l = Some w ->
  In w l /\ Workspace.domain w = Some domain.
Proof.
  intros H. apply find_some in H. destruct H as [Hin H].
  destruct (Workspace.domain w) as [d|]; [|discriminate].
  apply String.eqb_eq in H. subst d. auto.
Qed.

Lemma find_domain_none (l : list Workspace.t) (domain : string) :
  find (fun w => match Workspace.domain w with
                 | Some d => String.eqb d domain
                 | None => false
                 end) l = None ->
  forall x, In x l -> Workspace.domain x <> Some domain.
Proof.
  intros H x Hx E. pose proof (find_none _ _ H x Hx) as Hf. cbn beta in Hf.
  rewrite E, String.eqb_refl in Hf. discriminate.
Qed.


Lemma find_email_none (l : list User.t) (email : string) :
  (forall u, In u l -> User.email u <> email) ->
  find (fun u => String.eqb (User.email u) email) l = None.
Proof.
  intros H. destruct (find _ l) as [u|] eqn:E; [exfalso | reflexivity].
  apply find_some in E. destruct E as [Hin Hu]. apply String.eqb_eq in Hu.
  exact (H u Hin Hu).
Qed.

Lemma signup_run env o body email password domain db secret :
  signupSchema body = inl (email, password) ->
  parseEmailDomain email = Some domain ->
  jwt.getSecret env = Ok secret ->
  Constraints.workspaces_pkey db -> domains_are_customers db ->
  fresh_keys db o ->
  (forall u, In u (Db.users db) -> User.email u <> email) ->
  let agent := isSupportAgentDomain env email in
  let user := User.mk (Outside.userId o) email
                (bcrypt_hashSync password (Outside.salt o)) agent in
  let found := find (fun w => match Workspace.domain w with
                              | Some d => String.eqb d domain
                              | None => false
                              end) (Db.workspaces db) in
  let wnew := Workspace.mk (Outside.workspaceId o) domain (Some domain)
                CUSTOMER in
  let cw := match found with Some w => w | None => wnew end in
  let workspaces' := match found with
                     | Some _ => Db.workspaces db
                     | None => (Db.workspaces db ++ [wnew])%list
                     end in
  let m1 := WorkspaceMember.mk (Outside.memberId o) (Workspace.id cw)
              (Outside.userId o) MEMBER in
  let m2s := if agent then
               match find (fun w => kind_eqb (Workspace.kind w) SUPPORT_OPS)
                          workspaces' with
               | Some ops =>
                   [WorkspaceMember.mk (Outside.opsMemberId o)
                      (Workspace.id ops) (Outside.userId o) ADMIN]
               | None => []
               end
             else [] in
  let s := RefreshSession.mk (Outside.sessionId o) (Outside.userId o)
             (sha256_hex (Outside.refreshToken o))
             (Outside.issuedNow o + REFRESH_EXPIRES_MS) (Outside.issuedNow o)
             None in
  signup sha256_hex jwt_sign bcrypt_hashSync signupSchema env o body db =
  (Db.mk (Db.users db ++ [user]) workspaces'
     ((Db.workspaceMembers db ++ [m1]) ++ m2s) (Db.tickets db)
     (Db.ticketMessages db) (Db.refreshSessions db ++ [s]),
   Ok (Response.mk 201 (UserBody (Outside.userId o))
         [SetAccessToken
            (jwt_sign (Outside.userId o) secret (Outside.signedNow o / 1000)
               (Outside.signedNow o / 1000 + jwt.ACCESS_TOKEN_TTL_SEC));
          SetRefreshToken (Outside.refreshToken o)]))%list.
Proof.
  intros Hschema Hdom Hsec Hwpk Hcust
    (Hfu & Hfm & Hfw & Hfm1 & Hfm2 & Hne & Hfs) Hemail.
  intros agent user found wnew cw workspaces' m1 m2s s.
  unfold signup. rewrite Hschema.
  unfold bind at 1. cbn [get].
  rewrite (find_email_none _ _ Hemail), Hdom. fold agent user.
  unfold bind at 1. rewrite (user_create_ok user db Hfu)
    by (intros x Hx; apply (Hemail x Hx)).
  unfold bind at 1. cbn [get Db.workspaces Db.with_users]. fold found.
  assert (Hcw : In cw workspaces' /\ Workspace.kind cw = CUSTOMER
                /\ NoDup (map Workspace.id workspaces')).
  { subst cw workspaces'. destruct found as [w|] eqn:Hf.
    - apply find_domain_some in Hf. destruct Hf as [Hin Hd].
      repeat split; auto. apply Hcust; [exact Hin | congruence].
    - repeat split; [apply in_or_app; right; left; reflexivity|].
      rewrite map_app. apply NoDup_app; [exact Hwpk | repeat constructor; intros [] |].
      intros a Ha [<-|[]]. exact (Hfw Ha). }
  destruct Hcw as (Hcwin & Hcwk & Hnd).
  unfold bind at 1.
  assert (Ews : forall dbx,
    Db.workspaces dbx = Db.workspaces db ->
    match found with
    | Some w => ret w
    | None => workspace_create wnew
    end dbx = (Db.with_workspaces dbx workspaces', Ok cw)).
  { intros dbx Ex. subst cw workspaces'. destruct found as [w|] eqn:Hf.
    - unfold ret. rewrite <- Ex. destruct dbx; reflexivity.
    - rewrite workspace_create_ok; rewrite Ex; [reflexivity | exact Hfw |].
      intros x Hx. apply (find_domain_none _ _ Hf x Hx). }
  rewrite Ews by reflexivity.
  unfold bind at 1. rewrite member_create_ok; cbn [WorkspaceMember.id
    WorkspaceMember.userId Db.workspaceMembers Db.with_workspaces Db.with_users];
    [ | exact Hfm1 | intros x Hx Hu; destruct (Hfm x Hx Hu) ].
  fold m1.
  set (db3 := Db.with_workspaceMembers _ _).
  assert (Eb : (if agent then
                  bind get (fun db0 =>
                    match find (fun w => kind_eqb (Workspace.kind w) SUPPORT_OPS)
                               (Db.workspaces db0) with
                    | Some supportOps =>
                        member_create
                          (WorkspaceMember.mk (Outside.opsMemberId o)
                             (Workspace.id supportOps) (User.id user) ADMIN)
                    | None => ret tt
                    end)
                else ret tt) db3
               = (Db.with_workspaceMembers db3
                    ((Db.workspaceMembers db ++ [m1]) ++ m2s)%list, Ok tt)).
  { subst m2s. destruct agent.
    - unfold bind. cbn [get]. subst db3.
      cbn [Db.workspaces Db.with_workspaceMembers Db.with_workspaces
           Db.with_users].
      destruct (find _ workspaces') as [ops|] eqn:Hops.
      + rewrite member_create_ok; [reflexivity | |].
        * cbn. rewrite map_app. intros Hin. apply in_app_or in Hin.
          destruct Hin as [Hin|[Hin|[]]]; [exact (Hfm2 Hin)|].
          cbn in Hin. congruence.
        * cbn. intros x Hx Hu Hw. apply in_app_or in Hx.
          destruct Hx as [Hx|[<-|[]]]; [exact (Hfm x Hx Hu)|].
          cbn in Hw. apply find_some in Hops. destruct Hops as [Hoin Hok].
          assert (cw = ops)
            by (apply (nodup_map_inj Workspace.id workspaces'); auto).
          subst ops. rewrite Hcwk in Hok. discriminate.
      + unfold ret. rewrite app_nil_r. destruct db; reflexivity.
    - unfold ret. subst db3. rewrite app_nil_r. destruct db; reflexivity. }
  unfold bind at 1. rewrite Eb.
  unfold setAuthCookiesAndRespond, bind, session_create, Prisma.create,
    refreshToken.hashRefreshToken.
  cbn [Db.refreshSessions Db.with_workspaceMembers Db.with_workspaces
       Db.with_users db3].
  change (User.id user) with (Outside.userId o).
  fold s. rewrite (proj2 (not_collides s (Db.refreshSessions db)) Hfs).
  unfold lift, jwt.createAccessToken. rewrite Hsec.
  subst db3. destruct db; reflexivity.
Qed.


Lemma kind_eqb_eq (a b : WorkspaceKind) : kind_eqb a b = true <-> a = b.
Proof. destruct a, b; cbn; split; congruence. Qed.

(** C8, as the code has it. Signup of an email that is already
    registered answers 400 EMAIL_TAKEN and changes nothing.  Otherwise
    it answers 201 with the id of the user it created; the workspace of
    the email's domain exists afterwards, a CUSTOMER workspace, created
    by this signup if no workspace had the domain; the user holds a
    MEMBER membership in it; and the user is an elevated agent (ADMIN
    membership in a SUPPORT_OPS workspace) exactly when the domain is on
    the allow-list and a SUPPORT_OPS workspace exists: without one, no
    ADMIN membership is granted. *)
Theorem C8_signup (env : Env.t) (o : Outside.t) (body : AuthBody.t)
    (email password domain : string) (db : Db.t) :
  signupSchema body = inl (email, password) ->
  parseEmailDomain email = Some domain ->
  secret_configured env ->
  Constraints.workspaces_pkey db -> domains_are_customers db ->
  fresh_keys db o ->
  let out := signup sha256_hex jwt_sign bcrypt_hashSync signupSchema env o
               body db in
  let db' := fst out in
  let uid := Outside.userId o in
  ((exists u, In u (Db.users db) /\ User.email u = email) ->
   out = (db, Ok (Response.error 400 "EMAIL_TAKEN" "Email already registered")))
  /\ ((forall u, In u (Db.users db) -> User.email u <> email) ->
      (exists accessToken,
         snd out = Ok (Response.mk 201 (UserBody uid)
                         [SetAccessToken accessToken;
                          SetRefreshToken (Outside.refreshToken o)]))
      /\ (exists u, In u (Db.users db') /\ User.id u = uid
                    /\ User.email u = email)
      /\ (exists w, In w (Db.workspaces db')
            /\ Workspace.domain w = Some domain
            /\ Workspace.kind w = CUSTOMER
            /\ ((In w (Db.workspaces db)
                 /\ Db.workspaces db' = Db.workspaces db)
                \/ ((forall x, In x (Db.workspaces db) ->
                       Workspace.domain x <> Some domain)
                    /\ Db.workspaces db' = (Db.workspaces db ++ [w])%list))
            /\ holds_role db' (Workspace.id w) uid MEMBER)
      /\ (elevated_agent db' uid <->
          isSupportAgentDomain env email = true
          /\ exists ops, In ops (Db.workspaces db)
                         /\ Workspace.kind ops = SUPPORT_OPS)
      /\ (exists s, In s (Db.refreshSessions db')
            /\ RefreshSession.userId s = uid
            /\ RefreshSession.refreshTokenHash s
               = sha256_hex (Outside.refreshToken o)
            /\ RefreshSession.revokedAt s = None)).
Proof.
  intros Hschema Hdom (secret & Hsec) Hwpk Hcust Hfresh out db' uid.
  split.
  - intros (u & Hin & Hu). subst out. unfold signup. rewrite Hschema.
    unfold bind at 1. cbn [get].
    destruct (find _ (Db.users db)) as [u'|] eqn:Hf; [reflexivity|].
    pose proof (find_none _ _ Hf u Hin) as Hn. cbn beta in Hn.
    rewrite Hu, String.eqb_refl in Hn. discriminate.
  - intros Hemail.
    pose proof (signup_run env o body email password domain db secret
                  Hschema Hdom Hsec Hwpk Hcust Hfresh Hemail) as Hrun.
    cbv zeta in Hrun. subst db'. subst out. rewrite Hrun. clear Hrun.
    cbn [fst snd Db.users Db.workspaces Db.workspaceMembers
         Db.refreshSessions].
    destruct Hfresh as (Hfu & Hfm & Hfw & Hfm1 & Hfm2 & Hne & Hfs).
    set (found := find _ (Db.workspaces db)).
    set (wnew := Workspace.mk (Outside.workspaceId o) domain (Some domain)
                   CUSTOMER).
    set (cw := match found with Some w => w | None => wnew end).
    set (workspaces' := match found with
                        | Some _ => Db.workspaces db
                        | None => (Db.workspaces db ++ [wnew])%list
                        end).
    set (m1 := WorkspaceMember.mk (Outside.memberId o) (Workspace.id cw)
                 (Outside.userId o) MEMBER).
    assert (Hops : forall ops, Workspace.kind ops = SUPPORT_OPS ->
                     (In ops workspaces' <-> In ops (Db.workspaces db))).
    { intros ops Hk. subst workspaces'. destruct found; [reflexivity|].
      rewrite in_app_iff. split; [|auto].
      intros [H|[<-|[]]]; [exact H | discriminate Hk]. }
    split; [eexists; reflexivity|]. split.
    { eexists. split; [apply in_or_app; right; left; reflexivity|].
      split; reflexivity. }
    split.
    { exists cw. subst cw workspaces'. destruct found as [w|] eqn:Hf.
      - apply find_domain_some in Hf. destruct Hf as [Hin Hd].
        split; [exact Hin|]. split; [exact Hd|].
        split; [apply Hcust; [exact Hin | congruence]|].
        split; [left; auto|].
        exists m1. split; [|repeat split].
        apply in_or_app. left. apply in_or_app. right. left. reflexivity.
      - split; [apply in_or_app; right; left; reflexivity|].
        split; [reflexivity|]. split; [reflexivity|].
        split; [right; split; [exact (find_domain_none _ _ Hf) | reflexivity]|].
        exists m1. split; [|repeat split].
        apply in_or_app. left. apply in_or_app. right. left. reflexivity. }
    split.
    { unfold elevated_agent, holds_role, workspace_kind.
      cbn [Db.workspaceMembers Db.workspaces]. split.
      - intros (wid & (m & Hin & Hw & Hu & Hr) & (w & Hwin & Hwid & Hk)).
        apply in_app_or in Hin. destruct Hin as [Hin|Hin].
        + apply in_app_or in Hin. destruct Hin as [Hin|[<-|[]]].
          * destruct (Hfm m Hin Hu).
          * discriminate Hr.
        + destruct (isSupportAgentDomain env email); [|destruct Hin].
          split; [reflexivity|].
          destruct (find _ workspaces') as [ops|] eqn:Ho; [|destruct Hin].
          apply find_some in Ho. destruct Ho as [Hoin Hok].
          apply kind_eqb_eq in Hok. exists ops. split; [|exact Hok].
          apply (Hops ops Hok). exact Hoin.
      - intros (Ha & ops & Hoin & Hok). rewrite Ha.
        destruct (find _ workspaces') as [ops'|] eqn:Ho.
        + apply find_some in Ho. destruct Ho as [Hoin' Hok'].
          apply kind_eqb_eq in Hok'.
          exists (Workspace.id ops'). split.
          * eexists. split; [apply in_or_app; right; left; reflexivity|].
            repeat split.
          * exists ops'. auto.
        + exfalso. apply (Hops ops Hok) in Hoin.
          pose proof (find_none _ _ Ho ops Hoin) as Hn. cbn beta in Hn.
          rewrite Hok in Hn. discriminate. }
    eexists. split; [apply in_or_app; right; left; reflexivity|].
    repeat split.
Qed.

End AuthRouter.

(** *** The theorems on the sample store *)

Lemma sample_secret_configured : Spec.secret_configured Sample.env.
Proof. eexists. reflexivity. Qed.

Lemma C2_refresh_witness :
  exists resp,
    snd (authRoutes.refresh Sample.sha256_hex Sample.jwt_sign Sample.env
           (Sample.outside 1000 "T2" "a") (Some "T1") Sample.db) = Ok resp
    /\ Response.status resp = 200.
Proof.
  refine (proj1 (proj1 (C2_refresh Sample.sha256_hex Sample.jwt_sign
                          Sample.env (Sample.outside 1000 "T2" "a")
                          (Some "T1") Sample.db sample_secret_configured
                          sample_session_hashes_unique _)) _).
  - unfold Spec.fresh_session_id. cbn. intros [H|[]]. discriminate H.
  - exists "T1". split; [reflexivity|]. eexists.
    split; [left; reflexivity|]. cbn. repeat split. lia.
Defined.

Lemma C3_rotation_witness :
  let db1 :=
    fst (authRoutes.refresh Sample.sha256_hex Sample.jwt_sign Sample.env
           (Sample.outside 1000 "T2" "a") (Some "T1") Sample.db) in
  let later :=
    [(Sample.outside 1500 "T5" "c",
      authRoutes.Login
        (authRoutes.AuthBody.mk (Some "member2@example.com")
           (Some "Member123!")))] in
  let db :=
    authRoutes.serve Sample.sha256_hex Sample.jwt_sign Sample.bcrypt_hashSync
      Sample.bcrypt_compareSync Sample.authSchema Sample.authSchema
      Sample.env later db1 in
  List.length (Db.refreshSessions db) = 3%nat
  /\ authRoutes.refresh Sample.sha256_hex Sample.jwt_sign Sample.env
       (Sample.outside 2000 "T3" "b") (Some "T1") db
     = (db, Ok Spec.refresh_denied).
Proof.
  intros db1 later db. split; [reflexivity|].
  refine (proj1 (proj2
    (C3_rotation Sample.sha256_hex Sample.jwt_sign Sample.bcrypt_hashSync
       Sample.bcrypt_compareSync Sample.authSchema Sample.authSchema
       Sample.env Sample.db (Sample.outside 1000 "T2" "a") "T1" db1
       (Response.mk 200 (UserBody "u-member")
          [SetAccessToken "jwt:u-member"; SetRefreshToken "T2"])
       sample_secret_configured sample_sessions_pkey _ _))
    later (Sample.outside 2000 "T3" "b") _).
  - reflexivity.
  - reflexivity.
  - unfold Constraints.session_hashes_unique. cbn.
    repeat (constructor; [cbn; intuition congruence|]). constructor.
Defined.

(** C3 as stated fails: T1 is rotated into T2 at time 1000, so that the
    session of T2 expires at 604801000; the first refresh that presents
    T2, a day after that, answers 401: T2 never succeeds. *)
Lemma C3_counterexample :
  let refresh :=
    authRoutes.refresh Sample.sha256_hex Sample.jwt_sign Sample.env in
  let out1 := refresh (Sample.outside 1000 "T2" "a") (Some "T1") Sample.db in
  snd out1 = Ok (Response.mk 200 (UserBody "u-member")
                   [SetAccessToken "jwt:u-member"; SetRefreshToken "T2"])
  /\ refresh (Sample.outside 691201000 "T3" "b") (Some "T2") (fst out1)
     = (fst out1, Ok Spec.refresh_denied).
Proof. split; vm_compute; reflexivity. Qed.

Lemma sample_domains_are_customers : Spec.domains_are_customers Sample.db.
Proof.
  intros w Hin Hd. cbn in Hin.
  destruct Hin as [<-|[<-|[<-|[]]]]; cbn in *; congruence.
Qed.

Lemma sample_fresh_keys :
  Spec.fresh_keys Sample.db (Sample.outside 1000 "T9" "x").
Proof.
  unfold Spec.fresh_keys, Spec.fresh_session_id. cbn.
  repeat split; try (intuition discriminate).
  intros m Hin. destruct Hin as [<-|[<-|[<-|[<-|[]]]]]; cbn; discriminate.
Qed.

Lemma C8_signup_witness :
  Spec.elevated_agent
    (fst (authRoutes.signup Sample.sha256_hex Sample.jwt_sign
            Sample.bcrypt_hashSync Sample.authSchema Sample.env
            (Sample.outside 1000 "T9" "x")
            (authRoutes.AuthBody.mk (Some "Agent@HelpNest.io")
               (Some "Passw0rd!"))
            Sample.db))
    "u-x".
Proof.
  refine (proj2 (proj1 (proj2 (proj2 (proj2 (proj2
    (C8_signup Sample.sha256_hex Sample.jwt_sign Sample.bcrypt_hashSync
       Sample.authSchema Sample.env (Sample.outside 1000 "T9" "x")
       (authRoutes.AuthBody.mk (Some "Agent@HelpNest.io") (Some "Passw0rd!"))
       "Agent@HelpNest.io" "Passw0rd!" "helpnest.io" Sample.db
       _ _ sample_secret_configured sample_workspaces_pkey
       sample_domains_are_customers sample_fresh_keys) _))))) _).
  - reflexivity.
  - reflexivity.
  - intros u Hin. cbn in Hin.
    destruct Hin as [<-|[<-|[<-|[<-|[]]]]]; cbn; discriminate.
  - split; [reflexivity|].
    exists (Workspace.mk "w-ops" "Support Ops" None SUPPORT_OPS).
    split; [left; reflexivity | reflexivity].
Defined.

(** C8 as stated fails: on a store that was not seeded (no Support Ops
    workspace), the signup of an email whose domain is on the allow-list
    answers 201 and grants the MEMBER membership only; the new user is
    no elevated agent. *)
Lemma C8_counterexample :
  let out :=
    authRoutes.signup Sample.sha256_hex Sample.jwt_sign Sample.bcrypt_hashSync
      Sample.authSchema Sample.env (Sample.outside 1000 "T9" "x")
      (authRoutes.AuthBody.mk (Some "Agent@HelpNest.io") (Some "Passw0rd!"))
      Sample.db_unseeded in
  authRoutes.isSupportAgentDomain Sample.env "Agent@HelpNest.io" = true
  /\ snd out = Ok (Response.mk 201 (UserBody "u-x")
                     [SetAccessToken "jwt:u-x"; SetRefreshToken "T9"])
  /\ Db.workspaceMembers (fst out)
     = [WorkspaceMember.mk "m-x" "w-x" "u-x" MEMBER]
  /\ ~ Spec.elevated_agent (fst out) "u-x".
Proof.
  cbv zeta. split; [reflexivity|]. split; [vm_compute; reflexivity|].
  split; [vm_compute; reflexivity|].
  intros H. apply isSupportAgent_iff in H. vm_compute in H. discriminate H.
Qed.

(* ------------------------------------------------------------------ *)
(** ** Further properties of the routes *)

(** *** Sorted lists and the order of the rows *)

Section SortedLists.

Context {A : Type} (R : A -> A -> Prop).

Lemma sorted_perm_unique (l1 l2 : list A) :
  StronglySorted R l1 -> StronglySorted R l2 -> Permutation l1 l2 ->
  (forall a b, In a l1 -> In b l1 -> R a b -> R b a -> a = b) ->
  l1 = l2.
Proof.
  revert l2. induction l1 as [|a l1 IH]; intros l2 H1 H2 Hp Hanti.
  - apply Permutation_nil in Hp. congruence.
  - destruct l2 as [|b l2];
      [apply Permutation_sym, Permutation_nil in Hp; discriminate|].
    inversion H1 as [|? ? Hs1 Ha]; subst. inversion H2 as [|? ? Hs2 Hb]; subst.
    assert (a = b).
    { assert (Hina : In a (b :: l2))
        by (eapply Permutation_in; [exact Hp | left; reflexivity]).
      assert (Hinb : In b (a :: l1))
        by (eapply Permutation_in; [apply Permutation_sym; exact Hp
                                   | left; reflexivity]).
      destruct Hina as [E|Hina]; [auto|]. destruct Hinb as [E|Hinb]; [auto|].
      rewrite Forall_forall in Ha, Hb.
      apply Hanti; [left; reflexivity | right; exact Hinb | auto | auto]. }
    subst b. f_equal. apply IH; auto.
    + eapply Permutation_cons_inv. exact Hp.
    + intros x y Hx Hy. apply Hanti; right; assumption.
Qed.

Lemma StronglySorted_filter (p : A -> bool) (l : list A) :
  StronglySorted R l -> StronglySorted R (filter p l).
Proof.
  induction 1 as [|a l Hs IH Ha]; cbn; [constructor|].
  destruct (p a); [|exact IH]. constructor; [exact IH|].
  rewrite Forall_forall in *. intros x Hx. apply filter_In in Hx.
  apply Ha. tauto.
Qed.

Lemma StronglySorted_app_inv (l1 l2 : list A) :
  StronglySorted R (l1 ++ l2) ->
  forall x y, In x l1 -> In y l2 -> R x y.
Proof.
  induction l1 as [|a l1 IH]; intros Hs x y Hx Hy; [contradiction|].
  cbn in Hs. inversion Hs as [|? ? Hs' Ha]; subst.
  destruct Hx as [<-|Hx].
  - rewrite Forall_forall in Ha. apply Ha. apply in_or_app. right. exact Hy.
  - apply IH; assumption.
Qed.

End SortedLists.

Lemma Permutation_filter {A : Type} (p : A -> bool) (l l' : list A) :
  Permutation l l' -> Permutation (filter p l) (filter p l').
Proof.
  induction 1 as [|x l l' Hp IH|x y l|l l' l'' H1 IH1 H2 IH2]; cbn.
  - constructor.
  - destruct (p x); [constructor|]; exact IH.
  - destruct (p x), (p y); try reflexivity. apply perm_swap.
  - etransitivity; eassumption.
Qed.

Lemma filter_filter {A : Type} (p q : A -> bool) (l : list A) :
  filter p (filter q l) = filter (fun x => q x && p x) l.
Proof.
  induction l as [|a l IH]; cbn; [reflexivity|].
  destruct (q a); cbn; [destruct (p a)|]; rewrite IH; reflexivity.
Qed.

(** The order of strings is transitive. *)

Lemma ascii_compare_lt_trans a b c :
  Ascii.compare a b = Lt -> Ascii.compare b c = Lt -> Ascii.compare a c = Lt.
Proof.
  unfold Ascii.compare. rewrite !N.compare_lt_iff. lia.
Qed.

Lemma string_compare_lt_trans a : forall b c,
  String.compare a b = Lt -> String.compare b c = Lt -> String.compare a c = Lt.
Proof.
  induction a as [|x a IH]; intros [|y b] [|z c]; cbn; try congruence.
  destruct (Ascii.compare x y) eqn:Exy; try discriminate;
  destruct (Ascii.compare y z) eqn:Eyz; try discriminate; intros H1 H2.
  - apply Ascii.compare_eq_iff in Exy, Eyz. subst.
    assert (E : Ascii.compare z z = Eq)
      by (unfold Ascii.compare; apply N.compare_refl).
    rewrite E. eapply IH; eassumption.
  - apply Ascii.compare_eq_iff in Exy. subst. rewrite Eyz. reflexivity.
  - apply Ascii.compare_eq_iff in Eyz. subst. rewrite Exy. reflexivity.
  - rewrite (ascii_compare_lt_trans x y z Exy Eyz). reflexivity.
Qed.

Section RowOrderTrans.

Import workspacesRoutes Paging.

Lemma compare_column_eq_l c a b x :
  compare_column c a b = Eq -> compare_column c b x = compare_column c a x.
Proof.
  destruct c; cbn; intros H;
    try (apply Z.compare_eq in H; rewrite H; reflexivity);
    apply String.compare_eq_iff in H; rewrite H; reflexivity.
Qed.

Lemma compare_column_lt_trans c a b x :
  compare_column c a b = Lt -> compare_column c b x = Lt ->
  compare_column c a x = Lt.
Proof.
  destruct c; cbn; try (rewrite !Z.compare_lt_iff; lia);
    apply string_compare_lt_trans.
Qed.

Lemma directed_antisym c d a b :
  directed c d b a = CompOpp (directed c d a b).
Proof.
  unfold directed. rewrite (compare_column_antisym c a b).
  destruct d; reflexivity.
Qed.

Lemma directed_eq_l c d a b x :
  directed c d a b = Eq -> directed c d b x = directed c d a x.
Proof.
  unfold directed. intros H.
  assert (E : compare_column c a b = Eq)
    by (destruct d, (compare_column c a b); cbn in H; congruence).
  rewrite (compare_column_eq_l c a b x E). reflexivity.
Qed.

Lemma directed_lt_trans c d a b x :
  directed c d a b = Lt -> directed c d b x = Lt -> directed c d a x = Lt.
Proof.
  destruct d; cbn; [apply compare_column_lt_trans|].
  intros H1 H2.
  rewrite (compare_column_antisym c x a).
  rewrite (compare_column_antisym c b a) in H1.
  rewrite (compare_column_antisym c x b) in H2.
  rewrite CompOpp_involutive in *.
  rewrite (compare_column_lt_trans c x b a H2 H1). reflexivity.
Qed.

Lemma compare_rows_eq_l keys a b x :
  compare_rows keys a b = Eq -> compare_rows keys b x = compare_rows keys a x.
Proof.
  induction keys as [|[c d] keys IH]; cbn; [reflexivity|].
  fold (directed c d a b) (directed c d b x) (directed c d a x).
  destruct (directed c d a b) eqn:E; try discriminate.
  intros H. rewrite (directed_eq_l c d a b x E).
  destruct (directed c d a x); auto.
Qed.

Lemma compare_rows_lt_trans keys a b x :
  compare_rows keys a b = Lt -> compare_rows keys b x = Lt ->
  compare_rows keys a x = Lt.
Proof.
  induction keys as [|[c d] keys IH]; cbn; [discriminate|].
  fold (directed c d a b) (directed c d b x) (directed c d a x).
  destruct (directed c d a b) eqn:E1; try discriminate;
  destruct (directed c d b x) eqn:E2; try discriminate; intros H1 H2.
  - rewrite <- (directed_eq_l c d a b x E1), E2. auto.
  - rewrite <- (directed_eq_l c d a b x E1), E2. reflexivity.
  - assert (E3 : directed c d x b = Eq)
      by (rewrite directed_antisym, E2; reflexivity).
    pose proof (directed_eq_l c d x b a E3) as E4.
    rewrite (directed_antisym c d a b), E1 in E4. cbn in E4.
    rewrite (directed_antisym c d x a), <- E4. reflexivity.
  - rewrite (directed_lt_trans c d a b x E1 E2). reflexivity.
Qed.

Lemma row_leb_trans keys a b x :
  row_leb keys a b = true -> row_leb keys b x = true ->
  row_leb keys a x = true.
Proof.
  unfold row_leb.
  destruct (compare_rows keys a b) eqn:E1; try discriminate;
  destruct (compare_rows keys b x) eqn:E2; try discriminate; intros _ _.
  - rewrite <- (compare_rows_eq_l keys a b x E1), E2. reflexivity.
  - rewrite <- (compare_rows_eq_l keys a b x E1), E2. reflexivity.
  - assert (E3 : compare_rows keys x b = Eq)
      by (rewrite compare_rows_antisym, E2; reflexivity).
    pose proof (compare_rows_eq_l keys x b a E3) as E4.
    rewrite (compare_rows_antisym keys a b), E1 in E4. cbn in E4.
    rewrite (compare_rows_antisym keys x a), <- E4. reflexivity.
  - rewrite (compare_rows_lt_trans keys a b x E1 E2). reflexivity.
Qed.

(** Every order of the listing ends with the id. *)
Lemma compare_rows_eq_id sort a b :
  compare_rows (getOrderBy sort) a b = Eq -> Ticket.id a = Ticket.id b.
Proof.
  destruct sort; cbn;
    match goal with
    | |- context [match ?c with _ => _ end] => destruct c
    end; try discriminate;
    destruct (String.compare (Ticket.id a) (Ticket.id b)) eqn:E;
    cbn; try discriminate; intros _; apply String.compare_eq_iff; exact E.
Qed.

Lemma orderBy_strongly_sorted keys (l : list Ticket.t) :
  StronglySorted (fun a b => row_leb keys a b = true)
    (Prisma.orderBy (row_leb keys) l).
Proof.
  apply Sorted_StronglySorted.
  - intros a b x. apply row_leb_trans.
  - apply orderBy_sorted. intros a b. apply row_leb_total.
Qed.

End RowOrderTrans.

(** *** The walk through the listing *)

Section PagingFacts.

Import workspacesRoutes.

Variable otherFormats : string -> option Z.

(** The round trip of a cursor, as the walk uses it. *)
Lemma parseCursor_encodeCursor (d : Z) (id : string) :
  JsDate.valid_time d -> id <> "" -> JS.includes "|" id = false ->
  Cursor.parseCursor otherFormats (Some (Cursor.encodeCursor d id)) =
  Some (Cursor.mk d id).
Proof.
  intros Hv Hid Hbar. unfold Cursor.parseCursor, Cursor.encodeCursor.
  change ("|" ++ id)%string with (String "|" id).
  rewrite includes_app.
  assert (Hne : String.eqb (JsDate.toISOString d ++ String "|" id) "" = false).
  { apply String.eqb_neq. intros E.
    pose proof (includes_app "|" (JsDate.toISOString d) id) as Hi.
    rewrite E in Hi. discriminate. }
  rewrite Hne. cbn [orb negb].
  rewrite split_app by apply includes_toISOString.
  rewrite split_no_sep by assumption.
  rewrite parse_toISOString by assumption.
  destruct (String.eqb_spec id ""); [contradiction | reflexivity].
Qed.

(** The cursor of a row selects the rows strictly after it. *)
Lemma after_cursor_compare sort l t :
  supportsCursor sort = true ->
  after_cursor sort (Cursor.mk (cursorField sort l) (Ticket.id l)) t =
  match compare_rows (getOrderBy sort) l t with Lt => true | _ => false end.
Proof.
  unfold after_cursor, String.ltb. cbn [Cursor.date Cursor.id].
  destruct sort; try discriminate; intros _; cbn;
    rewrite (String.compare_antisym (Ticket.id t) (Ticket.id l)).
  - destruct (Z.compare_spec (Ticket.createdAt l) (Ticket.createdAt t)) as [E|E|E];
      cbn.
    + rewrite E, Z.ltb_irrefl, Z.eqb_refl. cbn.
      destruct (String.compare (Ticket.id l) (Ticket.id t)); reflexivity.
    + destruct (Z.ltb_spec (Ticket.createdAt t) (Ticket.createdAt l)); [lia|].
      destruct (Z.eqb_spec (Ticket.createdAt t) (Ticket.createdAt l)); [lia|].
      reflexivity.
    + destruct (Z.ltb_spec (Ticket.createdAt t) (Ticket.createdAt l)); [|lia].
      reflexivity.
  - destruct (Z.compare_spec (Ticket.updatedAt l) (Ticket.updatedAt t)) as [E|E|E];
      cbn.
    + rewrite E, Z.ltb_irrefl, Z.eqb_refl. cbn.
      destruct (String.compare (Ticket.id l) (Ticket.id t)); reflexivity.
    + destruct (Z.ltb_spec (Ticket.updatedAt t) (Ticket.updatedAt l)); [lia|].
      destruct (Z.eqb_spec (Ticket.updatedAt t) (Ticket.updatedAt l)); [lia|].
      reflexivity.
    + destruct (Z.ltb_spec (Ticket.updatedAt t) (Ticket.updatedAt l)); [|lia].
      reflexivity.
Qed.

(** Rows after a row that is itself after the cursor are after the cursor. *)
Lemma after_cursor_trans sort c l t :
  after_cursor sort c l = true ->
  after_cursor sort (Cursor.mk (cursorField sort l) (Ticket.id l)) t = true ->
  after_cursor sort c t = true.
Proof.
  unfold after_cursor, String.ltb. cbn [Cursor.date Cursor.id].
  rewrite !orb_true_iff, !andb_true_iff, !Z.ltb_lt, !Z.eqb_eq.
  intros [H1|[H1 H1']] [H2|[H2 H2']]; try (left; lia).
  right. split; [lia|].
  destruct (String.compare (Ticket.id l) (Cursor.id c)) eqn:E1; try discriminate.
  destruct (String.compare (Ticket.id t) (Ticket.id l)) eqn:E2; try discriminate.
  rewrite (string_compare_lt_trans _ _ _ E2 E1). reflexivity.
Qed.

End PagingFacts.

Lemma filter_all_true {A : Type} (p : A -> bool) (l : list A) :
  (forall x, In x l -> p x = true) -> filter p l = l.
Proof.
  induction l as [|a l IH]; intros H; cbn; [reflexivity|].
  rewrite (H a (or_introl eq_refl)). f_equal. apply IH.
  intros x Hx. apply H. right. exact Hx.
Qed.

Lemma filter_all_false {A : Type} (p : A -> bool) (l : list A) :
  (forall x, In x l -> p x = false) -> filter p l = [].
Proof.
  induction l as [|a l IH]; intros H; cbn; [reflexivity|].
  rewrite (H a (or_introl eq_refl)). apply IH.
  intros x Hx. apply H. right. exact Hx.
Qed.

Section PagingSteps.

Import workspacesRoutes Paging.

Variable otherFormats : string -> option Z.

Local Abbreviation rows := (Spec.matching_rows otherFormats).

Lemma compare_rows_refl keys a : compare_rows keys a a = Eq.
Proof.
  pose proof (compare_rows_antisym keys a a) as H.
  destruct (compare_rows keys a a); cbn in H; congruence.
Qed.

Lemma matching_rows_nodup db membership userId q :
  Constraints.tickets_pkey db ->
  NoDup (map Ticket.id (rows db membership userId q)).
Proof.
  intros Hpk. unfold Spec.matching_rows.
  eapply Permutation_NoDup;
    [apply Permutation_map, Permutation_sym, orderBy_perm|].
  unfold Constraints.tickets_pkey in Hpk.
  induction (Db.tickets db) as [|a l IH]; cbn; [constructor|].
  inversion Hpk as [|? ? Hn Hnd]; subst.
  destruct (baseWhere _ _ _ _ _ a); [|auto].
  cbn. constructor; [|auto].
  intros Hi. apply Hn. apply in_map_iff in Hi. destruct Hi as (x & Ex & Hx).
  apply filter_In in Hx. rewrite <- Ex. apply in_map. tauto.
Qed.

(** In a sorted list of rows with distinct ids, the rows strictly after
    a row are the rows that follow it. *)
Lemma sorted_after_split sort (pre rest : list Ticket.t) (l : Ticket.t) :
  StronglySorted (fun a b => row_leb (getOrderBy sort) a b = true)
    (pre ++ l :: rest) ->
  NoDup (map Ticket.id (pre ++ l :: rest)) ->
  filter (fun t => match compare_rows (getOrderBy sort) l t with
                   | Lt => true | _ => false end) (pre ++ l :: rest) = rest.
Proof.
  intros Hs Hnd. rewrite filter_app. cbn [filter].
  rewrite compare_rows_refl.
  rewrite filter_all_false, filter_all_true; [reflexivity| |].
  - intros t Ht.
    assert (Hle : row_leb (getOrderBy sort) l t = true).
    { change (pre ++ l :: rest)%list with (pre ++ [l] ++ rest)%list in Hs.
      rewrite app_assoc in Hs.
      apply (StronglySorted_app_inv _ _ _ Hs); [|exact Ht].
      apply in_or_app. right. left. reflexivity. }
    unfold row_leb in Hle.
    destruct (compare_rows (getOrderBy sort) l t) eqn:E;
      [|reflexivity|discriminate].
    exfalso. apply compare_rows_eq_id in E.
    rewrite map_app in Hnd. apply NoDup_app_remove_l in Hnd.
    cbn in Hnd. inversion Hnd as [|? ? Hn _]; subst. apply Hn.
    rewrite E. apply in_map. exact Ht.
  - intros t Ht.
    assert (Hle : row_leb (getOrderBy sort) t l = true).
    { apply (StronglySorted_app_inv _ _ _ Hs); [exact Ht|]. left. reflexivity. }
    unfold row_leb in Hle. rewrite (compare_rows_antisym _ t l).
    destruct (compare_rows (getOrderBy sort) t l); cbn;
      [reflexivity|reflexivity|discriminate].
Qed.

Lemma matching_rows_with_cursor db membership userId q c :
  let sort := effective_sort (WorkspaceMembershipInfo.role membership) q in
  rows db membership userId (with_cursor q c) =
  Prisma.orderBy (row_leb (getOrderBy sort))
    (filter
       (baseWhere (WorkspaceMembershipInfo.workspaceId membership) userId
          (effective_mine (WorkspaceMembershipInfo.role membership) q) sort
          (effective_cursor otherFormats sort (with_cursor q c)))
       (Db.tickets db)).
Proof. reflexivity. Qed.

(** The rows selected with the cursor of a row of the selection are the
    rows that follow it there. *)
Lemma next_rows db membership userId q pre l rest :
  let sort := effective_sort (WorkspaceMembershipInfo.role membership) q in
  Constraints.tickets_pkey db -> cursor_safe db ->
  supportsCursor sort = true ->
  rows db membership userId q = (pre ++ l :: rest)%list ->
  rows db membership userId
    (with_cursor q
       (Some (Cursor.encodeCursor (cursorField sort l) (Ticket.id l)))) = rest.
Proof.
  intros sort Hpk Hsafe Hsup Hrows.
  set (role := WorkspaceMembershipInfo.role membership) in *.
  set (ws := WorkspaceMembershipInfo.workspaceId membership).
  set (mine := effective_mine role q).
  set (cur := effective_cursor otherFormats sort q).
  set (cl := Cursor.mk (cursorField sort l) (Ticket.id l)).
  set (keys := getOrderBy sort).
  set (F := filter (baseWhere ws userId mine sort cur) (Db.tickets db)).
  assert (Hq : rows db membership userId q = Prisma.orderBy (row_leb keys) F)
    by reflexivity.
  assert (Hin : forall t, In t (Prisma.orderBy (row_leb keys) F) ->
                 In t (Db.tickets db)
                 /\ baseWhere ws userId mine sort cur t = true).
  { intros t Ht. apply filter_In.
    eapply Permutation_in; [apply orderBy_perm | exact Ht]. }
  assert (Hl : In l (Db.tickets db)
               /\ baseWhere ws userId mine sort cur l = true).
  { apply Hin. rewrite <- Hq, Hrows. apply in_or_app. right. left. reflexivity. }
  destruct Hl as [Hlin Hlw].
  destruct (Hsafe l Hlin) as (Hvc & Hvu & Hne & Hbar).
  assert (Hcur : effective_cursor otherFormats sort
                   (with_cursor q (Some (Cursor.encodeCursor
                      (cursorField sort l) (Ticket.id l)))) = Some cl).
  { unfold effective_cursor. rewrite Hsup.
    cbn [with_cursor Query.cursor or_default].
    apply parseCursor_encodeCursor; auto.
    unfold cursorField. destruct sort; assumption. }
  rewrite matching_rows_with_cursor. cbv zeta. fold role sort ws mine keys.
  rewrite Hcur.
  assert (HF : filter (baseWhere ws userId mine sort (Some cl)) (Db.tickets db)
               = filter (after_cursor sort cl) F).
  { unfold F. rewrite filter_filter. apply filter_ext_in. intros t _.
    unfold baseWhere in *.
    destruct (String.eqb (Ticket.workspaceId t) ws); [|reflexivity].
    destruct (if mine then String.eqb (Ticket.createdByUserId t) userId else true);
      [|reflexivity].
    cbn [andb]. destruct cur as [c0|]; [|reflexivity].
    destruct (after_cursor sort cl t) eqn:Ea; [|symmetry; apply andb_false_r].
    rewrite andb_true_r. symmetry.
    apply (after_cursor_trans sort c0 l t); [|exact Ea].
    apply andb_true_iff in Hlw. apply Hlw. }
  rewrite HF.
  assert (Hsw : Prisma.orderBy (row_leb keys) (filter (after_cursor sort cl) F)
                = filter (after_cursor sort cl) (Prisma.orderBy (row_leb keys) F)).
  { apply (sorted_perm_unique (fun a b => row_leb keys a b = true)).
    - apply orderBy_strongly_sorted.
    - apply StronglySorted_filter. apply orderBy_strongly_sorted.
    - rewrite orderBy_perm. apply Permutation_filter.
      apply Permutation_sym, orderBy_perm.
    - intros a b Ha Hb Hab Hba.
      assert (Ha' : In a (Db.tickets db)).
      { apply (Permutation_in _ (orderBy_perm _ _)) in Ha.
        apply filter_In in Ha. destruct Ha as [Ha _].
        apply filter_In in Ha. tauto. }
      assert (Hb' : In b (Db.tickets db)).
      { apply (Permutation_in _ (orderBy_perm _ _)) in Hb.
        apply filter_In in Hb. destruct Hb as [Hb _].
        apply filter_In in Hb. tauto. }
      apply (nodup_map_inj Ticket.id (Db.tickets db)); auto.
      apply (compare_rows_eq_id sort). fold keys.
      unfold row_leb in Hab, Hba. rewrite (compare_rows_antisym keys a b) in Hba.
      destruct (compare_rows keys a b); cbn in *; congruence. }
  rewrite Hsw, <- Hq, Hrows.
  rewrite (filter_ext _ _ (fun t => after_cursor_compare sort l t Hsup)).
  apply sorted_after_split.
  - rewrite <- Hrows, Hq. apply orderBy_strongly_sorted.
  - rewrite <- Hrows. apply matching_rows_nodup. exact Hpk.
Qed.

Lemma body_json s b : Response.body (Response.json s b) = b.
Proof. reflexivity. Qed.

End PagingSteps.

Section PagingTheorems.

Import workspacesRoutes Paging.

Variable otherFormats : string -> option Z.

Local Abbreviation rows := (Spec.matching_rows otherFormats).




(** Following the next cursor from page to page walks the selection in
    its order: for the sorts that support a cursor (createdAt and
    updatedAt), the first page and [n] further pages, each asked for
    with the cursor of the response before, put end to end are the
    first [(n + 1) * limit] rows of the selection, so that no ticket is
    skipped and none comes twice; for the other sorts the response
    carries no cursor and the walk ends with the first page.  The
    tickets' ids are taken to be distinct and fit for a cursor. *)
Theorem listing_cursor_walk (db : Db.t)
    (membership : WorkspaceMembershipInfo.t) (userId : string) (n : nat)
    (q : Query.t) :
  Constraints.tickets_pkey db -> cursor_safe db ->
  follow otherFormats n db membership userId q =
  firstn
    (if supportsCursor
          (effective_sort (WorkspaceMembershipInfo.role membership) q)
     then S n * Z.to_nat (effective_limit q)
     else Z.to_nat (effective_limit q))
    (Spec.matching_rows otherFormats db membership userId q).
Proof.
  intros Hpk Hsafe. revert q.
  induction n as [|n IH]; intros q;
    set (sort := effective_sort (WorkspaceMembershipInfo.role membership) q);
    set (limit := Z.to_nat (effective_limit q)).
  - cbn [follow].
    destruct (listTickets_page otherFormats db membership userId q)
      as (nc & Hresp & _).
    rewrite Hresp, body_json. fold limit.
    replace (if supportsCursor sort then (1 * limit)%nat else limit)
      with limit by (destruct (supportsCursor sort); lia).
    destruct nc; reflexivity.
  - cbn [follow].
    destruct (listTickets_page otherFormats db membership userId q)
      as (nc & Hresp & Hiff & Hlast).
    rewrite Hresp, body_json. fold limit sort in Hiff, Hlast |- *.
    pose proof (effective_limit_range q) as Hrange.
    rewrite fetched_rows in Hiff.
    replace (Z.to_nat (effective_limit q + 1)) with (S limit) in Hiff
      by (unfold limit; lia).
    destruct nc as [c|].
    + destruct (Hlast c eq_refl) as (pre & l & Hpage & Hc).
      assert (Hsome : Some c <> None) by discriminate.
      apply Hiff in Hsome. destruct Hsome as [Hlen Hsup].
      rewrite Hsup.
      rewrite length_firstn in Hlen.
      assert (Hrows : rows db membership userId q =
                      (pre ++ l :: skipn limit (rows db membership userId q))
                      %list).
      { rewrite <- (firstn_skipn limit (rows db membership userId q)) at 1.
        rewrite Hpage, <- app_assoc. reflexivity. }
      pose proof (next_rows otherFormats db membership userId q pre l _
                    Hpk Hsafe Hsup Hrows) as Hnext.
      fold sort in Hnext. rewrite <- Hc in Hnext.
      rewrite (IH (with_cursor q (Some c))).
      change (effective_sort (WorkspaceMembershipInfo.role membership)
                (with_cursor q (Some c))) with sort.
      change (Z.to_nat (effective_limit (with_cursor q (Some c)))) with limit.
      rewrite Hsup, Hnext.
      rewrite <- (firstn_skipn limit (rows db membership userId q)) at 3.
      assert (Hl : List.length (firstn limit (rows db membership userId q))
                   = limit)
        by (rewrite length_firstn; lia).
      replace (S (S n) * limit)%nat
        with (List.length (firstn limit (rows db membership userId q))
              + S n * limit)%nat by (rewrite Hl; lia).
      rewrite firstn_app_2. reflexivity.
    + assert (Hshort : supportsCursor sort = true ->
                       (List.length (rows db membership userId q) <= limit)
                       %nat).
      { intros Hsup.
        destruct (Nat.le_gt_cases (List.length (rows db membership userId q))
                    limit) as [H|H]; [exact H|].
        exfalso. assert (Hn : @None string <> None).
        { apply Hiff. split; [|exact Hsup]. rewrite length_firstn. lia. }
        apply Hn. reflexivity. }
      destruct (supportsCursor sort); [|reflexivity].
      rewrite !firstn_all2; auto. specialize (Hshort eq_refl). nia.
Qed.


End PagingTheorems.

Lemma sample_cursor_safe : Paging.cursor_safe Sample.db.
Proof.
  intros t Hin. cbn in Hin.
  destruct Hin as [<-|[<-|[<-|[<-|[<-|[]]]]]]; cbn;
    unfold JsDate.valid_time, JsDate.maxTime;
    (split; [lia|]; split; [lia|]; split; [discriminate | reflexivity]).
Qed.

Lemma listing_cursor_walk_witness :
  Paging.follow (fun _ => None) 1 Sample.db
    (WorkspaceMembershipInfo.mk "w-example" ADMIN) "u-owner"
    (workspacesRoutes.Query.mk None (Some "2") None None)
  = firstn 4
      (Spec.matching_rows (fun _ => None) Sample.db
         (WorkspaceMembershipInfo.mk "w-example" ADMIN) "u-owner"
         (workspacesRoutes.Query.mk None (Some "2") None None)).
Proof.
  exact (listing_cursor_walk (fun _ => None) Sample.db
           (WorkspaceMembershipInfo.mk "w-example" ADMIN) "u-owner" 1
           (workspacesRoutes.Query.mk None (Some "2") None None)
           sample_tickets_pkey sample_cursor_safe).
Defined.


(** On the sample store: two pages of two walk the three tickets of the
    workspace, newest first. *)
Example walk_of_the_sample :
  Paging.follow (fun _ => None) 1 Sample.db
    (WorkspaceMembershipInfo.mk "w-example" ADMIN) "u-owner"
    (workspacesRoutes.Query.mk None (Some "2") None None)
  = [ Ticket.mk "t5" "w-example" "u-member2" "Export fails" CLOSED
        (Some MEDIUM) None 5000 5000;
      Ticket.mk "t4" "w-example" "u-owner" "Renewal" CLOSED None None 4000 4000;
      Ticket.mk "t3" "w-example" "u-member2" "Feature request" OPEN (Some LOW)
        None 3000 3000 ].
Proof. vm_compute. reflexivity. Qed.

(** *** Guards: the workspace middleware and the ticket checks *)

Section Guards.

(** What [requireWorkspaceMember] has found when it calls [next()]. *)
Lemma requireWorkspaceMember_next db workspaceId user membership :
  workspaceAccess.requireWorkspaceMember db workspaceId (Some user)
  = Next membership ->
  WorkspaceMembershipInfo.workspaceId membership = workspaceId
  /\ exists w,
       find (fun w => String.eqb (Workspace.id w) workspaceId) (Db.workspaces db)
       = Some w
       /\ ((supportAgent.isSupportAgent db (AuthUser.id user) = true
            /\ Workspace.kind w = CUSTOMER
            /\ WorkspaceMembershipInfo.role membership = ADMIN)
           \/ (supportAgent.isSupportAgent db (AuthUser.id user)
               && kind_eqb (Workspace.kind w) CUSTOMER = false
               /\ exists m,
                    ticketAccess.member_findUnique db workspaceId
                      (AuthUser.id user) = Some m
                    /\ WorkspaceMembershipInfo.role membership
                       = WorkspaceMember.role m)).
Proof.
  unfold workspaceAccess.requireWorkspaceMember.
  destruct (find _ (Db.workspaces db)) as [w|] eqn:Hw; [|discriminate].
  destruct (supportAgent.isSupportAgent db (AuthUser.id user)
            && kind_eqb (Workspace.kind w) CUSTOMER) eqn:Ea.
  - intros E. inversion E; subst membership. split; [reflexivity|].
    exists w. split; [reflexivity|]. left.
    apply andb_prop in Ea. destruct Ea as [Ha Hk].
    apply kind_eqb_eq in Hk. auto.
  - destruct (ticketAccess.member_findUnique db workspaceId (AuthUser.id user))
      as [m|] eqn:Hm; [|discriminate].
    intros E. inversion E; subst membership. cbn.
    destruct (member_findUnique_some _ _ _ _ Hm) as (_ & Hws & _).
    split; [exact Hws|]. exists w. split; [reflexivity|]. right.
    split; [exact Ea|]. exists m. auto.
Qed.

Lemma requireWorkspaceMemberFromParams_next db param user membership :
  workspaceAccess.requireWorkspaceMemberFromParams db param (Some user)
  = Next membership ->
  exists workspaceId,
    param = Some workspaceId
    /\ workspaceAccess.requireWorkspaceMember db workspaceId (Some user)
       = Next membership.
Proof.
  unfold workspaceAccess.requireWorkspaceMemberFromParams.
  destruct param as [workspaceId|]; [|discriminate].
  destruct (String.eqb (JS.trim workspaceId) ""); [discriminate|].
  intros H. exists workspaceId. auto.
Qed.

(** What the workspace middleware sends itself is an error. *)
Lemma requireWorkspaceMemberFromParams_respond db param user r :
  workspaceAccess.requireWorkspaceMemberFromParams db param user = Respond r ->
  exists code message,
    Response.body r = ErrorBody code message
    /\ (Response.status r = 400 \/ Response.status r = 401
        \/ Response.status r = 403 \/ Response.status r = 404).
Proof.
  unfold workspaceAccess.requireWorkspaceMemberFromParams,
    workspaceAccess.requireWorkspaceMember.
  destruct param as [workspaceId|];
    [destruct (String.eqb (JS.trim workspaceId) "")|];
    try (intros E; inversion E; subst r; cbn; eexists _, _; split;
         [reflexivity | tauto]).
  destruct user as [user|];
    [|intros E; inversion E; subst r; cbn; eexists _, _; split;
      [reflexivity | tauto]].
  destruct (find _ (Db.workspaces db)) as [w|];
    [|intros E; inversion E; subst r; cbn; eexists _, _; split;
      [reflexivity | tauto]].
  destruct (_ && _); [discriminate|].
  destruct (ticketAccess.member_findUnique _ _ _); [discriminate|].
  intros E; inversion E; subst r; cbn; eexists _, _; split;
    [reflexivity | tauto].
Qed.

(** A caller the workspace middleware lets through can read, by its id,
    every ticket of the workspace the middleware's role gives access
    to: all of them for ADMIN, the caller's own for MEMBER. *)
Lemma member_reads_ticket db workspaceId user membership t :
  Constraints.tickets_pkey db ->
  workspaceAccess.requireWorkspaceMember db workspaceId (Some user)
  = Next membership ->
  In t (Db.tickets db) -> Ticket.workspaceId t = workspaceId ->
  (WorkspaceMembershipInfo.role membership = MEMBER ->
   Ticket.createdByUserId t = AuthUser.id user) ->
  exists tw,
    ticketAccess.getTicketWithAccessCheck db (Ticket.id t) (AuthUser.id user)
      (supportAgent.isSupportAgent db (AuthUser.id user)) = Some tw
    /\ TicketWithMessages.ticket tw = t.
Proof.
  intros Hpk Hnext Hin Hws Hmine.
  destruct (requireWorkspaceMember_next _ _ _ _ Hnext) as (_ & w & Hw & Hcase).
  unfold ticketAccess.getTicketWithAccessCheck, ticketAccess.ticket_findUnique.
  rewrite (find_ticket db t Hpk Hin), Hws, Hw.
  cbn [TicketWithMessages.workspaceKind TicketWithMessages.ticket].
  destruct Hcase as [(Ha & Hk & _)|(Ea & m & Hm & Hr)].
  - rewrite Ha, Hk. cbn. eexists. split; reflexivity.
  - rewrite Ea, Hws, Hm.
    destruct (WorkspaceMember.role m) eqn:Erole; cbn [role_eqb andb].
    + eexists. split; reflexivity.
    + rewrite (Hmine Hr), String.eqb_refl. eexists. split; reflexivity.
Qed.

End Guards.

Section ListingAccess.

Import workspacesRoutes.
Variable otherFormats : string -> option Z.

(** What the listing shows, the caller can open: every item of a page
    of GET /workspaces/:workspaceId/tickets is a ticket of the store in
    the workspace of the path, and GET /tickets/:ticketId answers 200
    with that ticket for the same caller; a page has at most 50 items. *)
Theorem listed_tickets_are_readable (db : Db.t) (param : option string)
    (user : AuthUser.t) (q : Query.t) (items : list Ticket.t)
    (nextCursor : option string) :
  Constraints.tickets_pkey db ->
  GET_workspace_tickets otherFormats db param user q
  = Response.json 200 (ItemsBody items nextCursor) ->
  (List.length items <= 50)%nat
  /\ Forall (fun t =>
       In t (Db.tickets db)
       /\ Some (Ticket.workspaceId t) = param
       /\ exists tw,
            ticketsRoutes.GET_ticket db (Ticket.id t) (AuthUser.id user)
            = Response.json 200 (TicketBody tw)
            /\ TicketWithMessages.ticket tw = t) items.
Proof.
  intros Hpk. unfold GET_workspace_tickets.
  destruct (workspaceAccess.requireWorkspaceMemberFromParams db param (Some user))
    as [r|membership] eqn:Hmw.
  { intros E. subst r.
    destruct (requireWorkspaceMemberFromParams_respond _ _ _ _ Hmw)
      as (code & message & Hb & _).
    discriminate Hb. }
  destruct (requireWorkspaceMemberFromParams_next _ _ _ _ Hmw)
    as (workspaceId & Hparam & Hnext).
  destruct (listTickets_page otherFormats db membership (AuthUser.id user) q)
    as (nc & Hresp & _).
  rewrite Hresp. intros E. inversion E; subst items nextCursor. clear E.
  pose proof (effective_limit_range q) as Hrange.
  split; [rewrite length_firstn; lia|].
  apply Forall_forall. intros t Ht. apply in_firstn in Ht.
  apply matching_rows_in in Ht. destruct Ht as (Hin & Hws & Hmine & _).
  destruct (requireWorkspaceMember_next _ _ _ _ Hnext) as (Hid & _).
  rewrite Hid in Hws.
  split; [exact Hin|]. split; [congruence|].
  destruct (member_reads_ticket db workspaceId user membership t Hpk Hnext Hin Hws)
    as (tw & Hg & Et).
  { intros Hr. apply Hmine. rewrite Hr. reflexivity. }
  exists tw. split; [|exact Et].
  unfold ticketsRoutes.GET_ticket. rewrite Hg. reflexivity.
Qed.

End ListingAccess.

Section AdminUpdate.

(** [getTicketForAdminUpdate] returns the ticket exactly when it exists
    and the caller is an elevated agent on a CUSTOMER workspace or holds
    an ADMIN membership in the ticket's workspace; whoever may change a
    ticket may read it; and a caller who reads the ticket as a MEMBER,
    being no agent, may not change it. *)
Theorem admin_update_access (db : Db.t) (ticketId userId : string)
    (agent : bool) :
  Constraints.workspaces_pkey db -> Constraints.members_unique db ->
  (forall t,
     ticketAccess.getTicketForAdminUpdate db ticketId userId agent = Some t <->
     exists tw,
       ticketAccess.ticket_findUnique db ticketId = Some tw
       /\ TicketWithMessages.ticket tw = t
       /\ ((agent = true
            /\ Spec.workspace_kind db (Ticket.workspaceId t) CUSTOMER)
           \/ Spec.holds_role db (Ticket.workspaceId t) userId ADMIN))
  /\ (forall t,
        ticketAccess.getTicketForAdminUpdate db ticketId userId agent = Some t ->
        exists tw,
          ticketAccess.getTicketWithAccessCheck db ticketId userId agent
          = Some tw
          /\ TicketWithMessages.ticket tw = t)
  /\ (forall tw,
        ticketAccess.getTicketWithAccessCheck db ticketId userId agent
        = Some tw ->
        agent = false ->
        Spec.holds_role db (Ticket.workspaceId (TicketWithMessages.ticket tw))
          userId MEMBER ->
        ticketAccess.getTicketForAdminUpdate db ticketId userId agent = None).
Proof.
  intros Hwpk Hmu.
  unfold ticketAccess.getTicketForAdminUpdate,
    ticketAccess.getTicketWithAccessCheck.
  destruct (ticketAccess.ticket_findUnique db ticketId) as [tw|] eqn:Hf.
  2: { split; [|split]; try discriminate.
       intros t. split; [discriminate|]. intros (tw & E & _). discriminate. }
  destruct (ticket_findUnique_some _ _ _ Hf) as (_ & _ & Hk).
  destruct (agent && kind_eqb (TicketWithMessages.workspaceKind tw) CUSTOMER)
    eqn:Ea.
  - apply andb_prop in Ea. destruct Ea as [Ha Hc]. apply kind_eqb_eq in Hc.
    rewrite Hc in Hk. split; [|split].
    + intros t. split.
      * intros E. inversion E; subst t. exists tw. auto.
      * intros (tw' & E & Et & _). inversion E; subst tw'. subst t.
        reflexivity.
    + intros t E. inversion E; subst t. exists tw. auto.
    + intros tw' _ Hna. congruence.
  - assert (Hnot : ~ (agent = true
                      /\ Spec.workspace_kind db
                           (Ticket.workspaceId (TicketWithMessages.ticket tw))
                           CUSTOMER)).
    { intros [Ha Hc]. rewrite Ha in Ea. cbn in Ea.
      pose proof (workspace_kind_unique _ _ _ _ Hwpk Hk Hc) as E.
      rewrite E in Ea. discriminate. }
    destruct (ticketAccess.member_findUnique db
                (Ticket.workspaceId (TicketWithMessages.ticket tw)) userId)
      as [m|] eqn:Hm.
    + destruct (WorkspaceMember.role m) eqn:Er; cbn [role_eqb negb andb].
      * split; [|split].
        -- intros t. split.
           ++ intros E. inversion E; subst t. exists tw.
              split; [reflexivity|]. split; [reflexivity|]. right.
              apply (holds_role_findUnique _ _ _ _ Hmu). exists m. auto.
           ++ intros (tw' & E & Et & _). inversion E; subst tw'. subst t.
              reflexivity.
        -- intros t E. inversion E; subst t. exists tw. auto.
        -- intros tw' E _ Hr. inversion E; subst tw'.
           apply (holds_role_findUnique _ _ _ _ Hmu) in Hr.
           destruct Hr as (m' & Hm' & Hr').
           assert (m' = m) by congruence. subst m'. congruence.
      * split; [|split]; try discriminate; [|reflexivity].
        intros t. split; [discriminate|].
        intros (tw' & E & Et & [Hc|Hr]).
        -- inversion E; subst tw'. subst t. contradiction.
        -- inversion E; subst tw'. subst t.
           apply (holds_role_findUnique _ _ _ _ Hmu) in Hr.
           destruct Hr as (m' & Hm' & Hr'). congruence.
    + split; [|split]; try discriminate.
      intros t. split; [discriminate|].
      intros (tw' & E & Et & [Hc|Hr]).
      * inversion E; subst tw'. subst t. contradiction.
      * inversion E; subst tw'. subst t.
        destruct (member_findUnique_none _ _ _ Hm _ Hr).
Qed.

End AdminUpdate.

(** [requireWorkspaceRole]: requiring MEMBER is [requireWorkspaceMember];
    requiring ADMIN passes on what [requireWorkspaceMember] sends, lets a
    caller resolved to ADMIN through with the same membership, and
    answers a caller resolved to MEMBER with 403 FORBIDDEN. *)
Theorem workspace_role_gate (db : Db.t) (workspaceId : string)
    (user : option AuthUser.t) :
  workspaceAccess.requireWorkspaceRole db workspaceId MEMBER user
  = workspaceAccess.requireWorkspaceMember db workspaceId user
  /\ (forall r,
        workspaceAccess.requireWorkspaceMember db workspaceId user = Respond r ->
        workspaceAccess.requireWorkspaceRole db workspaceId ADMIN user
        = Respond r)
  /\ (forall membership,
        workspaceAccess.requireWorkspaceMember db workspaceId user
        = Next membership ->
        workspaceAccess.requireWorkspaceRole db workspaceId ADMIN user
        = match WorkspaceMembershipInfo.role membership with
          | ADMIN => Next membership
          | MEMBER =>
              Respond (Response.error 403 "FORBIDDEN"
                         "Insufficient role for this workspace")
          end).
Proof.
  unfold workspaceAccess.requireWorkspaceRole.
  destruct (workspaceAccess.requireWorkspaceMember db workspaceId user)
    as [r|membership].
  - split; [reflexivity|]. split; [intros r' E; exact E | discriminate].
  - split; [|split; [discriminate|]].
    + destruct (WorkspaceMembershipInfo.role membership); reflexivity.
    + intros m' E. inversion E; subst m'.
      destruct (WorkspaceMembershipInfo.role membership); reflexivity.
Qed.

Section WorkspaceList.

(** GET /workspaces answers an elevated agent only; it lists every
    CUSTOMER workspace, and every workspace it lists with a role is one
    [requireWorkspaceMember] opens to the caller with that role, the
    store having one Support Ops workspace at most. *)
Theorem listed_workspaces_are_open (db : Db.t) (user : AuthUser.t)
    (status : Z) (listed : list (Workspace.t * WorkspaceRole)) :
  Constraints.workspaces_pkey db -> Constraints.members_unique db ->
  (forall a b, In a (Db.workspaces db) -> In b (Db.workspaces db) ->
     Workspace.kind a = SUPPORT_OPS -> Workspace.kind b = SUPPORT_OPS -> a = b) ->
  workspaceTickets.GET_workspaces db (AuthUser.id user)
  = ReplyJson status listed ->
  Spec.elevated_agent db (AuthUser.id user)
  /\ (forall w, In w (Db.workspaces db) -> Workspace.kind w = CUSTOMER ->
        In (w, ADMIN) listed)
  /\ Forall (fun wr =>
       workspaceAccess.requireWorkspaceMember db (Workspace.id (fst wr))
         (Some user)
       = Next (WorkspaceMembershipInfo.mk (Workspace.id (fst wr)) (snd wr)))
       listed.
Proof.
  intros Hwpk Hmu Hone. unfold workspaceTickets.GET_workspaces.
  destruct (supportAgent.isSupportAgent db (AuthUser.id user)) eqn:Ha;
    [|discriminate].
  intros E. inversion E; subst status listed. clear E.
  pose proof (proj1 (isSupportAgent_iff _ _) Ha) as Hag.
  split; [exact Hag|]. split.
  - intros w Hin Hk. apply in_or_app. left.
    apply (in_map (fun w => (w, ADMIN))). apply filter_In. split; [exact Hin|].
    rewrite Hk. reflexivity.
  - apply Forall_app. split.
    + apply Forall_forall. intros [w r] Hin. apply in_map_iff in Hin.
      destruct Hin as (w' & E & Hin). inversion E; subst w' r. clear E.
      apply filter_In in Hin. destruct Hin as [Hin Hk].
      apply kind_eqb_eq in Hk. cbn [fst snd].
      unfold workspaceAccess.requireWorkspaceMember.
      rewrite (find_workspace db w Hwpk Hin), Ha, Hk. reflexivity.
    + destruct (find _ (Db.workspaces db)) as [ops|] eqn:Hf; [|constructor].
      constructor; [|constructor]. cbn [fst snd].
      apply find_some in Hf. destruct Hf as [Hin Hk]. apply kind_eqb_eq in Hk.
      unfold workspaceAccess.requireWorkspaceMember.
      rewrite (find_workspace db ops Hwpk Hin), Hk. cbn [kind_eqb].
      rewrite andb_false_r.
      destruct Hag as (wid & (m & Hm & Hw & Hu & Hr) & (w & Hwin & Hwid & Hwk)).
      assert (w = ops) by (apply Hone; auto). subst w.
      rewrite Hwid, <- Hw, <- Hu.
      rewrite (member_findUnique_in db m Hmu Hm), Hr. reflexivity.
Qed.

End WorkspaceList.

(** *** Writing to tickets: PATCH, replies, creation *)

Section TicketWrites.

Lemma find_updateMany {A : Type} (p where_ : A -> bool) (data : A -> A)
    (l : list A) :
  (forall x, p (data x) = p x) ->
  find p (Prisma.updateMany where_ data l)
  = option_map (fun x => if where_ x then data x else x) (find p l).
Proof.
  intros Hp. unfold Prisma.updateMany.
  induction l as [|a l IH]; cbn; [reflexivity|].
  assert (E : p (if where_ a then data a else a) = p a)
    by (destruct (where_ a); [apply Hp | reflexivity]).
  rewrite E. destruct (p a); [reflexivity | exact IH].
Qed.

(** The agent capability and the memberships are read from the tables
    of workspaces and members only. *)
Lemma isSupportAgent_ext db db' userId :
  Db.workspaces db' = Db.workspaces db ->
  Db.workspaceMembers db' = Db.workspaceMembers db ->
  supportAgent.isSupportAgent db' userId = supportAgent.isSupportAgent db userId.
Proof.
  intros Hw Hm. unfold supportAgent.isSupportAgent, supportAgent.workspace_has_kind.
  rewrite Hw, Hm. reflexivity.
Qed.

Lemma requireWorkspaceMember_ext db db' workspaceId user :
  Db.workspaces db' = Db.workspaces db ->
  Db.workspaceMembers db' = Db.workspaceMembers db ->
  workspaceAccess.requireWorkspaceMember db' workspaceId user
  = workspaceAccess.requireWorkspaceMember db workspaceId user.
Proof.
  intros Hw Hm. unfold workspaceAccess.requireWorkspaceMember.
  destruct user as [user|]; [|reflexivity].
  rewrite (isSupportAgent_ext db db' _ Hw Hm).
  unfold ticketAccess.member_findUnique. rewrite Hw, Hm. reflexivity.
Qed.

(** Whoever may change a ticket may read it. *)
Lemma admin_update_reads db ticketId userId agent t :
  ticketAccess.getTicketForAdminUpdate db ticketId userId agent = Some t ->
  exists tw,
    ticketAccess.getTicketWithAccessCheck db ticketId userId agent = Some tw
    /\ TicketWithMessages.ticket tw = t.
Proof.
  unfold ticketAccess.getTicketForAdminUpdate,
    ticketAccess.getTicketWithAccessCheck.
  destruct (ticketAccess.ticket_findUnique db ticketId) as [tw|]; [|discriminate].
  destruct (agent && _).
  - intros E. inversion E. exists tw. auto.
  - destruct (ticketAccess.member_findUnique _ _ _) as [m|]; [|discriminate].
    destruct (role_eqb _ ADMIN); [|discriminate]. cbn [negb].
    intros E. inversion E. exists tw. auto.
Qed.

Lemma access_check_some db ticketId userId agent tw :
  ticketAccess.getTicketWithAccessCheck db ticketId userId agent = Some tw ->
  ticketAccess.ticket_findUnique db ticketId = Some tw.
Proof.
  unfold ticketAccess.getTicketWithAccessCheck.
  destruct (ticketAccess.ticket_findUnique db ticketId) as [tw'|]; [|discriminate].
  destruct (_ && _); [congruence|].
  destruct (ticketAccess.member_findUnique _ _ _); [|discriminate].
  destruct (role_eqb _ _); [congruence|].
  destruct (_ && _); congruence.
Qed.

(** The access decision depends on the ticket through its workspace and
    its creator only, and on the store through the workspaces and the
    memberships. *)
Lemma access_transfer db db' ticketId userId agent tw tw' :
  ticketAccess.getTicketWithAccessCheck db ticketId userId agent = Some tw ->
  ticketAccess.ticket_findUnique db' ticketId = Some tw' ->
  Db.workspaceMembers db' = Db.workspaceMembers db ->
  Ticket.workspaceId (TicketWithMessages.ticket tw')
  = Ticket.workspaceId (TicketWithMessages.ticket tw) ->
  Ticket.createdByUserId (TicketWithMessages.ticket tw')
  = Ticket.createdByUserId (TicketWithMessages.ticket tw) ->
  TicketWithMessages.workspaceKind tw' = TicketWithMessages.workspaceKind tw ->
  ticketAccess.getTicketWithAccessCheck db' ticketId userId agent = Some tw'.
Proof.
  intros Hacc Hf' Hm Hws Hcr Hk.
  pose proof (access_check_some _ _ _ _ _ Hacc) as Hf.
  revert Hacc. unfold ticketAccess.getTicketWithAccessCheck.
  rewrite Hf, Hf', Hk, Hws, Hcr.
  unfold ticketAccess.member_findUnique. rewrite Hm.
  destruct (agent && _); [reflexivity|].
  destruct (find _ (Db.workspaceMembers db)) as [m|]; [|discriminate].
  destruct (role_eqb _ ADMIN); [reflexivity|].
  destruct (_ && _); [reflexivity | discriminate].
Qed.

Lemma ticket_findUnique_updated db db' ticketId data tw :
  (forall t, Ticket.id (data t) = Ticket.id t) ->
  (forall t, Ticket.workspaceId (data t) = Ticket.workspaceId t) ->
  Db.tickets db'
  = Prisma.updateMany (fun t => String.eqb (Ticket.id t) ticketId) data
      (Db.tickets db) ->
  Db.workspaces db' = Db.workspaces db ->
  ticketAccess.ticket_findUnique db ticketId = Some tw ->
  ticketAccess.ticket_findUnique db' ticketId
  = Some (TicketWithMessages.mk (data (TicketWithMessages.ticket tw))
            (TicketWithMessages.workspaceKind tw)
            (ticketAccess.messages_of db' ticketId)).
Proof.
  intros Hid Hws Ht Hw. unfold ticketAccess.ticket_findUnique.
  rewrite Ht, Hw.
  rewrite find_updateMany by (intros x; rewrite Hid; reflexivity).
  destruct (find _ (Db.tickets db)) as [t|] eqn:Hf; [|discriminate].
  cbn [option_map]. apply find_some in Hf. destruct Hf as [_ Hidt].
  rewrite Hidt, Hws.
  destruct (find _ (Db.workspaces db)) as [w|]; [|discriminate].
  intros E. inversion E. reflexivity.
Qed.

Import ticketPatch ticketSchemas.

(** PATCH /tickets/:ticketId never throws.  It answers 400 or 404 and
    leaves the store as it was, or 200 with the ticket as stored; it
    writes to the tickets only, keeps their ids, workspaces, creators,
    titles, categories and creation dates, and leaves every ticket but
    the one of the path untouched; of that one, the status and the
    priority are those of the body where it gives them. *)
Theorem patch_ticket_effect (updatedAt : Z) (ticketId userId : string)
    (body : PatchBody.t) (db : Db.t) :
  let out := PATCH_ticket updatedAt ticketId userId body db in
  exists reply,
    snd out = Ok reply
    /\ Db.users (fst out) = Db.users db
    /\ Db.workspaces (fst out) = Db.workspaces db
    /\ Db.workspaceMembers (fst out) = Db.workspaceMembers db
    /\ Db.ticketMessages (fst out) = Db.ticketMessages db
    /\ Db.refreshSessions (fst out) = Db.refreshSessions db
    /\ Forall2 (fun t t' =>
         Ticket.id t' = Ticket.id t
         /\ Ticket.workspaceId t' = Ticket.workspaceId t
         /\ Ticket.createdByUserId t' = Ticket.createdByUserId t
         /\ Ticket.title t' = Ticket.title t
         /\ Ticket.category t' = Ticket.category t
         /\ Ticket.createdAt t' = Ticket.createdAt t
         /\ (Ticket.id t <> ticketId -> t' = t))
         (Db.tickets db) (Db.tickets (fst out))
    /\ match reply with
       | ReplyError r =>
           fst out = db
           /\ exists code message,
                r = Response.error (Response.status r) code message
                /\ (Response.status r = 400 \/ Response.status r = 404)
       | ReplyJson status t =>
           status = 200
           /\ Ticket.id t = ticketId
           /\ In t (Db.tickets (fst out))
           /\ Ticket.updatedAt t = updatedAt
           /\ exists data t0,
                patchTicketSchema body = inl data
                /\ ticketAccess.getTicketForAdminUpdate db ticketId userId
                     (supportAgent.isSupportAgent db userId) = Some t0
                /\ Ticket.status t
                   = match PatchData.status data with
                     | Some s => s
                     | None => Ticket.status t0
                     end
                /\ Ticket.priority t
                   = match PatchData.priority data with
                     | Some p => p
                     | None => Ticket.priority t0
                     end
       end.
Proof.
  assert (Hsame : forall l : list Ticket.t,
    Forall2 (fun t t' =>
         Ticket.id t' = Ticket.id t
         /\ Ticket.workspaceId t' = Ticket.workspaceId t
         /\ Ticket.createdByUserId t' = Ticket.createdByUserId t
         /\ Ticket.title t' = Ticket.title t
         /\ Ticket.category t' = Ticket.category t
         /\ Ticket.createdAt t' = Ticket.createdAt t
         /\ (Ticket.id t <> ticketId -> t' = t)) l l).
  { induction l; constructor; auto. repeat split; auto. }
  cbv zeta. unfold PATCH_ticket.
  destruct (patchTicketSchema body) as [data|msg] eqn:Hs.
  2: { eexists. split; [reflexivity|]. cbn [fst snd].
       repeat (split; [reflexivity|]). split; [apply Hsame|].
       split; [reflexivity|]. eexists _, _. split; [reflexivity|]. left.
       reflexivity. }
  destruct (ticketAccess.getTicketForAdminUpdate db ticketId userId _)
    as [t0|] eqn:Hg.
  2: { eexists. split; [reflexivity|]. cbn [fst snd].
       repeat (split; [reflexivity|]). split; [apply Hsame|].
       split; [reflexivity|]. eexists _, _. split; [reflexivity|]. right.
       reflexivity. }
  eexists. split; [reflexivity|]. cbn [fst snd].
  repeat (split; [reflexivity|]). split.
  { cbn [Db.tickets Db.with_tickets]. unfold Prisma.updateMany.
    induction (Db.tickets db) as [|a l IH]; cbn [map]; constructor; [|exact IH].
    destruct (String.eqb_spec (Ticket.id a) ticketId); cbn;
      repeat split; auto; contradiction. }
  split; [reflexivity|].
  destruct (admin_update_reads _ _ _ _ _ Hg) as (tw & Hacc & Et).
  pose proof (access_check_some _ _ _ _ _ Hacc) as Hf.
  destruct (ticket_findUnique_some _ _ _ Hf) as (Hin & Hid & _).
  rewrite Et in Hin, Hid.
  split; [exact Hid|]. split.
  { cbn [Db.tickets Db.with_tickets]. unfold Prisma.updateMany.
    apply in_map_iff. exists t0. rewrite Hid, String.eqb_refl. auto. }
  split; [reflexivity|].
  exists data, t0. repeat split; reflexivity.
Qed.

(** A change made through PATCH is what GET /tickets/:ticketId shows
    the caller afterwards: the ticket as changed, with the thread as it
    was. *)
Theorem patch_then_read (updatedAt : Z) (ticketId userId : string)
    (body : PatchBody.t) (db db' : Db.t) (status : Z) (t : Ticket.t) :
  PATCH_ticket updatedAt ticketId userId body db
  = (db', Ok (ReplyJson status t)) ->
  exists tw,
    ticketsRoutes.GET_ticket db' ticketId userId
    = Response.json 200 (TicketBody tw)
    /\ TicketWithMessages.ticket tw = t
    /\ TicketWithMessages.messages tw = ticketAccess.messages_of db ticketId.
Proof.
  unfold PATCH_ticket.
  destruct (patchTicketSchema body) as [data|msg]; [|discriminate].
  destruct (ticketAccess.getTicketForAdminUpdate db ticketId userId _)
    as [t0|] eqn:Hg; [|discriminate].
  intros E. inversion E; subst db' status t. clear E.
  destruct (admin_update_reads _ _ _ _ _ Hg) as (tw & Hacc & Et).
  pose proof (access_check_some _ _ _ _ _ Hacc) as Hf.
  set (db' := Db.with_tickets db _).
  pose proof (ticket_findUnique_updated db db' ticketId
                (apply_update data updatedAt) tw
                (fun _ => eq_refl) (fun _ => eq_refl) eq_refl eq_refl Hf)
    as Hf'.
  eexists. unfold ticketsRoutes.GET_ticket.
  rewrite (isSupportAgent_ext db db' userId eq_refl eq_refl).
  rewrite (access_transfer db db' ticketId userId _ tw _ Hacc Hf' eq_refl
             eq_refl eq_refl eq_refl).
  split; [reflexivity|]. cbn [TicketWithMessages.ticket TicketWithMessages.messages].
  split; [rewrite Et; reflexivity|].
  unfold ticketAccess.ticket_findUnique in Hf.
  destruct (find _ (Db.tickets db)); [|discriminate].
  destruct (find _ (Db.workspaces db)); [|discriminate].
  inversion Hf. reflexivity.
Qed.

End TicketWrites.

Section Replies.

Import ticketsRoutes.

Lemma existsb_key_false {A : Type} (key : A -> string) (k : string)
    (l : list A) :
  existsb (fun x => String.eqb k (key x)) l = false <->
  ~ In k (map key l).
Proof.
  induction l as [|a l IH]; cbn; [tauto|].
  rewrite orb_false_iff, IH. rewrite String.eqb_neq. intuition congruence.
Qed.

(** What a reply that was stored leaves behind. *)
Lemma reply_stored o ticketId userId message db db' m :
  POST_message o ticketId userId message db
  = (db', Ok (Response.json 201 (MessageBody m))) ->
  exists content tw,
    validation.replyMessageSchema message = inl content
    /\ ticketAccess.getTicketWithAccessCheck db ticketId userId
         (supportAgent.isSupportAgent db userId) = Some tw
    /\ m = TicketMessage.mk (Outside.messageId o) ticketId userId content
             (Outside.createdAt o)
    /\ ~ In (Outside.messageId o) (map TicketMessage.id (Db.ticketMessages db))
    /\ db' = Db.with_tickets
               (Db.with_ticketMessages db (Db.ticketMessages db ++ [m])%list)
               (Prisma.updateMany (fun t => String.eqb (Ticket.id t) ticketId)
                  (fun t =>
                     Ticket.mk (Ticket.id t) (Ticket.workspaceId t)
                       (Ticket.createdByUserId t) (Ticket.title t)
                       (Ticket.status t) (Ticket.priority t)
                       (Ticket.category t) (Ticket.createdAt t)
                       (Outside.updatedAt o))
                  (Db.tickets db)).
Proof.
  unfold POST_message.
  destruct (validation.replyMessageSchema message) as [content|msg];
    [|discriminate].
  destruct (ticketAccess.getTicketWithAccessCheck db ticketId userId _)
    as [tw|]; [|discriminate].
  match goal with |- context [if ?b then _ else _] => destruct b end;
    [discriminate|].
  unfold reply_transaction, Prisma.create.
  destruct (existsb _ (Db.ticketMessages db)) eqn:Ex; [discriminate|].
  intros E. inversion E; subst. exists content, tw.
  repeat split; auto.
  apply (existsb_key_false TicketMessage.id). exact Ex.
Qed.

Lemma messages_of_added db db' ticketId m :
  Db.ticketMessages db' = (Db.ticketMessages db ++ [m])%list ->
  TicketMessage.ticketId m = ticketId ->
  Permutation (ticketAccess.messages_of db' ticketId)
    (m :: ticketAccess.messages_of db ticketId).
Proof.
  intros Hm Ht. unfold ticketAccess.messages_of.
  rewrite !orderBy_perm, Hm, filter_app. cbn [filter].
  rewrite Ht, String.eqb_refl.
  apply Permutation_sym, Permutation_cons_append.
Qed.

(** POST /tickets/:ticketId/messages stores a reply whole or not at
    all: on 201 exactly one message is added, written by the caller on
    the ticket of the path with the validated content, and
    GET /tickets/:ticketId then shows the caller the thread with that
    message and the ticket's updatedAt moved; on 400, 403, 404 and on a
    thrown error the store is what it was. *)
Theorem reply_effect (o : Outside.t) (ticketId userId : string)
    (message : option string) (db : Db.t) :
  let out := POST_message o ticketId userId message db in
  match snd out with
  | Throw _ => fst out = db
  | Ok resp =>
      match Response.body resp with
      | MessageBody m =>
          Response.status resp = 201
          /\ TicketMessage.ticketId m = ticketId
          /\ TicketMessage.authorId m = userId
          /\ validation.replyMessageSchema message
             = inl (TicketMessage.content m)
          /\ Db.ticketMessages (fst out) = (Db.ticketMessages db ++ [m])%list
          /\ map Ticket.id (Db.tickets (fst out)) = map Ticket.id (Db.tickets db)
          /\ exists tw,
               GET_ticket (fst out) ticketId userId
               = Response.json 200 (TicketBody tw)
               /\ Ticket.updatedAt (TicketWithMessages.ticket tw)
                  = Outside.updatedAt o
               /\ Permutation (TicketWithMessages.messages tw)
                    (m :: ticketAccess.messages_of db ticketId)
      | _ =>
          fst out = db
          /\ (Response.status resp = 400 \/ Response.status resp = 403
              \/ Response.status resp = 404)
      end
  end.
Proof.
  cbv zeta.
  destruct (POST_message o ticketId userId message db) as [db' res] eqn:Eout.
  cbn [fst snd].
  assert (Hcases :
    (exists m, res = Ok (Response.json 201 (MessageBody m)))
    \/ (db' = db /\ exists e, res = Throw e)
    \/ (db' = db /\ exists st code msg,
          res = Ok (Response.error st code msg)
          /\ (st = 400 \/ st = 403 \/ st = 404))).
  { revert Eout. unfold POST_message.
    destruct (validation.replyMessageSchema message) as [content|msg].
    2: { intros E; inversion E. right. right. split; [reflexivity|].
         eexists _, _, _. split; [reflexivity|]. auto. }
    destruct (ticketAccess.getTicketWithAccessCheck db ticketId userId _)
      as [tw|].
    2: { intros E; inversion E. right. right. split; [reflexivity|].
         eexists _, _, _. split; [reflexivity|]. auto. }
    match goal with |- context [if ?b then _ else _] => destruct b end.
    { intros E; inversion E. right. right. split; [reflexivity|].
      eexists _, _, _. split; [reflexivity|]. auto. }
    unfold reply_transaction, Prisma.create.
    destruct (existsb _ (Db.ticketMessages db)).
    - intros E; inversion E. right. left. split; [reflexivity|].
      eexists. reflexivity.
    - intros E; inversion E. left. eexists. reflexivity. }
  destruct Hcases as [(m & ->)|[(-> & e & ->)|(-> & st & code & msg & -> & Hst)]];
    [|reflexivity|cbn; auto].
  cbn [Response.body Response.json Response.status].
  destruct (reply_stored _ _ _ _ _ _ _ Eout)
    as (content & tw & Hs & Hacc & Hm & Hfresh & Hdb).
  split; [reflexivity|]. split; [subst m; reflexivity|].
  split; [subst m; reflexivity|]. split; [subst m; exact Hs|].
  split; [subst db'; reflexivity|]. split.
  { subst db'. cbn [Db.tickets Db.with_tickets]. unfold Prisma.updateMany.
    rewrite map_map. apply map_ext. intros t.
    destruct (String.eqb (Ticket.id t) ticketId); reflexivity. }
  pose proof (access_check_some _ _ _ _ _ Hacc) as Hf.
  pose proof (ticket_findUnique_updated db db' ticketId
             (fun t => Ticket.mk (Ticket.id t) (Ticket.workspaceId t)
                         (Ticket.createdByUserId t) (Ticket.title t)
                         (Ticket.status t) (Ticket.priority t)
                         (Ticket.category t) (Ticket.createdAt t)
                         (Outside.updatedAt o)) tw
             (fun _ => eq_refl) (fun _ => eq_refl)) as Hf'.
  specialize (Hf' ltac:(subst db'; reflexivity) ltac:(subst db'; reflexivity) Hf).
  eexists. unfold GET_ticket.
  rewrite (isSupportAgent_ext db db' userId) by (subst db'; reflexivity).
  rewrite (access_transfer db db' ticketId userId _ tw _ Hacc Hf')
    by (subst db'; reflexivity).
  split; [reflexivity|]. split; [reflexivity|].
  cbn [TicketWithMessages.messages].
  apply messages_of_added; subst db' m; reflexivity.
Qed.

End Replies.

Section StatusGate.

Import ticketsRoutes ticketPatch ticketSchemas.

Lemma patch_stored updatedAt ticketId userId body db db' status t :
  PATCH_ticket updatedAt ticketId userId body db
  = (db', Ok (ReplyJson status t)) ->
  Db.workspaces db' = Db.workspaces db
  /\ Db.workspaceMembers db' = Db.workspaceMembers db
  /\ Db.ticketMessages db' = Db.ticketMessages db
  /\ exists tw,
       ticketAccess.ticket_findUnique db' ticketId = Some tw
       /\ TicketWithMessages.ticket tw = t.
Proof.
  unfold PATCH_ticket.
  destruct (patchTicketSchema body) as [data|msg]; [|discriminate].
  destruct (ticketAccess.getTicketForAdminUpdate db ticketId userId _)
    as [t0|] eqn:Hg; [|discriminate].
  intros E. inversion E; subst db' status t. clear E.
  repeat (split; [reflexivity|]).
  destruct (admin_update_reads _ _ _ _ _ Hg) as (tw & Hacc & Et).
  pose proof (access_check_some _ _ _ _ _ Hacc) as Hf.
  eexists. split.
  - apply (ticket_findUnique_updated db
             (Db.with_tickets db
                (Prisma.updateMany
                   (fun t => String.eqb (Ticket.id t) ticketId)
                   (apply_update data updatedAt) (Db.tickets db)))
             ticketId (apply_update data updatedAt) tw
             (fun _ => eq_refl) (fun _ => eq_refl) eq_refl eq_refl Hf).
  - cbn. rewrite Et. reflexivity.
Qed.

(** The reply of a MEMBER who created the ticket and is no agent. *)
Lemma member_reply o ticketId memberId message content db tw :
  Constraints.members_unique db ->
  ticketAccess.ticket_findUnique db ticketId = Some tw ->
  Spec.holds_role db (Ticket.workspaceId (TicketWithMessages.ticket tw))
    memberId MEMBER ->
  Ticket.createdByUserId (TicketWithMessages.ticket tw) = memberId ->
  ~ Spec.elevated_agent db memberId ->
  validation.replyMessageSchema message = inl content ->
  POST_message o ticketId memberId message db =
  if status_eqb (Ticket.status (TicketWithMessages.ticket tw)) CLOSED
  then (db, Ok (Response.error 403 "TICKET_CLOSED"
                  "This ticket is closed. New replies are not allowed."))
  else match reply_transaction o ticketId memberId content db with
       | (db', Throw e) => (db', Throw e)
       | (db', Ok m) => (db', Ok (Response.json 201 (MessageBody m)))
       end.
Proof.
  intros Hmu Hf Hrole Hcr Hna Hs.
  assert (Ea : supportAgent.isSupportAgent db memberId = false).
  { destruct (supportAgent.isSupportAgent db memberId) eqn:E; [|reflexivity].
    exfalso. apply Hna. apply isSupportAgent_iff. exact E. }
  apply (holds_role_findUnique _ _ _ _ Hmu) in Hrole.
  destruct Hrole as (m & Hm & Hr).
  unfold POST_message, ticketAccess.getTicketWithAccessCheck.
  rewrite Hs, Ea, Hf. cbv beta iota zeta. cbn [andb negb].
  rewrite !Hm, !Hr, Hcr, String.eqb_refl.
  cbn [role_eqb andb negb]. cbv beta iota zeta. rewrite andb_true_r.
  destruct (status_eqb _ CLOSED); [|reflexivity].
  rewrite Hm, Hr. reflexivity.
Qed.

Lemma status_eqb_eq (a b : TicketStatus) : status_eqb a b = true <-> a = b.
Proof. destruct a, b; cbn; split; congruence. Qed.

(** Closing a ticket through PATCH shuts the thread for the member who
    created it: their reply gets 403 TICKET_CLOSED and changes nothing;
    after a PATCH that leaves the ticket in any other status their reply
    is stored. *)
Theorem patch_status_gates_member_reply (updatedAt : Z)
    (ticketId adminId : string) (body : PatchBody.t) (db db' : Db.t)
    (status : Z) (t : Ticket.t) (o : Outside.t) (memberId : string)
    (message : option string) (content : string) :
  PATCH_ticket updatedAt ticketId adminId body db
  = (db', Ok (ReplyJson status t)) ->
  Constraints.members_unique db ->
  Spec.holds_role db (Ticket.workspaceId t) memberId MEMBER ->
  Ticket.createdByUserId t = memberId ->
  ~ Spec.elevated_agent db memberId ->
  validation.replyMessageSchema message = inl content ->
  (Ticket.status t = CLOSED ->
   POST_message o ticketId memberId message db'
   = (db', Ok (Response.error 403 "TICKET_CLOSED"
                 "This ticket is closed. New replies are not allowed.")))
  /\ (Ticket.status t <> CLOSED ->
      ~ In (Outside.messageId o) (map TicketMessage.id (Db.ticketMessages db)) ->
      exists db'',
        POST_message o ticketId memberId message db'
        = (db'', Ok (Response.json 201
                       (MessageBody
                          (TicketMessage.mk (Outside.messageId o) ticketId
                             memberId content (Outside.createdAt o)))))).
Proof.
  intros Hpatch Hmu Hrole Hcr Hna Hs.
  destruct (patch_stored _ _ _ _ _ _ _ _ Hpatch)
    as (Hw & Hm & Hmsg & tw & Hf & Et).
  assert (Hmu' : Constraints.members_unique db')
    by (unfold Constraints.members_unique; rewrite Hm; exact Hmu).
  assert (Hrole' : Spec.holds_role db'
                     (Ticket.workspaceId (TicketWithMessages.ticket tw))
                     memberId MEMBER).
  { rewrite Et. unfold Spec.holds_role. rewrite Hm. exact Hrole. }
  assert (Hna' : ~ Spec.elevated_agent db' memberId).
  { intros H. apply Hna. apply isSupportAgent_iff.
    apply isSupportAgent_iff in H.
    rewrite <- (isSupportAgent_ext db db' memberId Hw Hm). exact H. }
  rewrite <- Et in Hcr.
  rewrite (member_reply o ticketId memberId message content db' tw
             Hmu' Hf Hrole' Hcr Hna' Hs).
  rewrite Et. split.
  - intros ->. reflexivity.
  - intros Hopen Hfresh.
    destruct (status_eqb (Ticket.status t) CLOSED) eqn:E;
      [apply status_eqb_eq in E; contradiction|].
    unfold reply_transaction, Prisma.create. rewrite Hmsg.
    assert (Ex : existsb
                   (message_collides
                      (TicketMessage.mk (Outside.messageId o) ticketId memberId
                         content (Outside.createdAt o)))
                   (Db.ticketMessages db) = false)
      by exact (proj2 (existsb_key_false TicketMessage.id
                         (Outside.messageId o) (Db.ticketMessages db)) Hfresh).
    rewrite Ex. eexists. reflexivity.
Qed.

End StatusGate.

Section Creation.

Import workspaceTickets ticketSchemas.

(** POST /workspaces/:workspaceId/tickets creates the ticket and its
    first message together or nothing: on 201 the store gained one
    ticket, OPEN and without priority, created by the caller in the
    workspace of the path, and one message; in every other outcome the
    store is what it was. *)
Theorem create_ticket_effect (o : Outside.t) (param : option string)
    (user : AuthUser.t) (body : CreateBody.t) (db : Db.t) :
  let out := POST_workspace_tickets o param user body db in
  match snd out with
  | Ok (ReplyJson status t) =>
      exists data,
        createTicketSchema body = inl data
        /\ status = 201
        /\ ~ In (Outside.ticketId o) (map Ticket.id (Db.tickets db))
        /\ ~ In (Outside.messageId o)
               (map TicketMessage.id (Db.ticketMessages db))
        /\ t = Ticket.mk (Outside.ticketId o) (Ticket.workspaceId t)
                 (AuthUser.id user) (CreateData.title data) OPEN None
                 (CreateData.category data) (Outside.createdAt o)
                 (Outside.updatedAt o)
        /\ param = Some (Ticket.workspaceId t)
        /\ fst out =
           Db.with_ticketMessages
             (Db.with_tickets db (Db.tickets db ++ [t])%list)
             (Db.ticketMessages db
              ++ [TicketMessage.mk (Outside.messageId o) (Outside.ticketId o)
                    (AuthUser.id user) (CreateData.message data)
                    (Outside.createdAt o)])%list
  | _ => fst out = db
  end.
Proof.
  cbv zeta. unfold POST_workspace_tickets.
  destruct (workspaceAccess.requireWorkspaceMemberFromParams db param (Some user))
    as [r|membership] eqn:Hmw; [reflexivity|].
  destruct (requireWorkspaceMemberFromParams_next _ _ _ _ Hmw)
    as (workspaceId & Hparam & Hnext).
  destruct (requireWorkspaceMember_next _ _ _ _ Hnext) as (Hid & _).
  unfold createTicket.
  destruct (createTicketSchema body) as [data|msg]; [|reflexivity].
  unfold create_transaction, Prisma.create.
  destruct (existsb _ (Db.tickets db)) eqn:Et; [reflexivity|].
  destruct (existsb _ (Db.ticketMessages db)) eqn:Em; [reflexivity|].
  cbn [fst snd]. exists data. split; [reflexivity|]. split; [reflexivity|].
  split; [exact (proj1 (existsb_key_false Ticket.id _ _) Et)|].
  split; [exact (proj1 (existsb_key_false TicketMessage.id _ _) Em)|].
  split; [reflexivity|]. split; [cbn; congruence | reflexivity].
Qed.

(** What a creation that answered with a ticket has done. *)
Lemma create_ticket_stored o param user body db db' status t :
  POST_workspace_tickets o param user body db
  = (db', Ok (ReplyJson status t)) ->
  exists data membership,
    createTicketSchema body = inl data
    /\ workspaceAccess.requireWorkspaceMemberFromParams db param (Some user)
       = Next membership
    /\ ~ In (Outside.ticketId o) (map Ticket.id (Db.tickets db))
    /\ t = Ticket.mk (Outside.ticketId o)
             (WorkspaceMembershipInfo.workspaceId membership)
             (AuthUser.id user) (CreateData.title data) OPEN None
             (CreateData.category data) (Outside.createdAt o)
             (Outside.updatedAt o)
    /\ db' =
       Db.with_ticketMessages
         (Db.with_tickets db (Db.tickets db ++ [t])%list)
         (Db.ticketMessages db
          ++ [TicketMessage.mk (Outside.messageId o) (Outside.ticketId o)
                (AuthUser.id user) (CreateData.message data)
                (Outside.createdAt o)])%list.
Proof.
  unfold POST_workspace_tickets, createTicket.
  destruct (workspaceAccess.requireWorkspaceMemberFromParams db param (Some user))
    as [r|membership]; [discriminate|].
  destruct (createTicketSchema body) as [data|msg]; [|discriminate].
  unfold create_transaction, Prisma.create.
  destruct (existsb _ (Db.tickets db)) eqn:Et; [discriminate|].
  destruct (existsb _ (Db.ticketMessages db)); [discriminate|].
  intros E. inversion E; subst db' status t. clear E.
  exists data, membership. split; [reflexivity|]. split; [reflexivity|].
  split; [exact (proj1 (existsb_key_false Ticket.id _ _) Et)|].
  split; reflexivity.
Qed.

(** The creator reads the new ticket back: after a 201,
    GET /tickets/:ticketId answers 200 for the creator with the ticket
    and a thread made of its first message, the message of the body
    written by the creator; and the primary key of the tickets still
    holds.  The messages are taken to refer to tickets of the store. *)
Theorem created_ticket_is_readable (o : Outside.t) (param : option string)
    (user : AuthUser.t) (body : CreateBody.t) (db db' : Db.t) (status : Z)
    (t : Ticket.t) :
  Constraints.tickets_pkey db ->
  (forall m, In m (Db.ticketMessages db) ->
     In (TicketMessage.ticketId m) (map Ticket.id (Db.tickets db))) ->
  POST_workspace_tickets o param user body db
  = (db', Ok (ReplyJson status t)) ->
  exists tw first,
    ticketsRoutes.GET_ticket db' (Ticket.id t) (AuthUser.id user)
    = Response.json 200 (TicketBody tw)
    /\ TicketWithMessages.ticket tw = t
    /\ TicketWithMessages.messages tw = [first]
    /\ TicketMessage.authorId first = AuthUser.id user
    /\ CreateBody.message body = Some (TicketMessage.content first)
    /\ Ticket.status t = OPEN
    /\ Ticket.createdByUserId t = AuthUser.id user
    /\ Constraints.tickets_pkey db'.
Proof.
  intros Hpk Hfk Hpost.
  destruct (create_ticket_stored _ _ _ _ _ _ _ _ Hpost)
    as (data & membership & Hs & Hmw & Hft & Ht & Hdb).
  destruct (requireWorkspaceMemberFromParams_next _ _ _ _ Hmw)
    as (workspaceId & Hparam' & Hnext).
  destruct (requireWorkspaceMember_next _ _ _ _ Hnext) as (Hws & _).
  assert (Hw : workspaceId = Ticket.workspaceId t)
    by (rewrite Ht; cbn; congruence).
  rewrite Hw in Hnext. clear Hws Hw Hparam' workspaceId.
  assert (Hid : Ticket.id t = Outside.ticketId o) by (rewrite Ht; reflexivity).
  assert (Hpk' : Constraints.tickets_pkey db').
  { unfold Constraints.tickets_pkey. rewrite Hdb.
    cbn [Db.tickets Db.with_tickets Db.with_ticketMessages].
    rewrite map_app. cbn [map]. rewrite Hid.
    apply NoDup_app; [exact Hpk | repeat constructor; intros [] |].
    intros x Hx [<-|[]]. exact (Hft Hx). }
  assert (Hnext' : workspaceAccess.requireWorkspaceMember db'
                     (Ticket.workspaceId t) (Some user) = Next membership).
  { rewrite <- Hnext. apply requireWorkspaceMember_ext; rewrite Hdb; reflexivity. }
  destruct (member_reads_ticket db' (Ticket.workspaceId t) user membership t
              Hpk' Hnext') as (tw & Hacc & Et).
  { rewrite Hdb. cbn. apply in_or_app. right. left. reflexivity. }
  { reflexivity. }
  { intros _. rewrite Ht. reflexivity. }
  exists tw. eexists. unfold ticketsRoutes.GET_ticket. rewrite Hacc.
  split; [reflexivity|]. split; [exact Et|].
  pose proof (access_check_some _ _ _ _ _ Hacc) as Hf.
  assert (Hmsgs : TicketWithMessages.messages tw
                  = ticketAccess.messages_of db' (Ticket.id t)).
  { revert Hf. unfold ticketAccess.ticket_findUnique.
    destruct (find _ (Db.tickets db')); [|discriminate].
    destruct (find _ (Db.workspaces db')); [|discriminate].
    intros E. inversion E. reflexivity. }
  rewrite Hmsgs. unfold ticketAccess.messages_of. rewrite Hdb.
  cbn [Db.ticketMessages Db.with_ticketMessages]. rewrite filter_app.
  rewrite filter_all_false.
  2: { intros m Hm. apply String.eqb_neq. intros E. apply Hft.
       rewrite <- Hid, <- E. apply Hfk. exact Hm. }
  cbn [filter app TicketMessage.ticketId]. rewrite Hid, String.eqb_refl.
  cbn [Prisma.orderBy fold_right Prisma.insert_by].
  split; [reflexivity|]. cbn [TicketMessage.authorId TicketMessage.content].
  split; [reflexivity|]. split.
  { revert Hs. unfold createTicketSchema, bounded.
    destruct (CreateBody.title body) as [ti|]; [|discriminate].
    destruct (Nat.ltb (String.length ti) 1); [discriminate|].
    destruct (Nat.ltb 200 (String.length ti)); [discriminate|].
    destruct (CreateBody.message body) as [me|]; [|discriminate].
    destruct (Nat.ltb (String.length me) 1); [discriminate|].
    destruct (Nat.ltb 5000 (String.length me)); [discriminate|].
    destruct (CreateBody.category body) as [c|].
    - destruct (Nat.ltb 50 (String.length c)); [discriminate|].
      intros E. inversion E. reflexivity.
    - intros E. inversion E. reflexivity. }
  split; [rewrite Ht; reflexivity|]. split; [rewrite Ht; reflexivity|].
  rewrite <- Hdb. exact Hpk'.
Qed.

End Creation.

(** *** The /auth router: footprint, login, logout *)

Section AuthFurther.

Import authRoutes Spec Footprint.

Variable sha256_hex : string -> string.
Variable jwt_sign : string -> string -> Z -> Z -> string.
Variable bcrypt_hashSync : string -> string -> string.
Variable bcrypt_compareSync : string -> string -> bool.
Variable signupSchema : AuthBody.t -> (string * string) + string.
Variable loginSchema : AuthBody.t -> (string * string) + string.

Local Abbreviation login :=
  (authRoutes.login sha256_hex jwt_sign bcrypt_compareSync loginSchema).
Local Abbreviation logout := (authRoutes.logout sha256_hex).
Local Abbreviation refresh := (authRoutes.refresh sha256_hex jwt_sign).
Local Abbreviation signup :=
  (authRoutes.signup sha256_hex jwt_sign bcrypt_hashSync signupSchema).
Local Abbreviation handle :=
  (authRoutes.handle sha256_hex jwt_sign bcrypt_hashSync bcrypt_compareSync
     signupSchema loginSchema).
Local Abbreviation serve :=
  (authRoutes.serve sha256_hex jwt_sign bcrypt_hashSync bcrypt_compareSync
     signupSchema loginSchema).

(** *** Footprints *)

Section Keeps.

Context {X : Type} (f : Db.t -> X).

Lemma kept_ret {A : Type} (a : A) : keeps f (ret a).
Proof. intros db. reflexivity. Qed.

Lemma kept_get : keeps f get.
Proof. intros db. reflexivity. Qed.

Lemma kept_lift {A : Type} (r : Result A) : keeps f (lift r).
Proof. intros db. reflexivity. Qed.

Lemma kept_bind {A B : Type} (m : M A) (k : A -> M B) :
  keeps f m -> (forall a, keeps f (k a)) -> keeps f (bind m k).
Proof.
  intros Hm Hk db. unfold bind. specialize (Hm db).
  destruct (m db) as [db' [a|e]]; cbn in *; [rewrite Hk|]; exact Hm.
Qed.

Hypothesis f_users : forall db x, f (Db.with_users db x) = f db.
Hypothesis f_workspaces : forall db x, f (Db.with_workspaces db x) = f db.
Hypothesis f_members : forall db x, f (Db.with_workspaceMembers db x) = f db.
Hypothesis f_sessions : forall db x, f (Db.with_refreshSessions db x) = f db.

Lemma kept_issue env o userId tok hash code :
  keeps f (setAuthCookiesAndRespond jwt_sign env o userId tok hash code).
Proof.
  unfold setAuthCookiesAndRespond.
  apply kept_bind; [|intros; apply kept_bind;
                         [apply kept_lift | intros; apply kept_ret]].
  intros db. unfold session_create. destruct (Prisma.create _ _ _); cbn; auto.
Qed.

Lemma kept_revoke where_ at_ : keeps f (session_revoke where_ at_).
Proof. intros db. unfold session_revoke. cbn. apply f_sessions. Qed.

Lemma kept_signup env o body : keeps f (signup env o body).
Proof.
  unfold authRoutes.signup.
  destruct (signupSchema body) as [[email password]|msg]; [|apply kept_ret].
  apply kept_bind; [apply kept_get|]. intros db0.
  destruct (find _ (Db.users db0)); [apply kept_ret|].
  destruct (parseEmailDomain email) as [domain|]; [|apply kept_ret].
  apply kept_bind.
  { intros db. unfold user_create. destruct (Prisma.create _ _ _); cbn; auto. }
  intros user. apply kept_bind; [apply kept_get|]. intros db1.
  apply kept_bind.
  { destruct (find _ (Db.workspaces db1)); [apply kept_ret|].
    intros db. unfold workspace_create.
    destruct (Prisma.create _ _ _); cbn; auto. }
  intros cw. apply kept_bind.
  { intros db. unfold member_create. destruct (Prisma.create _ _ _); cbn; auto. }
  intros _. apply kept_bind; [|intros; apply kept_issue].
  destruct (isSupportAgentDomain env email); [|apply kept_ret].
  apply kept_bind; [apply kept_get|]. intros db2.
  destruct (find _ (Db.workspaces db2)); [|apply kept_ret].
  intros db. unfold member_create. destruct (Prisma.create _ _ _); cbn; auto.
Qed.

Lemma kept_login env o body : keeps f (login env o body).
Proof.
  unfold authRoutes.login.
  destruct (loginSchema body) as [[email password]|msg]; [|apply kept_ret].
  apply kept_bind; [apply kept_get|]. intros db0.
  destruct (find _ (Db.users db0)) as [u|]; [|apply kept_ret].
  destruct (bcrypt_compareSync _ _); [apply kept_issue | apply kept_ret].
Qed.

Lemma kept_refresh env o cookie : keeps f (refresh env o cookie).
Proof.
  unfold authRoutes.refresh.
  destruct (truthy cookie) as [token|]; [|apply kept_ret].
  apply kept_bind; [apply kept_get|]. intros db0.
  destruct (find _ (Db.refreshSessions db0)) as [s|]; [|apply kept_ret].
  destruct (_ || _); [apply kept_ret|].
  apply kept_bind; [apply kept_revoke | intros; apply kept_issue].
Qed.

Lemma kept_logout o cookie : keeps f (logout o cookie).
Proof.
  unfold authRoutes.logout.
  apply kept_bind; [|intros; apply kept_ret].
  destruct (truthy cookie); [apply kept_revoke | apply kept_ret].
Qed.

End Keeps.

(** The /auth router never writes to the tickets or their messages;
    login, refresh and logout write to the session ledger only: users,
    workspaces and memberships are what they were. *)
Theorem auth_router_footprint (env : Env.t) (o : Outside.t) (r : Request)
    (db : Db.t) :
  let db' := fst (handle env o r db) in
  Db.tickets db' = Db.tickets db
  /\ Db.ticketMessages db' = Db.ticketMessages db
  /\ match r with
     | Signup _ => True
     | _ =>
         Db.users db' = Db.users db
         /\ Db.workspaces db' = Db.workspaces db
         /\ Db.workspaceMembers db' = Db.workspaceMembers db
     end.
Proof.
  cbv zeta. split; [|split].
  - destruct r; cbn [authRoutes.handle];
      [apply (kept_signup Db.tickets) | apply (kept_login Db.tickets)
      | apply (kept_refresh Db.tickets) | apply (kept_logout Db.tickets)];
      reflexivity.
  - destruct r; cbn [authRoutes.handle];
      [apply (kept_signup Db.ticketMessages)
      | apply (kept_login Db.ticketMessages)
      | apply (kept_refresh Db.ticketMessages)
      | apply (kept_logout Db.ticketMessages)];
      reflexivity.
  - destruct r; cbn [authRoutes.handle]; [exact I| | |].
    + split; [|split];
        [apply (kept_login Db.users) | apply (kept_login Db.workspaces)
        | apply (kept_login Db.workspaceMembers)]; reflexivity.
    + split; [|split];
        [apply (kept_refresh Db.users) | apply (kept_refresh Db.workspaces)
        | apply (kept_refresh Db.workspaceMembers)]; reflexivity.
    + split; [|split];
        [apply (kept_logout Db.users) | apply (kept_logout Db.workspaces)
        | apply (kept_logout Db.workspaceMembers)]; reflexivity.
Qed.

End AuthFurther.

Section Sessions.

Import authRoutes Spec.

Variable sha256_hex : string -> string.
Variable jwt_sign : string -> string -> Z -> Z -> string.
Variable bcrypt_hashSync : string -> string -> string.
Variable bcrypt_compareSync : string -> string -> bool.
Variable signupSchema : AuthBody.t -> (string * string) + string.
Variable loginSchema : AuthBody.t -> (string * string) + string.

Local Abbreviation login :=
  (authRoutes.login sha256_hex jwt_sign bcrypt_compareSync loginSchema).
Local Abbreviation logout := (authRoutes.logout sha256_hex).
Local Abbreviation refresh := (authRoutes.refresh sha256_hex jwt_sign).
Local Abbreviation signup :=
  (authRoutes.signup sha256_hex jwt_sign bcrypt_hashSync signupSchema).
Local Abbreviation handle :=
  (authRoutes.handle sha256_hex jwt_sign bcrypt_hashSync bcrypt_compareSync
     signupSchema loginSchema).
Local Abbreviation serve :=
  (authRoutes.serve sha256_hex jwt_sign bcrypt_hashSync bcrypt_compareSync
     signupSchema loginSchema).

Lemma login_accepts env o body db email password u :
  loginSchema body = inl (email, password) ->
  NoDup (map User.email (Db.users db)) ->
  In u (Db.users db) -> User.email u = email ->
  bcrypt_compareSync password (User.passwordHash u) = true ->
  secret_configured env ->
  fresh_session_id db (Outside.sessionId o) ->
  exists accessToken,
    login env o body db
    = (Db.with_refreshSessions db
         (Db.refreshSessions db
          ++ [RefreshSession.mk (Outside.sessionId o) (User.id u)
                (sha256_hex (Outside.refreshToken o))
                (Outside.issuedNow o + REFRESH_EXPIRES_MS)
                (Outside.issuedNow o) None])%list,
       Ok (Response.mk 200 (UserBody (User.id u))
             [SetAccessToken accessToken;
              SetRefreshToken (Outside.refreshToken o)]))
    /\ jwt.createAccessToken jwt_sign env (Outside.signedNow o) (User.id u)
       = Ok accessToken.
Proof.
  intros Hs Hnd Hin He Hpw (secret & Hsec) Hfresh.
  unfold authRoutes.login. rewrite Hs. unfold bind at 1. cbn [get].
  assert (Hf : find (fun x => String.eqb (User.email x) email) (Db.users db)
               = Some u).
  { apply (find_unique User.email); auto.
    - rewrite He. apply String.eqb_refl.
    - intros y _ Hy. apply String.eqb_eq in Hy. congruence. }
  rewrite Hf, Hpw. unfold refreshToken.hashRefreshToken.
  destruct (issue_effect jwt_sign env o (User.id u) (Outside.refreshToken o)
              (sha256_hex (Outside.refreshToken o)) 200 db)
    as [(Hcoll & _)|(_ & Hdb & Hresp)]; [destruct (Hfresh Hcoll)|].
  rewrite Hsec in Hresp.
  destruct (setAuthCookiesAndRespond _ _ _ _ _ _ _ _) as [db' res].
  cbn [fst snd] in Hdb, Hresp. subst db' res.
  unfold jwt.createAccessToken. rewrite Hsec.
  eexists. split; reflexivity.
Qed.

(** POST /auth/login gives one answer to every failed attempt: whether
    no user has the email or the password does not match, it answers 401
    INVALID_CREDENTIALS with the same message and leaves the store as it
    was. *)
Theorem login_rejection (env : Env.t) (o : Outside.t) (body : AuthBody.t)
    (db : Db.t) (email password : string) :
  loginSchema body = inl (email, password) ->
  (forall u, In u (Db.users db) -> User.email u = email ->
     bcrypt_compareSync password (User.passwordHash u) = false) ->
  login env o body db
  = (db, Ok (Response.error 401 "INVALID_CREDENTIALS"
               "Invalid email or password")).
Proof.
  intros Hs Hbad. unfold authRoutes.login. rewrite Hs.
  unfold bind at 1. cbn [get].
  destruct (find _ (Db.users db)) as [u|] eqn:Hf; [|reflexivity].
  apply find_some in Hf. destruct Hf as [Hin He]. apply String.eqb_eq in He.
  rewrite (Hbad u Hin He). reflexivity.
Qed.

(** POST /auth/login with the password of the user who has the email
    answers 200 with that user's id, an access token signed for them and
    a new refresh token; it adds one session, which stores the hash of
    that token and stays live for seven days. *)
Theorem login_success (env : Env.t) (o : Outside.t) (body : AuthBody.t)
    (db : Db.t) (email password : string) (u : User.t) :
  loginSchema body = inl (email, password) ->
  NoDup (map User.email (Db.users db)) ->
  In u (Db.users db) -> User.email u = email ->
  bcrypt_compareSync password (User.passwordHash u) = true ->
  secret_configured env ->
  fresh_session_id db (Outside.sessionId o) ->
  exists accessToken db',
    login env o body db
    = (db', Ok (Response.mk 200 (UserBody (User.id u))
                  [SetAccessToken accessToken;
                   SetRefreshToken (Outside.refreshToken o)]))
    /\ jwt.createAccessToken jwt_sign env (Outside.signedNow o) (User.id u)
       = Ok accessToken
    /\ db' = Db.with_refreshSessions db
               (Db.refreshSessions db
                ++ [RefreshSession.mk (Outside.sessionId o) (User.id u)
                      (sha256_hex (Outside.refreshToken o))
                      (Outside.issuedNow o + REFRESH_EXPIRES_MS)
                      (Outside.issuedNow o) None])%list
    /\ forall now, now <= Outside.issuedNow o + REFRESH_EXPIRES_MS ->
         live_session db' (sha256_hex (Outside.refreshToken o)) now.
Proof.
  intros Hs Hnd Hin He Hpw Hsec Hfresh.
  destruct (login_accepts env o body db email password u Hs Hnd Hin He Hpw
              Hsec Hfresh) as (accessToken & E & Htok).
  eexists _, _. split; [exact E|]. split; [exact Htok|].
  split; [reflexivity|]. intros now Hnow.
  eexists. split; [cbn; apply in_or_app; right; left; reflexivity|].
  cbn [RefreshSession.refreshTokenHash RefreshSession.revokedAt
       RefreshSession.expiresAt].
  split; [reflexivity|]. split; [reflexivity|].
  unfold REFRESH_EXPIRES_MS in *. lia.
Qed.


(** A refresh token only yields tokens for the user it was issued to:
    a refresh that answers 200 answers with the user of the session
    whose hash was presented, signs the access token for that user, and
    the one session it adds belongs to that user. *)
Theorem refresh_keeps_user (env : Env.t) (o : Outside.t)
    (cookie : option string) (db db' : Db.t) (resp : Response.t) :
  refresh env o cookie db = (db', Ok resp) -> Response.status resp = 200 ->
  exists token s accessToken,
    truthy cookie = Some token
    /\ In s (Db.refreshSessions db)
    /\ RefreshSession.refreshTokenHash s = sha256_hex token
    /\ resp = Response.mk 200 (UserBody (RefreshSession.userId s))
                [SetAccessToken accessToken;
                 SetRefreshToken (Outside.refreshToken o)]
    /\ jwt.createAccessToken jwt_sign env (Outside.signedNow o)
         (RefreshSession.userId s) = Ok accessToken
    /\ (forall s', In s' (Db.refreshSessions db') ->
          ~ In (RefreshSession.id s')
              (map RefreshSession.id (Db.refreshSessions db)) ->
          RefreshSession.userId s' = RefreshSession.userId s
          /\ RefreshSession.refreshTokenHash s'
             = sha256_hex (Outside.refreshToken o)).
Proof.
  intros E Hst.
  destruct (refresh_success sha256_hex jwt_sign env o cookie db db' resp E Hst)
    as (token & s & Ht & Hf & Hr & Hx & Hfresh & Hdb & Hck).
  revert E. unfold authRoutes.refresh, refreshToken.hashRefreshToken.
  rewrite Ht. unfold bind at 1. cbn [get]. rewrite Hf, Hr. cbn [orb].
  destruct (Z.ltb_spec (RefreshSession.expiresAt s) (Outside.now o));
    [contradiction|].
  unfold bind at 1. cbn [session_revoke].
  set (db1 := Db.with_refreshSessions db _). intros E.
  destruct (issue_effect jwt_sign env o (RefreshSession.userId s)
              (Outside.refreshToken o)
              (sha256_hex (Outside.refreshToken o)) 200 db1)
    as [(_ & _ & e & He)|(_ & _ & Hresp)].
  { rewrite E in He. cbn in He. discriminate. }
  rewrite E in Hresp. cbn [snd] in Hresp.
  apply find_some in Hf. destruct Hf as [Hin Hh]. apply String.eqb_eq in Hh.
  unfold jwt.createAccessToken in *.
  destruct (jwt.getSecret env) as [secret|]; [|discriminate].
  inversion Hresp; subst resp. clear Hresp.
  exists token, s. eexists. split; [reflexivity|]. split; [exact Hin|].
  split; [exact Hh|]. split; [reflexivity|]. split; [reflexivity|].
  intros s' Hin' Hnew. rewrite Hdb in Hin'. apply in_app_or in Hin'.
  destruct Hin' as [Hold|[<-|[]]]; [|split; reflexivity].
  exfalso. apply Hnew. rewrite <- (updateMany_ids
    (fun x => String.eqb (RefreshSession.id x) (RefreshSession.id s))
    (Outside.revokedNow o)).
  apply in_map. exact Hold.
Qed.

(** Whatever requests the /auth router serves: a revoked session stays
    revoked, the primary key of the sessions holds on, the hashes stay
    distinct as long as the tokens generated are new, and no session is
    ever removed. *)
Theorem ledger_invariants (env : Env.t) (rs : list (Outside.t * Request))
    (db : Db.t) :
  (forall hash, revoked_session db hash -> revoked_session (serve env rs db) hash)
  /\ (Constraints.sessions_pkey db -> Constraints.sessions_pkey (serve env rs db))
  /\ (Constraints.session_hashes_unique db ->
      fresh_tokens sha256_hex (handle env) rs db ->
      Constraints.session_hashes_unique (serve env rs db))
  /\ (forall id, In id (map RefreshSession.id (Db.refreshSessions db)) ->
        In id (map RefreshSession.id (Db.refreshSessions (serve env rs db)))).
Proof.
  split; [intros hash; apply serve_revoked|].
  split; [apply serve_ids|]. split; [apply serve_hashes_unique|].
  revert db. induction rs as [|[o r] rs IH]; intros db id Hin; [exact Hin|].
  cbn [authRoutes.serve]. apply IH.
  destruct (step_handle sha256_hex jwt_sign bcrypt_hashSync bcrypt_compareSync
              signupSchema loginSchema env o r db)
    as (where_ & at_ & news & E & _).
  rewrite E, map_app, updateMany_ids. apply in_or_app. left. exact Hin.
Qed.


(** Who has signed up can log in: after a signup that answered 201,
    a login with the same email and password answers 200 for the user
    the signup created and hands out a new refresh token, provided
    bcrypt verifies the password against the hash it made of it. *)
Theorem signup_then_login (env : Env.t) (o o' : Outside.t)
    (body : AuthBody.t) (email password domain : string) (db : Db.t) :
  signupSchema body = inl (email, password) ->
  loginSchema body = inl (email, password) ->
  parseEmailDomain email = Some domain ->
  secret_configured env ->
  Constraints.workspaces_pkey db -> domains_are_customers db ->
  fresh_keys db o ->
  NoDup (map User.email (Db.users db)) ->
  (forall u, In u (Db.users db) -> User.email u <> email) ->
  bcrypt_compareSync password (bcrypt_hashSync password (Outside.salt o))
  = true ->
  Outside.sessionId o' <> Outside.sessionId o ->
  fresh_session_id db (Outside.sessionId o') ->
  let out1 := signup env o body db in
  let out2 := login env o' body (fst out1) in
  (exists accessToken,
     snd out1 = Ok (Response.mk 201 (UserBody (Outside.userId o))
                      [SetAccessToken accessToken;
                       SetRefreshToken (Outside.refreshToken o)]))
  /\ (exists accessToken,
        snd out2 = Ok (Response.mk 200 (UserBody (Outside.userId o))
                         [SetAccessToken accessToken;
                          SetRefreshToken (Outside.refreshToken o')]))
  /\ Db.users (fst out2) = Db.users (fst out1)
  /\ List.length (Db.refreshSessions (fst out2))
     = (2 + List.length (Db.refreshSessions db))%nat.
Proof.
  intros Hs Hl Hdom Hsec Hwpk Hcust Hfresh Hnd Hemail Hbc Hsid Hfs2.
  destruct Hsec as (secret & Hsec).
  pose proof (signup_run sha256_hex jwt_sign bcrypt_hashSync signupSchema env o
                body email password domain db secret
                Hs Hdom Hsec Hwpk Hcust Hfresh Hemail) as Hrun.
  cbv zeta in Hrun |- *. rewrite Hrun. cbn [fst snd].
  split; [eexists; reflexivity|].
  set (user := User.mk (Outside.userId o) email
                 (bcrypt_hashSync password (Outside.salt o))
                 (isSupportAgentDomain env email)).
  set (db1 := Db.mk _ _ _ _ _ _).
  destruct (login_accepts env o' body db1 email password user) as (tok & E & _).
  - exact Hl.
  - subst db1. cbn [Db.users]. rewrite map_app. cbn [map].
    apply NoDup_app; [exact Hnd | repeat constructor; intros [] |].
    intros x Hx [<-|[]]. apply in_map_iff in Hx.
    destruct Hx as (u & Eu & Hu). exact (Hemail u Hu Eu).
  - subst db1. cbn [Db.users]. apply in_or_app. right. left. reflexivity.
  - reflexivity.
  - exact Hbc.
  - exists secret. exact Hsec.
  - unfold fresh_session_id. subst db1. cbn [Db.refreshSessions].
    rewrite map_app. cbn [map RefreshSession.id]. intros Hin.
    apply in_app_or in Hin. destruct Hin as [Hin|[Hin|[]]];
      [exact (Hfs2 Hin) | exact (Hsid (eq_sym Hin))].
  - rewrite E. cbn [fst snd]. split; [eexists; reflexivity|].
    split; [reflexivity|]. subst db1.
    cbn [Db.refreshSessions Db.with_refreshSessions].
    rewrite !length_app. cbn. lia.
Qed.

End Sessions.

(** [requireAuth] answers 401 UNAUTHORIZED whenever it does not call
    [next()]; when it does, the cookie held a token that verifies under
    the configured secret, and the user attached is a row of the users
    table whose id is the subject of the token. *)
Theorem requireAuth_sound
    (jwt_verify : string -> string -> Z -> Result (option string))
    (env : Env.t) (now : Z) (db : Db.t) (token : option string) :
  match requireAuth.requireAuth jwt_verify env now db token with
  | Next user =>
      exists tok secret row,
        token = Some tok /\ tok <> ""
        /\ jwt.getSecret env = Ok secret
        /\ jwt_verify tok secret (now / 1000) = Ok (Some (AuthUser.id user))
        /\ AuthUser.id user <> ""
        /\ In row (Db.users db)
        /\ user = AuthUser.mk (User.id row) (User.email row)
                    (User.isSupportAgent row)
  | Respond r =>
      exists message, r = Response.error 401 "UNAUTHORIZED" message
  end.
Proof.
  unfold requireAuth.requireAuth, jwt.verifyAccessToken.
  destruct token as [tok|]; [|eexists; reflexivity].
  destruct (String.eqb_spec tok ""); [eexists; reflexivity|].
  destruct (jwt.getSecret env) as [secret|e]; [|eexists; reflexivity].
  destruct (jwt_verify tok secret (now / 1000)) as [[sub|]|e] eqn:Hv;
    try (eexists; reflexivity).
  destruct (String.eqb_spec sub ""); [eexists; reflexivity|].
  destruct (find _ (Db.users db)) as [row|] eqn:Hf; [|eexists; reflexivity].
  apply find_some in Hf. destruct Hf as [Hin Hid]. apply String.eqb_eq in Hid.
  exists tok, secret, row. cbn [AuthUser.id]. rewrite Hid.
  repeat split; auto.
Qed.

(** *** The domain of an email *)

Section EmailDomain.

Import authRoutes.












End EmailDomain.

(** *** Signup and the constraints of the schema *)

Section SignupInvariants.

Import authRoutes Spec.

Variable sha256_hex : string -> string.
Variable jwt_sign : string -> string -> Z -> Z -> string.
Variable bcrypt_hashSync : string -> string -> string.
Variable signupSchema : AuthBody.t -> (string * string) + string.

Local Abbreviation signup :=
  (authRoutes.signup sha256_hex jwt_sign bcrypt_hashSync signupSchema).

Lemma NoDup_snoc {A : Type} (l : list A) (x : A) :
  NoDup l -> ~ In x l -> NoDup (l ++ [x]).
Proof.
  intros Hl Hx. apply NoDup_app; [exact Hl | repeat constructor; intros [] |].
  intros y Hy [<-|[]]. exact (Hx Hy).
Qed.

(** Signup re-establishes the constraints of the schema it relies on. *)
Theorem signup_keeps_constraints (env : Env.t) (o : Outside.t)
    (body : AuthBody.t) (email password domain : string) (db : Db.t) :
  signupSchema body = inl (email, password) ->
  parseEmailDomain email = Some domain ->
  secret_configured env ->
  fresh_keys db o ->
  Constraints.workspaces_pkey db -> domains_are_customers db ->
  Constraints.members_unique db -> Constraints.sessions_pkey db ->
  NoDup (map User.id (Db.users db)) -> NoDup (map User.email (Db.users db)) ->
  let db' := fst (signup env o body db) in
  Constraints.workspaces_pkey db' /\ domains_are_customers db'
  /\ Constraints.members_unique db' /\ Constraints.sessions_pkey db'
  /\ NoDup (map User.id (Db.users db'))
  /\ NoDup (map User.email (Db.users db'))
  /\ Db.tickets db' = Db.tickets db
  /\ (forall u, In u (Db.users db) -> In u (Db.users db'))
  /\ (forall m, In m (Db.workspaceMembers db) -> In m (Db.workspaceMembers db')).
Proof.
  intros Hschema Hdom (secret & Hsec) Hfresh Hwpk Hcust Hmu Hspk Huid Huem.
  cbv zeta.
  destruct (find (fun u => String.eqb (User.email u) email) (Db.users db))
    as [u|] eqn:Hfind.
  { assert (E : signup env o body db
                = (db, Ok (Response.error 400 "EMAIL_TAKEN"
                             "Email already registered"))).
    { unfold authRoutes.signup. rewrite Hschema. unfold bind at 1. cbn [get].
      rewrite Hfind. reflexivity. }
    rewrite E. cbn [fst]. repeat split; auto. }
  assert (Hemail : forall u, In u (Db.users db) -> User.email u <> email).
  { intros u Hin He. pose proof (find_none _ _ Hfind u Hin) as Hn.
    cbn beta in Hn. rewrite He, String.eqb_refl in Hn. discriminate. }
  pose proof (signup_run sha256_hex jwt_sign bcrypt_hashSync signupSchema env o
                body email password domain db secret
                Hschema Hdom Hsec Hwpk Hcust Hfresh Hemail) as Hrun.
  cbv zeta in Hrun. rewrite Hrun. clear Hrun.
  cbn [fst]. unfold Constraints.workspaces_pkey, domains_are_customers,
    Constraints.members_unique, Constraints.sessions_pkey.
  cbn [Db.users Db.workspaces Db.workspaceMembers Db.refreshSessions Db.tickets].
  destruct Hfresh as (Hfu & Hfm & Hfw & Hfm1 & Hfm2 & Hne & Hfs).
  set (found := find _ (Db.workspaces db)).
  set (wnew := Workspace.mk (Outside.workspaceId o) domain (Some domain)
                 CUSTOMER).
  set (cw := match found with Some w => w | None => wnew end).
  set (workspaces' := match found with
                      | Some _ => Db.workspaces db
                      | None => (Db.workspaces db ++ [wnew])%list
                      end).
  assert (Hwpk' : NoDup (map Workspace.id workspaces')).
  { subst workspaces'. destruct found; [exact Hwpk|].
    rewrite map_app. apply NoDup_snoc; assumption. }
  assert (Hcust' : forall w, In w workspaces' -> Workspace.domain w <> None ->
                     Workspace.kind w = CUSTOMER).
  { subst workspaces'. destruct found; [exact Hcust|].
    intros w Hin. apply in_app_or in Hin.
    destruct Hin as [Hin|[<-|[]]]; [apply Hcust; exact Hin | reflexivity]. }
  assert (Hcw : In cw workspaces' /\ Workspace.kind cw = CUSTOMER).
  { subst cw workspaces'. destruct found as [w|] eqn:Hf.
    - apply find_domain_some in Hf. destruct Hf as [Hin Hd].
      split; [exact Hin|]. apply Hcust; [exact Hin | congruence].
    - split; [apply in_or_app; right; left; reflexivity | reflexivity]. }
  split; [exact Hwpk'|]. split; [exact Hcust'|]. split.
  { rewrite !map_app. cbn [map WorkspaceMember.workspaceId WorkspaceMember.userId].
    assert (Hold : forall k, ~ In (k, Outside.userId o)
              (map (fun m => (WorkspaceMember.workspaceId m,
                              WorkspaceMember.userId m))
                 (Db.workspaceMembers db))).
    { intros k Hin. apply in_map_iff in Hin. destruct Hin as (m & E & Hin).
      inversion E. exact (Hfm m Hin H1). }
    assert (H1 : NoDup
              (map (fun m => (WorkspaceMember.workspaceId m,
                              WorkspaceMember.userId m))
                 (Db.workspaceMembers db)
               ++ [(Workspace.id cw, Outside.userId o)])%list)
      by (apply NoDup_snoc; [exact Hmu | apply Hold]).
    destruct (isSupportAgentDomain env email); [|rewrite app_nil_r; exact H1].
    destruct (find _ workspaces') as [ops|] eqn:Ho;
      [|rewrite app_nil_r; exact H1].
    cbn [map WorkspaceMember.workspaceId WorkspaceMember.userId].
    apply NoDup_snoc; [exact H1|].
    intros Hin. apply in_app_or in Hin. destruct Hin as [Hin|[E|[]]].
    - exact (Hold _ Hin).
    - inversion E as [Eid]. apply find_some in Ho. destruct Ho as [Hoin Hok].
      apply kind_eqb_eq in Hok. destruct Hcw as [Hcin Hck].
      assert (cw = ops)
        by (apply (nodup_map_inj Workspace.id workspaces'); auto).
      congruence. }
  split; [rewrite map_app; apply NoDup_snoc; assumption|].
  split; [rewrite map_app; apply NoDup_snoc; assumption|].
  split.
  { rewrite map_app. apply NoDup_snoc; [exact Huem|]. cbn.
    intros Hin. apply in_map_iff in Hin. destruct Hin as (u & E & Hin).
    exact (Hemail u Hin E). }
  split; [reflexivity|]. split.
  - intros u Hin. apply in_or_app. left. exact Hin.
  - intros m Hin. apply in_or_app. left. apply in_or_app. left. exact Hin.
Qed.

End SignupInvariants.

(** *** The thread of a ticket *)

Lemma StronglySorted_impl {A : Type} (R R' : A -> A -> Prop) (l : list A) :
  (forall a b, R a b -> R' a b) -> StronglySorted R l -> StronglySorted R' l.
Proof.
  intros HR. induction 1 as [|a l Hs IH Ha]; constructor; [exact IH|].
  rewrite Forall_forall in *. intros x Hx. apply HR, Ha, Hx.
Qed.

(** The thread GET /tickets/:ticketId shows is the thread of the ticket
    of the path, oldest message first: it holds the messages of that
    ticket, each once, and no message is dated before one that comes
    earlier in it. *)
Theorem thread_is_chronological (db : Db.t) (ticketId userId : string)
    (tw : TicketWithMessages.t) :
  ticketsRoutes.GET_ticket db ticketId userId
  = Response.json 200 (TicketBody tw) ->
  Ticket.id (TicketWithMessages.ticket tw) = ticketId
  /\ Permutation (TicketWithMessages.messages tw)
       (filter (fun m => String.eqb (TicketMessage.ticketId m) ticketId)
          (Db.ticketMessages db))
  /\ StronglySorted
       (fun a b => TicketMessage.createdAt a <= TicketMessage.createdAt b)
       (TicketWithMessages.messages tw).
Proof.
  unfold ticketsRoutes.GET_ticket.
  destruct (ticketAccess.getTicketWithAccessCheck db ticketId userId _)
    as [tw'|] eqn:Hacc; [|discriminate].
  intros E. inversion E; subst tw'. clear E.
  pose proof (access_check_some _ _ _ _ _ Hacc) as Hf.
  destruct (ticket_findUnique_some _ _ _ Hf) as (_ & Hid & _).
  split; [exact Hid|].
  assert (Hm : TicketWithMessages.messages tw
               = ticketAccess.messages_of db ticketId).
  { revert Hf. unfold ticketAccess.ticket_findUnique.
    destruct (find _ (Db.tickets db)); [|discriminate].
    destruct (find _ (Db.workspaces db)); [|discriminate].
    intros E. inversion E. reflexivity. }
  rewrite Hm. unfold ticketAccess.messages_of. split; [apply orderBy_perm|].
  apply (StronglySorted_impl
           (fun a b =>
              (TicketMessage.createdAt a <=? TicketMessage.createdAt b) = true)).
  { intros a b H. apply Z.leb_le. exact H. }
  apply Sorted_StronglySorted.
  - intros a b c Hab Hbc. apply Z.leb_le. apply Z.leb_le in Hab, Hbc. lia.
  - apply orderBy_sorted. intros a b H. apply Z.leb_le. apply Z.leb_gt in H.
    lia.
Qed.

(** *** The further theorems on the sample store *)

Lemma listed_tickets_are_readable_witness :
  (List.length
     [Ticket.mk "t2" "w-demo" "u-member" "Invoice missing" CLOSED None
        None 2000 2500] <= 50)%nat
  /\ Forall (fun t =>
       In t (Db.tickets Sample.db)
       /\ Some (Ticket.workspaceId t) = Some "w-demo"
       /\ exists tw,
            ticketsRoutes.GET_ticket Sample.db (Ticket.id t)
              (AuthUser.id (AuthUser.mk "u-member" "member@demo.local" false))
            = Response.json 200 (TicketBody tw)
            /\ TicketWithMessages.ticket tw = t)
       [Ticket.mk "t2" "w-demo" "u-member" "Invoice missing" CLOSED None
          None 2000 2500].
Proof.
  apply (listed_tickets_are_readable (fun _ => None) Sample.db (Some "w-demo")
           (AuthUser.mk "u-member" "member@demo.local" false)
           (workspacesRoutes.Query.mk None (Some "1") None None)
           _ (Some "1970-01-01T00:00:02.000Z|t2") sample_tickets_pkey).
  vm_compute. reflexivity.
Defined.

Lemma admin_update_access_witness :
  ticketAccess.getTicketForAdminUpdate Sample.db "t1" "u-member" false = None.
Proof.
  refine (proj2 (proj2 (admin_update_access Sample.db "t1" "u-member" false
                          sample_workspaces_pkey sample_members_unique))
            (TicketWithMessages.mk
               (Ticket.mk "t1" "w-demo" "u-member" "Cannot log in" OPEN
                  (Some HIGH) None 1000 1000)
               CUSTOMER
               [TicketMessage.mk "msg1" "t1" "u-member" "I cannot log in" 1000])
            _ _ _).
  - reflexivity.
  - reflexivity.
  - exists (WorkspaceMember.mk "m2" "w-demo" "u-member" MEMBER).
    cbn. intuition.
Defined.

Lemma sample_one_support_ops :
  forall a b, In a (Db.workspaces Sample.db) -> In b (Db.workspaces Sample.db) ->
    Workspace.kind a = SUPPORT_OPS -> Workspace.kind b = SUPPORT_OPS -> a = b.
Proof.
  intros a b Ha Hb. cbn in Ha, Hb.
  destruct Ha as [<-|[<-|[<-|[]]]]; destruct Hb as [<-|[<-|[<-|[]]]]; cbn;
    intros; congruence.
Qed.

Lemma listed_workspaces_are_open_witness :
  Spec.elevated_agent Sample.db "u-admin"
  /\ (forall w, In w (Db.workspaces Sample.db) -> Workspace.kind w = CUSTOMER ->
        In (w, ADMIN)
          [(Workspace.mk "w-demo" "demo.local" (Some "demo.local") CUSTOMER,
            ADMIN);
           (Workspace.mk "w-example" "example.com" (Some "example.com")
              CUSTOMER, ADMIN);
           (Workspace.mk "w-ops" "Support Ops" None SUPPORT_OPS, ADMIN)])
  /\ Forall (fun wr =>
       workspaceAccess.requireWorkspaceMember Sample.db (Workspace.id (fst wr))
         (Some (AuthUser.mk "u-admin" "admin@demo.local" true))
       = Next (WorkspaceMembershipInfo.mk (Workspace.id (fst wr)) (snd wr)))
       [(Workspace.mk "w-demo" "demo.local" (Some "demo.local") CUSTOMER,
         ADMIN);
        (Workspace.mk "w-example" "example.com" (Some "example.com")
           CUSTOMER, ADMIN);
        (Workspace.mk "w-ops" "Support Ops" None SUPPORT_OPS, ADMIN)].
Proof.
  apply (listed_workspaces_are_open Sample.db
           (AuthUser.mk "u-admin" "admin@demo.local" true) 200 _
           sample_workspaces_pkey sample_members_unique sample_one_support_ops).
  reflexivity.
Defined.

Lemma patch_then_read_witness :
  exists tw,
    ticketsRoutes.GET_ticket
      (fst (ticketPatch.PATCH_ticket 9000 "t1" "u-admin"
              (ticketSchemas.PatchBody.mk (ticketSchemas.StatusValue RESOLVED)
                 ticketSchemas.PriorityNull) Sample.db))
      "t1" "u-admin"
    = Response.json 200 (TicketBody tw)
    /\ TicketWithMessages.ticket tw
       = Ticket.mk "t1" "w-demo" "u-member" "Cannot log in" RESOLVED None
           None 1000 9000
    /\ TicketWithMessages.messages tw = ticketAccess.messages_of Sample.db "t1".
Proof.
  apply (patch_then_read 9000 "t1" "u-admin"
           (ticketSchemas.PatchBody.mk (ticketSchemas.StatusValue RESOLVED)
              ticketSchemas.PriorityNull) Sample.db _ 200).
  reflexivity.
Defined.

Lemma patch_status_gates_member_reply_witness :
  let db' :=
    fst (ticketPatch.PATCH_ticket 9000 "t3" "u-owner"
           (ticketSchemas.PatchBody.mk (ticketSchemas.StatusValue CLOSED)
              ticketSchemas.NoPriority) Sample.db) in
  ticketsRoutes.POST_message (ticketsRoutes.Outside.mk "msg9" 9500 9500)
    "t3" "u-member2" (Some "Any news?") db'
  = (db', Ok (Response.error 403 "TICKET_CLOSED"
                "This ticket is closed. New replies are not allowed.")).
Proof.
  refine (proj1 (patch_status_gates_member_reply 9000 "t3" "u-owner"
            (ticketSchemas.PatchBody.mk (ticketSchemas.StatusValue CLOSED)
               ticketSchemas.NoPriority) Sample.db _ 200
            (Ticket.mk "t3" "w-example" "u-member2" "Feature request" CLOSED
               (Some LOW) None 3000 9000)
            (ticketsRoutes.Outside.mk "msg9" 9500 9500) "u-member2"
            (Some "Any news?") "Any news?" _ sample_members_unique _ _ _ _) _).
  - reflexivity.
  - exists (WorkspaceMember.mk "m3" "w-example" "u-member2" MEMBER).
    cbn. intuition.
  - reflexivity.
  - intros H. apply isSupportAgent_iff in H. discriminate H.
  - reflexivity.
  - reflexivity.
Defined.

Lemma sample_messages_fkey :
  forall m, In m (Db.ticketMessages Sample.db) ->
    In (TicketMessage.ticketId m) (map Ticket.id (Db.tickets Sample.db)).
Proof.
  intros m Hin. cbn in Hin. destruct Hin as [<-|[<-|[]]]; cbn; auto.
Qed.

Lemma created_ticket_is_readable_witness :
  let db' :=
    fst (workspaceTickets.POST_workspace_tickets
           (workspaceTickets.Outside.mk "t9" "msg9" 9000 9000) (Some "w-demo")
           (AuthUser.mk "u-member" "member@demo.local" false)
           (ticketSchemas.CreateBody.mk (Some "Printer") (Some "It is on fire")
              None) Sample.db) in
  let t :=
    Ticket.mk "t9" "w-demo" "u-member" "Printer" OPEN None None 9000 9000 in
  exists tw first,
    ticketsRoutes.GET_ticket db' (Ticket.id t)
      (AuthUser.id (AuthUser.mk "u-member" "member@demo.local" false))
    = Response.json 200 (TicketBody tw)
    /\ TicketWithMessages.ticket tw = t
    /\ TicketWithMessages.messages tw = [first]
    /\ TicketMessage.authorId first
       = AuthUser.id (AuthUser.mk "u-member" "member@demo.local" false)
    /\ ticketSchemas.CreateBody.message
         (ticketSchemas.CreateBody.mk (Some "Printer") (Some "It is on fire")
            None)
       = Some (TicketMessage.content first)
    /\ Ticket.status t = OPEN
    /\ Ticket.createdByUserId t
       = AuthUser.id (AuthUser.mk "u-member" "member@demo.local" false)
    /\ Constraints.tickets_pkey db'.
Proof.
  cbv zeta.
  apply (created_ticket_is_readable
           (workspaceTickets.Outside.mk "t9" "msg9" 9000 9000) (Some "w-demo")
           (AuthUser.mk "u-member" "member@demo.local" false)
           (ticketSchemas.CreateBody.mk (Some "Printer") (Some "It is on fire")
              None) Sample.db _ 201 _ sample_tickets_pkey sample_messages_fkey).
  reflexivity.
Defined.

Lemma login_rejection_witness :
  authRoutes.login Sample.sha256_hex Sample.jwt_sign Sample.bcrypt_compareSync
    Sample.authSchema Sample.env (Sample.outside 1000 "T7" "l")
    (authRoutes.AuthBody.mk (Some "member@demo.local") (Some "Guess12345"))
    Sample.db
  = (Sample.db, Ok (Response.error 401 "INVALID_CREDENTIALS"
                      "Invalid email or password")).
Proof.
  apply (login_rejection Sample.sha256_hex Sample.jwt_sign
           Sample.bcrypt_compareSync Sample.authSchema Sample.env
           (Sample.outside 1000 "T7" "l")
           (authRoutes.AuthBody.mk (Some "member@demo.local")
              (Some "Guess12345"))
           Sample.db "member@demo.local" "Guess12345").
  - reflexivity.
  - intros u Hin. cbn in Hin.
    destruct Hin as [<-|[<-|[<-|[<-|[]]]]]; cbn; intros E;
      first [discriminate E | reflexivity].
Defined.

Lemma sample_emails_unique : NoDup (map User.email (Db.users Sample.db)).
Proof.
  cbn. repeat (constructor; [cbn; intuition congruence|]). constructor.
Qed.

Lemma sample_user_ids_unique : NoDup (map User.id (Db.users Sample.db)).
Proof.
  cbn. repeat (constructor; [cbn; intuition congruence|]). constructor.
Qed.

Lemma login_success_witness :
  exists accessToken db',
    authRoutes.login Sample.sha256_hex Sample.jwt_sign
      Sample.bcrypt_compareSync Sample.authSchema Sample.env
      (Sample.outside 1000 "T7" "l")
      (authRoutes.AuthBody.mk (Some "member@demo.local") (Some "Member123!"))
      Sample.db
    = (db', Ok (Response.mk 200 (UserBody "u-member")
                  [SetAccessToken accessToken; SetRefreshToken "T7"]))
    /\ jwt.createAccessToken Sample.jwt_sign Sample.env 1000 "u-member"
       = Ok accessToken
    /\ db' = Db.with_refreshSessions Sample.db
               (Db.refreshSessions Sample.db
                ++ [RefreshSession.mk "s-l" "u-member" (Sample.sha256_hex "T7")
                      (1000 + authRoutes.REFRESH_EXPIRES_MS) 1000 None])%list
    /\ forall now, now <= 1000 + authRoutes.REFRESH_EXPIRES_MS ->
         Spec.live_session db' (Sample.sha256_hex "T7") now.
Proof.
  refine (login_success Sample.sha256_hex Sample.jwt_sign
            Sample.bcrypt_compareSync Sample.authSchema Sample.env
            (Sample.outside 1000 "T7" "l")
            (authRoutes.AuthBody.mk (Some "member@demo.local")
               (Some "Member123!"))
            Sample.db "member@demo.local" "Member123!"
            (User.mk "u-member" "member@demo.local" "bcrypt:s:Member123!" false)
            _ sample_emails_unique _ _ _ sample_secret_configured _).
  - reflexivity.
  - cbn. right. left. reflexivity.
  - reflexivity.
  - reflexivity.
  - unfold Spec.fresh_session_id. cbn. intros [H|[]]. discriminate H.
Defined.

Lemma refresh_keeps_user_witness :
  exists token s accessToken,
    authRoutes.truthy (Some "T1") = Some token
    /\ In s (Db.refreshSessions Sample.db)
    /\ RefreshSession.refreshTokenHash s = Sample.sha256_hex token
    /\ Response.mk 200 (UserBody "u-member")
         [SetAccessToken "jwt:u-member"; SetRefreshToken "T2"]
       = Response.mk 200 (UserBody (RefreshSession.userId s))
           [SetAccessToken accessToken;
            SetRefreshToken
              (authRoutes.Outside.refreshToken (Sample.outside 1000 "T2" "a"))]
    /\ jwt.createAccessToken Sample.jwt_sign Sample.env
         (authRoutes.Outside.signedNow (Sample.outside 1000 "T2" "a"))
         (RefreshSession.userId s) = Ok accessToken
    /\ (forall s',
          In s'
            (Db.refreshSessions
               (fst (authRoutes.refresh Sample.sha256_hex Sample.jwt_sign
                       Sample.env (Sample.outside 1000 "T2" "a") (Some "T1")
                       Sample.db))) ->
          ~ In (RefreshSession.id s')
              (map RefreshSession.id (Db.refreshSessions Sample.db)) ->
          RefreshSession.userId s' = RefreshSession.userId s
          /\ RefreshSession.refreshTokenHash s'
             = Sample.sha256_hex
                 (authRoutes.Outside.refreshToken
                    (Sample.outside 1000 "T2" "a"))).
Proof.
  apply (refresh_keeps_user Sample.sha256_hex Sample.jwt_sign Sample.env
           (Sample.outside 1000 "T2" "a") (Some "T1") Sample.db
           (fst (authRoutes.refresh Sample.sha256_hex Sample.jwt_sign
                   Sample.env (Sample.outside 1000 "T2" "a") (Some "T1")
                   Sample.db))
           (Response.mk 200 (UserBody "u-member")
              [SetAccessToken "jwt:u-member"; SetRefreshToken "T2"])).
  - reflexivity.
  - reflexivity.
Defined.

Lemma signup_then_login_witness :
  let out1 :=
    authRoutes.signup Sample.sha256_hex Sample.jwt_sign Sample.bcrypt_hashSync
      Sample.authSchema Sample.env (Sample.outside 1000 "T9" "x")
      (authRoutes.AuthBody.mk (Some "New@Example.com") (Some "Passw0rd!"))
      Sample.db in
  let out2 :=
    authRoutes.login Sample.sha256_hex Sample.jwt_sign
      Sample.bcrypt_compareSync Sample.authSchema Sample.env
      (Sample.outside 2000 "T10" "y")
      (authRoutes.AuthBody.mk (Some "New@Example.com") (Some "Passw0rd!"))
      (fst out1) in
  (exists accessToken,
     snd out1 = Ok (Response.mk 201 (UserBody "u-x")
                      [SetAccessToken accessToken; SetRefreshToken "T9"]))
  /\ (exists accessToken,
        snd out2 = Ok (Response.mk 200 (UserBody "u-x")
                         [SetAccessToken accessToken; SetRefreshToken "T10"]))
  /\ Db.users (fst out2) = Db.users (fst out1)
  /\ List.length (Db.refreshSessions (fst out2))
     = (2 + List.length (Db.refreshSessions Sample.db))%nat.
Proof.
  refine (signup_then_login Sample.sha256_hex Sample.jwt_sign
            Sample.bcrypt_hashSync Sample.bcrypt_compareSync Sample.authSchema
            Sample.authSchema Sample.env (Sample.outside 1000 "T9" "x")
            (Sample.outside 2000 "T10" "y")
            (authRoutes.AuthBody.mk (Some "New@Example.com")
               (Some "Passw0rd!"))
            "New@Example.com" "Passw0rd!" "example.com" Sample.db
            _ _ _ sample_secret_configured sample_workspaces_pkey
            sample_domains_are_customers sample_fresh_keys
            sample_emails_unique _ _ _ _).
  - reflexivity.
  - reflexivity.
  - reflexivity.
  - intros u Hin. cbn in Hin.
    destruct Hin as [<-|[<-|[<-|[<-|[]]]]]; cbn; discriminate.
  - reflexivity.
  - discriminate.
  - unfold Spec.fresh_session_id. cbn. intros [H|[]]. discriminate H.
Defined.

Lemma signup_keeps_constraints_witness :
  let db' :=
    fst (authRoutes.signup Sample.sha256_hex Sample.jwt_sign
           Sample.bcrypt_hashSync Sample.authSchema Sample.env
           (Sample.outside 1000 "T9" "x")
           (authRoutes.AuthBody.mk (Some "Agent@HelpNest.io")
              (Some "Passw0rd!"))
           Sample.db) in
  Constraints.workspaces_pkey db' /\ Spec.domains_are_customers db'
  /\ Constraints.members_unique db' /\ Constraints.sessions_pkey db'
  /\ NoDup (map User.id (Db.users db'))
  /\ NoDup (map User.email (Db.users db'))
  /\ Db.tickets db' = Db.tickets Sample.db
  /\ (forall u, In u (Db.users Sample.db) -> In u (Db.users db'))
  /\ (forall m, In m (Db.workspaceMembers Sample.db) ->
        In m (Db.workspaceMembers db')).
Proof.
  refine (signup_keeps_constraints Sample.sha256_hex Sample.jwt_sign
            Sample.bcrypt_hashSync Sample.authSchema Sample.env
            (Sample.outside 1000 "T9" "x")
            (authRoutes.AuthBody.mk (Some "Agent@HelpNest.io")
               (Some "Passw0rd!"))
            "Agent@HelpNest.io" "Passw0rd!" "helpnest.io" Sample.db
            _ _ sample_secret_configured sample_fresh_keys
            sample_workspaces_pkey sample_domains_are_customers
            sample_members_unique sample_sessions_pkey
            sample_user_ids_unique sample_emails_unique).
  - reflexivity.
  - reflexivity.
Defined.

Lemma thread_is_chronological_witness :
  let tw :=
    TicketWithMessages.mk
      (Ticket.mk "t1" "w-demo" "u-member" "Cannot log in" OPEN (Some HIGH)
         None 1000 1000)
      CUSTOMER
      [TicketMessage.mk "msg1" "t1" "u-member" "I cannot log in" 1000] in
  Ticket.id (TicketWithMessages.ticket tw) = "t1"
  /\ Permutation (TicketWithMessages.messages tw)
       (filter (fun m => String.eqb (TicketMessage.ticketId m) "t1")
          (Db.ticketMessages Sample.db))
  /\ StronglySorted
       (fun a b => TicketMessage.createdAt a <= TicketMessage.createdAt b)
       (TicketWithMessages.messages tw).
Proof.
  cbv zeta.
  apply (thread_is_chronological Sample.db "t1" "u-member"). reflexivity.
Defined.
